(** * OpenGameBoost: the process-suspension and game-detection core

    A shallow embedding of [services/suspend_service.py] and
    [services/game_detector.py], and the properties of the game-mode
    session and of the game detector stated over it.

    Python objects are modelled as records of their instance attributes,
    Python sets as [gset], dictionaries as [gmap string value], and methods
    as functions in a small state / exception / trace monad.  The operating
    system (psutil, kernel32, ntdll) is a record of oracles. *)

From Stdlib Require Import ZArith Ascii String List.
From stdpp Require Import base gmap sets list strings.

Local Open Scope string_scope.
Local Open Scope list_scope.
Local Open Scope Z_scope.

(** ** Python values, exceptions and the method monad *)

(** The exception classes (all subclasses of [Exception]) that the two
    services can meet. *)
Inductive exn :=
  | TypeError
  | KeyError
  | AttributeError
  | OSError
  | NoSuchProcess
  | AccessDenied.

(** The bound methods of [SuspendService] that [activate_game_mode] names. *)
Inductive method :=
  | m_suspend_explorer
  | m_suspend_browsers
  | m_suspend_launchers
  | m_suspend_background_apps.

(** Dynamically typed values, as far as the services use them. *)
#[local] Set Warnings "-register-all".
Inductive value :=
  | VNone
  | VBool (b : bool)
  | VInt (z : Z)
  | VStr (s : string)
  | VMethod (m : method)
  | VDict (d : gmap string value).

Abbreviation dict := (gmap string value).

(** Python truthiness ([if v:]). *)
Definition truthy (v : value) : bool :=
  match v with
  | VNone => false
  | VBool b => b
  | VInt z => negb (z =? 0)%Z
  | VStr s => negb (String.eqb s "")
  | VMethod _ => true
  | VDict d => negb (Nat.eqb (size d) 0)
  end.

(** What a call either returns or raises. *)
Inductive outcome (A : Type) :=
  | Ret (a : A)
  | Raise (e : exn).
Arguments Ret {A} a.
Arguments Raise {A} e.

(** A method body: it reads and writes the object [St], returns or raises,
    and leaves a trace of the external calls [Ev] it made.  A raised
    exception keeps the mutations made before it. *)
Definition M (St Ev A : Type) : Type := St -> outcome A * St * list Ev.

Section Monad.
Context {St Ev : Type}.

Definition ret {A} (a : A) : M St Ev A := fun s => (Ret a, s, []).

Definition raise {A} (e : exn) : M St Ev A := fun s => (Raise e, s, []).

Definition bind {A B} (m : M St Ev A) (k : A -> M St Ev B) : M St Ev B :=
  fun s =>
    match m s with
    | (Ret a, s1, t1) =>
        match k a s1 with
        | (r, s2, t2) => (r, s2, t1 ++ t2)
        end
    | (Raise e, s1, t1) => (Raise e, s1, t1)
    end.

Definition get : M St Ev St := fun s => (Ret s, s, []).

Definition modify (f : St -> St) : M St Ev unit := fun s => (Ret tt, f s, []).

Definition emit (e : Ev) : M St Ev unit := fun s => (Ret tt, s, [e]).

(** An oracle's answer, turned into a return or a raise. *)
Definition lift {A} (o : outcome A) : M St Ev A := fun s => (o, s, []).

(** [try: body  except Exception: handler] *)
Definition try_except {A} (body : M St Ev A) (handler : exn -> M St Ev A)
  : M St Ev A :=
  fun s =>
    match body s with
    | (Ret a, s1, t1) => (Ret a, s1, t1)
    | (Raise e, s1, t1) =>
        match handler e s1 with
        | (r, s2, t2) => (r, s2, t1 ++ t2)
        end
    end.

(** [try: body  finally: fin]: [fin] always runs; an exception raised by
    [fin] replaces the body's return value or exception. *)
Definition try_finally {A} (body : M St Ev A) (fin : M St Ev unit)
  : M St Ev A :=
  fun s =>
    match body s with
    | (r, s1, t1) =>
        match fin s1 with
        | (Ret _, s2, t2) => (r, s2, t1 ++ t2)
        | (Raise e, s2, t2) => (Raise e, s2, t1 ++ t2)
        end
    end.
End Monad.

Notation "'let!' x ':=' m 'in' k" := (bind m (fun x => k))
  (at level 10, x name, m at level 100, k at level 200).
Notation "'do!' m 'in' k" := (bind m (fun _ => k))
  (at level 10, m at level 100, k at level 200).

(** Projections of a run. *)
Definition result_of {A St Ev} (r : outcome A * St * list Ev) : outcome A := r.1.1.
Definition state_of {A St Ev} (r : outcome A * St * list Ev) : St := r.1.2.
Definition trace_of {A St Ev} (r : outcome A * St * list Ev) : list Ev := r.2.

Definition returns {A} (o : outcome A) : bool :=
  match o with Ret _ => true | Raise _ => false end.

(** [d[k]]: a missing key raises [KeyError]. *)
Definition getitem {St Ev} (d : dict) (k : string) : M St Ev value :=
  match d !! k with
  | Some v => ret v
  | None => raise KeyError
  end.

(** [a + b] on the values the services add: [int + int]
    ([bool] is a subclass of [int]). *)
Definition as_int (v : value) : option Z :=
  match v with
  | VInt z => Some z
  | VBool b => Some (if b then 1 else 0)
  | _ => None
  end.

Definition py_add {St Ev} (a b : value) : M St Ev value :=
  match as_int a, as_int b with
  | Some x, Some y => ret (VInt (x + y))
  | _, _ => raise TypeError
  end.

(** [d[k] += 1] *)
Definition incr_item {St Ev} (d : dict) (k : string) : M St Ev dict :=
  let! v := getitem d k in
  let! v' := py_add v (VInt 1) in
  ret (<[k := v']> d).

(** ** Strings: [str.lower] on ASCII executable names *)

Definition lower_ascii (c : ascii) : ascii :=
  let n := N_of_ascii c in
  if ((65 <=? n) && (n <=? 90))%N then ascii_of_N (n + 32) else c.

Fixpoint lower (s : string) : string :=
  match s with
  | EmptyString => EmptyString
  | String c s' => String (lower_ascii c) (lower s')
  end.

(** [x in xs] for a list of strings. *)
Definition str_in (x : string) (xs : list string) : bool :=
  existsb (String.eqb x) xs.

(** ** The operating system *)

(** One process met while iterating [psutil.process_iter]: either its
    [info] dictionary (pid, and a name that may be [None]), or an exception
    raised while it is looked at. *)
Inductive proc :=
  | ProcInfo (pid : Z) (name : option string)
  | ProcRaises (e : exn).

(** The calls into kernel32 and ntdll, keyed by the process identifier
    the handle was opened on; [OpenProcess] with the access rights asked. *)
Inductive os_call :=
  | OpenProcess_call (access : Z) (pid : Z)
  | NtSuspendProcess_call (pid : Z)
  | NtResumeProcess_call (pid : Z)
  | CloseHandle_call (pid : Z).

#[global] Instance os_call_eq_dec : EqDecision os_call.
Proof. solve_decision. Defined.

(** The oracles.  [getpid] is the caller's own process identifier
    ([os.getpid()]).  [process_iter] gives the processes the generator
    yields and the exception it ends with, if any.  [OpenProcess] returns a
    handle, [0] when it fails; the [Nt...] calls return an NTSTATUS, [0]
    for STATUS_SUCCESS.  Any of them may also raise. *)
Record OS := {
  getpid : Z;
  process_iter : list proc * option exn;
  OpenProcess : Z -> outcome Z;
  NtSuspendProcess : Z -> outcome Z;
  NtResumeProcess : Z -> outcome Z;
  CloseHandle : Z -> outcome Z;
}.

(** [except (NoSuchProcess, AccessDenied): continue] *)
Definition skipped (e : exn) : bool :=
  match e with
  | NoSuchProcess | AccessDenied => true
  | _ => false
  end.

(** [name and name.lower() ...]: the name is neither [None] nor empty. *)
Definition name_truthy (name : option string) : bool :=
  match name with
  | Some n => negb (String.eqb n "")
  | None => false
  end.

(** The entries a loop over [process_iter] gets to look at: it skips a
    process that raises [NoSuchProcess] or [AccessDenied] and ends at the
    first other exception. *)
Fixpoint readable (ps : list proc) : list (Z * option string) :=
  match ps with
  | [] => []
  | ProcInfo pid name :: ps' => (pid, name) :: readable ps'
  | ProcRaises e :: ps' => if skipped e then readable ps' else []
  end.

(** ** [services/suspend_service.py] *)

Definition BROWSER_PROCESSES : list string :=
  [ "chrome.exe"; "firefox.exe"; "msedge.exe"; "opera.exe"; "brave.exe";
    "vivaldi.exe"; "waterfox.exe"; "iexplore.exe"; "safari.exe";
    "chrome_crashpad_handler.exe"; "firefox_crashpad_handler.exe" ].

Definition LAUNCHER_PROCESSES : list string :=
  [ "steam.exe"; "steamwebhelper.exe"; "steamservice.exe";
    "EpicGamesLauncher.exe"; "EpicWebHelper.exe";
    "Battle.net.exe"; "Agent.exe";
    "EADesktop.exe"; "EABackgroundService.exe"; "Origin.exe";
    "UbisoftConnect.exe"; "upc.exe";
    "GalaxyClient.exe"; "GalaxyClientService.exe";
    "XboxPcApp.exe"; "XboxPcAppFT.exe";
    "Rockstar-Launcher.exe";
    "RiotClientServices.exe" ].

Definition BACKGROUND_PROCESSES : list string :=
  [ "Discord.exe"; "Slack.exe"; "Teams.exe"; "Zoom.exe"; "Skype.exe";
    "Spotify.exe"; "iTunes.exe";
    "OneDrive.exe"; "Dropbox.exe"; "GoogleDriveFS.exe";
    "iCUE.exe"; "NZXT CAM.exe"; "RazerCentral.exe" ].

Module SuspendService.

(** The instance attributes that [__init__] assigns ([self.__dict__]).
    The four [suspend_*] attributes are the category toggles; three of
    them carry the name of a method of the class. *)
Module Attrs.
Record t := mk {
  enabled : bool;
  suspend_explorer : bool;
  suspend_browsers : bool;
  suspend_launchers : bool;
  suspend_background : bool;
  _suspended_pids : gset Z;
  _explorer_pid : option Z;
  _psutil_available : bool;
  _ctypes_available : bool;
}.

Definition with_suspended_pids (f : gset Z -> gset Z) (self : t) : t :=
  mk (enabled self) (suspend_explorer self) (suspend_browsers self)
     (suspend_launchers self) (suspend_background self)
     (f (_suspended_pids self)) (_explorer_pid self)
     (_psutil_available self) (_ctypes_available self).

Definition with_explorer_pid (p : option Z) (self : t) : t :=
  mk (enabled self) (suspend_explorer self) (suspend_browsers self)
     (suspend_launchers self) (suspend_background self)
     (_suspended_pids self) p
     (_psutil_available self) (_ctypes_available self).

Definition with_toggles (e ex br la bg : bool) (self : t) : t :=
  mk e ex br la bg (_suspended_pids self) (_explorer_pid self)
     (_psutil_available self) (_ctypes_available self).
End Attrs.

Abbreviation self_t := Attrs.t.
Abbreviation Meth := (M Attrs.t os_call).

(** [__init__]: the toggles' defaults and an empty tracking state.  The
    arguments say whether [import psutil], [import ctypes] and
    [_setup_windows_apis] went through. *)
Definition __init__ (psutil_ok ctypes_ok setup_ok : bool) : self_t :=
  Attrs.mk true true true true false ∅ None psutil_ok (ctypes_ok && setup_ok).

(** The access rights set by [_setup_windows_apis], and
    [self.PROCESS_SUSPEND_RESUME | self.PROCESS_QUERY_INFORMATION]. *)
Definition PROCESS_SUSPEND_RESUME : Z := 0x0800.
Definition PROCESS_QUERY_INFORMATION : Z := 0x0400.
Definition access_rights : Z :=
  Z.lor PROCESS_SUSPEND_RESUME PROCESS_QUERY_INFORMATION.

(** *** Attribute lookup

    [self.name] looks in the instance dictionary first and in the class
    second: the functions of the class are not data descriptors, so an
    instance attribute of the same name hides the method. *)
Definition instance_attr (self : self_t) (name : string) : option value :=
  if String.eqb name "enabled" then Some (VBool (Attrs.enabled self))
  else if String.eqb name "suspend_explorer" then
    Some (VBool (Attrs.suspend_explorer self))
  else if String.eqb name "suspend_browsers" then
    Some (VBool (Attrs.suspend_browsers self))
  else if String.eqb name "suspend_launchers" then
    Some (VBool (Attrs.suspend_launchers self))
  else if String.eqb name "suspend_background" then
    Some (VBool (Attrs.suspend_background self))
  else if String.eqb name "_explorer_pid" then
    Some (match Attrs._explorer_pid self with
          | Some p => VInt p
          | None => VNone
          end)
  else if String.eqb name "_psutil_available" then
    Some (VBool (Attrs._psutil_available self))
  else if String.eqb name "_ctypes_available" then
    Some (VBool (Attrs._ctypes_available self))
  else None.

Definition class_attr (name : string) : option method :=
  if String.eqb name "suspend_explorer" then Some m_suspend_explorer
  else if String.eqb name "suspend_browsers" then Some m_suspend_browsers
  else if String.eqb name "suspend_launchers" then Some m_suspend_launchers
  else if String.eqb name "suspend_background_apps" then
    Some m_suspend_background_apps
  else None.

Definition getattr (name : string) : Meth value :=
  let! self := get in
  match instance_attr self name with
  | Some v => ret v
  | None =>
      match class_attr name with
      | Some m => ret (VMethod m)
      | None => raise AttributeError
      end
  end.

(** [v[k]] on a returned value: only a dictionary can be subscripted. *)
Definition subscript (v : value) (k : string) : Meth value :=
  match v with
  | VDict d => getitem d k
  | _ => raise TypeError
  end.

Section Methods.
Variable w : OS.

(** [_suspend_process] *)
Definition _suspend_process (pid : Z) : Meth bool :=
  let! self := get in
  if negb (Attrs._ctypes_available self) then ret false
  else
    try_except
      (do! emit (OpenProcess_call access_rights pid) in
       let! handle := lift (OpenProcess w pid) in
       if handle =? 0 then ret false
       else
         try_finally
           (do! emit (NtSuspendProcess_call pid) in
            let! result := lift (NtSuspendProcess w pid) in
            if result =? 0 then
              do! modify (Attrs.with_suspended_pids (fun s => {[pid]} ∪ s)) in
              ret true
            else ret false)
           (do! emit (CloseHandle_call pid) in
            let! _ := lift (CloseHandle w pid) in
            ret tt))
      (fun _ => ret false).

(** [_resume_process] *)
Definition _resume_process (pid : Z) : Meth bool :=
  let! self := get in
  if negb (Attrs._ctypes_available self) then ret false
  else
    try_except
      (do! emit (OpenProcess_call access_rights pid) in
       let! handle := lift (OpenProcess w pid) in
       if handle =? 0 then ret false
       else
         try_finally
           (do! emit (NtResumeProcess_call pid) in
            let! result := lift (NtResumeProcess w pid) in
            if result =? 0 then
              do! modify (Attrs.with_suspended_pids (fun s => s ∖ {[pid]})) in
              ret true
            else ret false)
           (do! emit (CloseHandle_call pid) in
            let! _ := lift (CloseHandle w pid) in
            ret tt))
      (fun _ => ret false).

(** The loop of [_get_pids_by_name].  A process that raises
    [NoSuchProcess] or [AccessDenied] is skipped; any other exception
    leaves the loop through the outer [except], which only logs, so the
    identifiers gathered so far are returned. *)
Fixpoint get_pids_loop (names_lower : list string) (ps : list proc)
    (pids : list Z) : list Z :=
  match ps with
  | [] => pids
  | ProcInfo pid name :: ps' =>
      match name with
      | Some n =>
          if name_truthy name && str_in (lower n) names_lower
          then get_pids_loop names_lower ps' (pids ++ [pid])
          else get_pids_loop names_lower ps' pids
      | None => get_pids_loop names_lower ps' pids
      end
  | ProcRaises e :: ps' =>
      if skipped e then get_pids_loop names_lower ps' pids else pids
  end.

(** [_get_pids_by_name] *)
Definition _get_pids_by_name (process_names : list string) : Meth (list Z) :=
  let! self := get in
  if negb (Attrs._psutil_available self) then ret []
  else
    let names_lower := map lower process_names in
    ret (get_pids_loop names_lower (process_iter w).1 []).

(** The loop of the method [suspend_explorer]: the first explorer.exe
    whose suspension succeeds becomes the shell identifier. *)
Fixpoint suspend_explorer_loop (ps : list proc) : Meth bool :=
  match ps with
  | [] => ret false
  | ProcInfo pid name :: ps' =>
      match name with
      | Some n =>
          if name_truthy name && String.eqb (lower n) "explorer.exe" then
            let! ok := _suspend_process pid in
            if ok then
              do! modify (Attrs.with_explorer_pid (Some pid)) in
              ret true
            else suspend_explorer_loop ps'
          else suspend_explorer_loop ps'
      | None => suspend_explorer_loop ps'
      end
  | ProcRaises e :: ps' =>
      if skipped e then suspend_explorer_loop ps' else ret false
  end.

(** The method [suspend_explorer] of the class. *)
Definition suspend_explorer : Meth bool :=
  let! self := get in
  if negb (Attrs._psutil_available self) then ret false
  else suspend_explorer_loop (process_iter w).1.

(** [resume_explorer] *)
Definition resume_explorer : Meth bool :=
  let! self := get in
  match Attrs._explorer_pid self with
  | Some pid =>
      if truthy (VInt pid) then
        let! result := _resume_process pid in
        if result then
          do! modify (Attrs.with_explorer_pid None) in
          ret result
        else ret result
      else ret true
  | None => ret true
  end.

(** [for pid in pids: if self._suspend_process(pid): ... else: ...] *)
Fixpoint suspend_each (pids : list Z) (results : dict) : Meth dict :=
  match pids with
  | [] => ret results
  | pid :: pids' =>
      let! ok := _suspend_process pid in
      let! results := incr_item results (if ok then "suspended" else "failed") in
      suspend_each pids' results
  end.

(** The common body of [suspend_browsers], [suspend_launchers] and
    [suspend_background_apps], which differ in the name list only. *)
Definition suspend_named (process_names : list string) : Meth dict :=
  let results : dict := <["failed" := VInt 0]> {["suspended" := VInt 0]} in
  let! pids := _get_pids_by_name process_names in
  suspend_each pids results.

Definition suspend_browsers : Meth dict := suspend_named BROWSER_PROCESSES.
Definition suspend_launchers : Meth dict := suspend_named LAUNCHER_PROCESSES.
Definition suspend_background_apps : Meth dict :=
  suspend_named BACKGROUND_PROCESSES.

(** Calling a value: a method runs, anything else is not callable. *)
Definition call (f : value) : Meth value :=
  match f with
  | VMethod m_suspend_explorer =>
      let! b := suspend_explorer in ret (VBool b)
  | VMethod m_suspend_browsers =>
      let! d := suspend_browsers in ret (VDict d)
  | VMethod m_suspend_launchers =>
      let! d := suspend_launchers in ret (VDict d)
  | VMethod m_suspend_background_apps =>
      let! d := suspend_background_apps in ret (VDict d)
  | _ => raise TypeError
  end.

(** [activate_game_mode] *)
Definition activate_game_mode : Meth dict :=
  let! en := getattr "enabled" in
  if negb (truthy en) then ret {["status" := VStr "disabled"]}
  else
    let results : dict :=
      <["background_suspended" := VInt 0]>
      (<["launchers_suspended" := VInt 0]>
      (<["browsers_suspended" := VInt 0]>
      (<["explorer_suspended" := VBool false]>
      {["status" := VStr "activated"]}))) in
    let! flag := getattr "suspend_explorer" in
    let! results :=
      (if truthy flag then
         let! f := getattr "suspend_explorer" in
         let! r := call f in
         ret (<["explorer_suspended" := r]> results)
       else ret results) in
    let! flag := getattr "suspend_browsers" in
    let! results :=
      (if truthy flag then
         let! f := getattr "suspend_browsers" in
         let! browser_results := call f in
         let! n := subscript browser_results "suspended" in
         ret (<["browsers_suspended" := n]> results)
       else ret results) in
    let! flag := getattr "suspend_launchers" in
    let! results :=
      (if truthy flag then
         let! f := getattr "suspend_launchers" in
         let! launcher_results := call f in
         let! n := subscript launcher_results "suspended" in
         ret (<["launchers_suspended" := n]> results)
       else ret results) in
    let! flag := getattr "suspend_background" in
    let! results :=
      (if truthy flag then
         let! f := getattr "suspend_background_apps" in
         let! bg_results := call f in
         let! n := subscript bg_results "suspended" in
         ret (<["background_suspended" := n]> results)
       else ret results) in
    let! e := getitem results "explorer_suspended" in
    let! b := getitem results "browsers_suspended" in
    let! l := getitem results "launchers_suspended" in
    let! g := getitem results "background_suspended" in
    let! t1 := py_add (VInt (if truthy e then 1 else 0)) b in
    let! t2 := py_add t1 l in
    let! total := py_add t2 g in
    ret (<["total_suspended" := total]> results).

(** [for pid in list(self._suspended_pids): ...]; the list is taken once,
    before the loop, in the order [elements] gives (Python leaves the
    order of a set open). *)
Fixpoint resume_each (pids : list Z) (results : dict) : Meth dict :=
  match pids with
  | [] => ret results
  | pid :: pids' =>
      let! ok := _resume_process pid in
      let! results := incr_item results (if ok then "resumed" else "failed") in
      resume_each pids' results
  end.

(** [deactivate_game_mode] *)
Definition deactivate_game_mode : Meth dict :=
  let results : dict :=
    <["failed" := VInt 0]>
    (<["resumed" := VInt 0]> {["status" := VStr "deactivated"]}) in
  let! shell := getattr "_explorer_pid" in
  let! results :=
    (if truthy shell then
       let! ok := resume_explorer in
       incr_item results (if ok then "resumed" else "failed")
     else ret results) in
  let! self := get in
  resume_each (elements (Attrs._suspended_pids self)) results.
End Methods.

(** *** What the kernel answers, read off the oracles *)

(** No usable handle: [OpenProcess] returned [0] or raised. *)
Definition open_fails (w : OS) (pid : Z) : bool :=
  match OpenProcess w pid with
  | Ret handle => handle =? 0
  | Raise _ => true
  end.

Definition status_success (o : outcome Z) : bool :=
  match o with
  | Ret result => result =? 0
  | Raise _ => false
  end.

(** The process is opened and [NtSuspendProcess] reports STATUS_SUCCESS. *)
Definition freezes (w : OS) (pid : Z) : bool :=
  negb (open_fails w pid) && status_success (NtSuspendProcess w pid).

(** The process is opened and [NtResumeProcess] reports STATUS_SUCCESS. *)
Definition thaws (w : OS) (pid : Z) : bool :=
  negb (open_fails w pid) && status_success (NtResumeProcess w pid).

(** [CloseHandle] comes back without raising. *)
Definition closes (w : OS) (pid : Z) : bool := returns (CloseHandle w pid).

(** [_suspend_process] returns [True]; it has added the identifier as
    soon as the transition succeeded, whatever [CloseHandle] does. *)
Definition suspend_ok (w : OS) (self : self_t) (pid : Z) : bool :=
  Attrs._ctypes_available self && freezes w pid && closes w pid.

Definition suspend_adds (w : OS) (self : self_t) (pid : Z) : bool :=
  Attrs._ctypes_available self && freezes w pid.

(** [_resume_process] returns [True]; it has discarded the identifier as
    soon as the transition succeeded. *)
Definition resume_ok (w : OS) (self : self_t) (pid : Z) : bool :=
  Attrs._ctypes_available self && thaws w pid && closes w pid.

Definition resume_discards (w : OS) (self : self_t) (pid : Z) : bool :=
  Attrs._ctypes_available self && thaws w pid.

(** The dictionary [{"suspended": a, "failed": b}] of a batch. *)
Definition counts (a b : Z) : dict :=
  <["failed" := VInt b]> {["suspended" := VInt a]}.

(** The dictionary that [activate_game_mode] returns when it returns
    with mode "activated". *)
Definition activated (explorer : bool) (browsers launchers background : Z)
    : dict :=
  <["total_suspended" :=
      VInt ((if explorer then 1 else 0) + browsers + launchers + background)]>
  (<["background_suspended" := VInt background]>
  (<["launchers_suspended" := VInt launchers]>
  (<["browsers_suspended" := VInt browsers]>
  (<["explorer_suspended" := VBool explorer]>
  {["status" := VStr "activated"]})))).

(** The dictionary that [deactivate_game_mode] returns. *)
Definition deactivated (resumed failed : Z) : dict :=
  <["failed" := VInt failed]>
  (<["resumed" := VInt resumed]> {["status" := VStr "deactivated"]}).

(** The identifiers a name list resolves to. *)
Definition resolve (w : OS) (self : self_t) (process_names : list string)
    : list Z :=
  if Attrs._psutil_available self
  then get_pids_loop (map lower process_names) (process_iter w).1 []
  else [].

(** How many of [pids] satisfy [f]. *)
Definition tally (f : Z -> bool) (pids : list Z) : Z :=
  Z.of_nat (length (List.filter f pids)).

(** The kernel calls of one suspend or resume ([nt] is the transition). *)
Definition primitive_calls (nt : Z -> os_call) (w : OS) (pid : Z)
    : list os_call :=
  OpenProcess_call access_rights pid ::
  (if open_fails w pid then [] else [nt pid; CloseHandle_call pid]).

(** The shell identifier, when [if self._explorer_pid:] holds. *)
Definition shell_tracked (self : self_t) : list Z :=
  match Attrs._explorer_pid self with
  | Some pid => if truthy (VInt pid) then [pid] else []
  | None => []
  end.

(** The shell identifier as [resume_explorer] leaves it: cleared when the
    resume returned [True], kept otherwise. *)
Definition shell_after (w : OS) (self : self_t) : option Z :=
  match Attrs._explorer_pid self with
  | Some pid =>
      if truthy (VInt pid) && resume_ok w self pid then None else Some pid
  | None => None
  end.

(** The identifiers [deactivate_game_mode] calls [_resume_process] on, in
    order: the shell first, then the set as it is after the shell. *)
Definition resume_attempts (w : OS) (self : self_t) : list Z :=
  let after_shell :=
    foldr (fun pid s => if resume_discards w self pid then s ∖ {[pid]} else s)
          (Attrs._suspended_pids self) (shell_tracked self) in
  shell_tracked self ++ elements after_shell.

(** *** The public operations of a session

    [Configure] stands for the caller assigning the five toggles. *)
Inductive operation :=
  | Configure (enabled explorer browsers launchers background : bool)
  | Activate
  | Deactivate
  | SuspendExplorer
  | ResumeExplorer
  | SuspendBrowsers
  | SuspendLaunchers
  | SuspendBackgroundApps.

Definition run_operation (w : OS) (op : operation) (self : self_t) : self_t :=
  match op with
  | Configure e ex br la bg => Attrs.with_toggles e ex br la bg self
  | Activate => state_of (activate_game_mode w self)
  | Deactivate => state_of (deactivate_game_mode w self)
  | SuspendExplorer => state_of (suspend_explorer w self)
  | ResumeExplorer => state_of (resume_explorer w self)
  | SuspendBrowsers => state_of (suspend_browsers w self)
  | SuspendLaunchers => state_of (suspend_launchers w self)
  | SuspendBackgroundApps => state_of (suspend_background_apps w self)
  end.

(** A session: operations run one after the other, each against the
    process table of its moment. *)
Definition run_session (steps : list (OS * operation)) (self : self_t)
    : self_t :=
  foldl (fun s step => run_operation step.1 step.2 s) self steps.

(** The names any category resolves. *)
Definition category_names : list string :=
  "explorer.exe" :: map lower
    (BROWSER_PROCESSES ++ LAUNCHER_PROCESSES ++ BACKGROUND_PROCESSES).

(** No process-table entry carries the caller's own identifier under a
    name that a category resolves. *)
Definition caller_unmatched (w : OS) : bool :=
  forallb (fun p =>
             match p with
             | ProcInfo pid (Some n) =>
                 negb ((pid =? getpid w) && str_in (lower n) category_names)
             | _ => true
             end)
          (process_iter w).1.

(** *** Reporting *)

(** [get_status]; it only reads the attributes. *)
Definition get_status (self : self_t) : dict :=
  let tracked := Z.of_nat (size (Attrs._suspended_pids self)) in
  let shell :=
    match Attrs._explorer_pid self with
    | Some p => VInt p
    | None => VNone
    end in
  let is_not_none :=
    match Attrs._explorer_pid self with
    | Some _ => true
    | None => false
    end in
  <["settings" :=
      VDict (<["suspend_background" := VBool (Attrs.suspend_background self)]>
            (<["suspend_launchers" := VBool (Attrs.suspend_launchers self)]>
            (<["suspend_browsers" := VBool (Attrs.suspend_browsers self)]>
            {["suspend_explorer" := VBool (Attrs.suspend_explorer self)]})))]>
  (<["explorer_suspended" := VBool is_not_none]>
  (<["suspended_count" := VInt (tracked + (if truthy shell then 1 else 0))]>
  (<["game_mode_active" := VBool ((0 <? tracked) || is_not_none)]>
  {["enabled" := VBool (Attrs.enabled self)]}))).

(** The result of [get_suspendable_processes]: a dictionary of name lists. *)
Abbreviation listing := (gmap string (list string)).

(** [if name not in result[key]: result[key].append(name)] *)
Definition note_name (key name : string) (result : listing)
    : outcome listing :=
  match result !! key with
  | Some names =>
      Ret (if str_in name names then result
           else <[key := names ++ [name]]> result)
  | None => Raise KeyError
  end.

(** The loop of [get_suspendable_processes]; whatever leaves it through
    the outer [except] returns the listing built so far. *)
Fixpoint suspendable_loop (ps : list proc) (result : listing) : listing :=
  match ps with
  | [] => result
  | ProcInfo pid name :: ps' =>
      match name with
      | Some n =>
          if negb (name_truthy name) then suspendable_loop ps' result
          else
            let name_lower := lower n in
            if str_in name_lower (map lower BROWSER_PROCESSES) then
              match note_name "browsers" n result with
              | Ret result' => suspendable_loop ps' result'
              | Raise _ => result
              end
            else if str_in name_lower (map lower LAUNCHER_PROCESSES) then
              match note_name "launchers" n result with
              | Ret result' => suspendable_loop ps' result'
              | Raise _ => result
              end
            else if str_in name_lower (map lower BACKGROUND_PROCESSES) then
              match note_name "background" n result with
              | Ret result' => suspendable_loop ps' result'
              | Raise _ => result
              end
            else suspendable_loop ps' result
      | None => suspendable_loop ps' result
      end
  | ProcRaises e :: ps' =>
      if skipped e then suspendable_loop ps' result else result
  end.

(** [get_suspendable_processes] *)
Definition get_suspendable_processes (w : OS) (self : self_t) : listing :=
  if negb (Attrs._psutil_available self) then ∅
  else
    suspendable_loop (process_iter w).1
      (<["background" := []]> (<["launchers" := []]> {["browsers" := []]})).

(** The names listed under [key]. *)
Definition listed (key : string) (result : listing) : list string :=
  default [] (result !! key).

(** [name] is the name of a process the loop looked at. *)
Definition running_name (w : OS) (name : string) : Prop :=
  exists pid, (pid, Some name) ∈ readable (process_iter w).1.

(** The key [get_suspendable_processes] files a name under: the first
    category, in the order of its [if]/[elif] chain, that lists the name
    in lower case. *)
Definition category_of (name : string) : option string :=
  if str_in (lower name) (map lower BROWSER_PROCESSES) then Some "browsers"
  else if str_in (lower name) (map lower LAUNCHER_PROCESSES) then
    Some "launchers"
  else if str_in (lower name) (map lower BACKGROUND_PROCESSES) then
    Some "background"
  else None.

(** The shell's name, compared in lower case. *)
Definition is_explorer (name : string) : bool :=
  String.eqb (lower name) "explorer.exe".

End SuspendService.

(** ** [services/game_detector.py] *)

(** The catalog, in the insertion order of the dictionary. *)
Definition SUPPORTED_GAMES : list (string * list string) :=
  [ ("Call of Duty",
      ["cod.exe"; "ModernWarfare.exe"; "BlackOpsColdWar.exe"; "cod.exe"]);
    ("Fortnite", ["FortniteClient-Win64-Shipping.exe"; "FortniteLauncher.exe"]);
    ("Apex Legends", ["r5apex.exe"]);
    ("Counter-Strike 2", ["cs2.exe"]);
    ("Valheim", ["valheim.exe"]);
    ("DOTA 2", ["dota2.exe"]);
    ("League of Legends", ["League of Legends.exe"; "LeagueClient.exe"]);
    ("Overwatch", ["Overwatch.exe"]);
    ("Valorant", ["VALORANT-Win64-Shipping.exe"]);
    ("GTA V", ["GTA5.exe"]);
    ("Red Dead Redemption 2", ["RDR2.exe"]);
    ("Cyberpunk 2077", ["Cyberpunk2077.exe"]);
    ("Minecraft", ["javaw.exe"; "Minecraft.Windows.exe"]);
    ("Elden Ring", ["eldenring.exe"]);
    ("Baldur's Gate 3", ["bg3.exe"; "bg3_dx11.exe"]);
    ("Diablo IV", ["Diablo IV.exe"]);
    ("Path of Exile", ["PathOfExile_x64.exe"; "PathOfExileSteam.exe"]);
    ("World of Warcraft", ["Wow.exe"; "WowClassic.exe"]) ].

Module GameDetectorService.

(** A callable handed in by the caller; the detector only calls it. *)
Definition callback := nat.

(** One call [cb(game)] made by the detector. *)
Inductive notification :=
  | Notify (cb : callback) (game : string).

Record t := mk {
  enabled : bool;
  auto_optimize : bool;
  check_interval : Z;
  detected_games : list string;
  on_game_detected : option callback;
  on_game_closed : option callback;
  _running : bool;
  _psutil_available : bool;
  _win32_available : bool;
}.

Definition with_detected_games (l : list string) (self : t) : t :=
  mk (enabled self) (auto_optimize self) (check_interval self) l
     (on_game_detected self) (on_game_closed self) (_running self)
     (_psutil_available self) (_win32_available self).

Abbreviation Meth := (M t notification).

(** [__init__]; the arguments say whether psutil and pywin32 import. *)
Definition __init__ (psutil_ok win32_ok : bool) : t :=
  mk true true 5 [] None None false psutil_ok win32_ok.

(** [for game_name, process_names in SUPPORTED_GAMES.items(): ... break]:
    the first catalog entry that lists the lower-cased name. *)
Fixpoint match_game (catalog : list (string * list string))
    (proc_name : string) : option string :=
  match catalog with
  | [] => None
  | (game_name, process_names) :: catalog' =>
      if str_in (lower proc_name) (map lower process_names)
      then Some game_name
      else match_game catalog' proc_name
  end.

(** The process loop of [_check_games]; an exception other than
    [NoSuchProcess] and [AccessDenied] leaves it. *)
Fixpoint scan (ps : list proc) (current_games : gset string)
    : outcome (gset string) :=
  match ps with
  | [] => Ret current_games
  | ProcInfo pid name :: ps' =>
      match name with
      | Some proc_name =>
          if name_truthy name then
            match match_game SUPPORTED_GAMES proc_name with
            | Some game_name => scan ps' ({[game_name]} ∪ current_games)
            | None => scan ps' current_games
            end
          else scan ps' current_games
      | None => scan ps' current_games
      end
  | ProcRaises e :: ps' =>
      if skipped e then scan ps' current_games else Raise e
  end.

(** The whole iteration over [process_iter], with the exception the
    generator may end with. *)
Definition scan_processes (w : OS) : outcome (gset string) :=
  match scan (process_iter w).1 ∅ with
  | Ret current_games =>
      match (process_iter w).2 with
      | Some e => Raise e
      | None => Ret current_games
      end
  | Raise e => Raise e
  end.

(** [for game in current_games - previous_games: ...], in the order
    [elements] gives. *)
Fixpoint notify_detected (games : list string) : Meth unit :=
  match games with
  | [] => ret tt
  | game :: games' =>
      let! self := get in
      do! (if auto_optimize self then
             match on_game_detected self with
             | Some cb => emit (Notify cb game)
             | None => ret tt
             end
           else ret tt) in
      notify_detected games'
  end.

(** [for game in previous_games - current_games: ...] *)
Fixpoint notify_closed (games : list string) : Meth unit :=
  match games with
  | [] => ret tt
  | game :: games' =>
      let! self := get in
      do! (match on_game_closed self with
           | Some cb => emit (Notify cb game)
           | None => ret tt
           end) in
      notify_closed games'
  end.

(** [_check_games] *)
Definition _check_games (w : OS) : Meth unit :=
  let! self := get in
  if negb (_psutil_available self) then ret tt
  else
    match scan_processes w with
    | Raise _ => ret tt
    | Ret current_games =>
        let! self := get in
        let previous_games : gset string := list_to_set (detected_games self) in
        do! notify_detected (elements (current_games ∖ previous_games)) in
        do! notify_closed (elements (previous_games ∖ current_games)) in
        modify (with_detected_games (elements current_games))
    end.

(** The iterations of [_detection_loop] while [_running] stays set, one
    per process table the loop gets to see. *)
Fixpoint _detection_loop (ws : list OS) : Meth unit :=
  match ws with
  | [] => ret tt
  | w :: ws' =>
      let! self := get in
      do! (if enabled self then _check_games w else ret tt) in
      _detection_loop ws'
  end.

(** [get_running_games]: a copy of the stored list. *)
Definition get_running_games (self : t) : list string := detected_games self.

(** [is_game_running] *)
Definition is_game_running (self : t) (game_name : string) : bool :=
  str_in game_name (detected_games self).

(** [get_supported_games]: the keys of the catalog. *)
Definition get_supported_games : list string := map fst SUPPORTED_GAMES.

(** The catalog entries do not overlap: no entry lists, in lower case, an
    executable that an earlier entry lists. *)
Fixpoint entries_disjoint (catalog : list (string * list string)) : bool :=
  match catalog with
  | [] => true
  | (_, process_names) :: catalog' =>
      forallb (fun entry =>
                 forallb (fun p => negb (str_in (lower p)
                                           (map lower process_names)))
                         entry.2)
              catalog'
      && entries_disjoint catalog'
  end.

(** *** Bringing a game to the front *)

(** The window functions of pywin32 that [focus_game] calls, as oracles.
    [windows] are the top-level windows in the order [EnumWindows] visits
    them; [enum_stopped] is what [EnumWindows] does once its callback has
    told it to stop. *)
Record Win32 := {
  windows : list Z;
  GetWindowThreadProcessId : Z -> outcome (Z * Z);
  IsWindowVisible : Z -> outcome bool;
  SetForegroundWindow : Z -> outcome unit;
  enum_stopped : outcome unit;
}.

(** The one window call with an effect. *)
Inductive win_call :=
  | SetForegroundWindow_call (hwnd : Z).

Abbreviation Win := (M unit win_call).

(** [SUPPORTED_GAMES.get(game_name, [])] *)
Fixpoint catalog_get (catalog : list (string * list string))
    (game_name : string) : list string :=
  match catalog with
  | [] => []
  | (name, process_names) :: catalog' =>
      if String.eqb name game_name then process_names
      else catalog_get catalog' game_name
  end.

(** The nested [callback(hwnd, pids)] of [focus_game], for the process
    [pid]; [False] stops the enumeration. *)
Definition focus_callback (g : Win32) (pid hwnd : Z) : Win bool :=
  let! found := lift (GetWindowThreadProcessId g hwnd) in
  if found.2 =? pid then
    let! visible := lift (IsWindowVisible g hwnd) in
    if (visible : bool) then
      do! emit (SetForegroundWindow_call hwnd) in
      do! lift (SetForegroundWindow g hwnd) in
      ret false
    else ret true
  else ret true.

(** [EnumWindows(callback, pid)] over the windows left to visit. *)
Fixpoint EnumWindows (g : Win32) (pid : Z) (hwnds : list Z) : Win unit :=
  match hwnds with
  | [] => ret tt
  | hwnd :: hwnds' =>
      let! go_on := focus_callback g pid hwnd in
      if (go_on : bool) then EnumWindows g pid hwnds'
      else lift (enum_stopped g)
  end.

(** The process loop of [focus_game].  The name is lower-cased without a
    test for [None], so a process without a name raises
    [AttributeError], which the inner [except] does not skip. *)
Fixpoint focus_loop (g : Win32) (names_lower : list string) (ps : list proc)
    : Win bool :=
  match ps with
  | [] => ret false
  | ProcInfo pid name :: ps' =>
      let! returned :=
        try_except
          (match name with
           | Some n =>
               if str_in (lower n) names_lower then
                 do! EnumWindows g pid (windows g) in
                 ret (Some true)
               else ret None
           | None => raise AttributeError
           end)
          (fun e => if skipped e then ret None else raise e) in
      match returned with
      | Some b => ret b
      | None => focus_loop g names_lower ps'
      end
  | ProcRaises e :: ps' =>
      if skipped e then focus_loop g names_lower ps' else raise e
  end.

(** [focus_game]: its result and the window calls it made. *)
Definition focus_game (w : OS) (g : Win32) (self : t) (game_name : string)
    : bool * list win_call :=
  if negb (_win32_available self) || negb (_psutil_available self)
  then (false, [])
  else
    let process_names := catalog_get SUPPORTED_GAMES game_name in
    match process_names with
    | [] => (false, [])
    | _ :: _ =>
        match try_except
                (focus_loop g (map lower process_names) (process_iter w).1)
                (fun _ => ret false) tt with
        | (Ret b, _, calls) => (b, calls)
        | (Raise _, _, calls) => (false, calls)
        end
    end.

End GameDetectorService.

(** ** [main.py]: the callers of the two services *)

Module OpenGameBoostApp.

(** The optimization services next to the two modelled ones, as oracles:
    each call returns or raises. *)
Record Collaborators := {
  optimize_memory : outcome unit;
  set_high_performance : outcome unit;
  optimize_network : outcome unit;
  apply_all_optimizations : outcome unit;
  restore_power_plan : outcome unit;
  restore_network : outcome unit;
}.

(** The application object: the services ([None] off Windows), the
    toggles of the window and the game-mode flag. *)
Record t := mk {
  suspend_service : option SuspendService.self_t;
  game_detector : option GameDetectorService.t;
  memory_service : bool;
  network_service : bool;
  power_service : bool;
  registry_service : bool;
  suspend_explorer_var : bool;
  suspend_browsers_var : bool;
  suspend_launchers_var : bool;
  memory_opt_var : bool;
  power_opt_var : bool;
  network_opt_var : bool;
  registry_opt_var : bool;
  game_mode_active : bool;
}.

Definition with_suspend_service (svc : SuspendService.self_t) (app : t) : t :=
  mk (Some svc) (game_detector app) (memory_service app) (network_service app)
     (power_service app) (registry_service app) (suspend_explorer_var app)
     (suspend_browsers_var app) (suspend_launchers_var app)
     (memory_opt_var app) (power_opt_var app) (network_opt_var app)
     (registry_opt_var app) (game_mode_active app).

Definition with_game_detector (d : GameDetectorService.t) (app : t) : t :=
  mk (suspend_service app) (Some d) (memory_service app) (network_service app)
     (power_service app) (registry_service app) (suspend_explorer_var app)
     (suspend_browsers_var app) (suspend_launchers_var app)
     (memory_opt_var app) (power_opt_var app) (network_opt_var app)
     (registry_opt_var app) (game_mode_active app).

Definition with_game_mode_active (b : bool) (app : t) : t :=
  mk (suspend_service app) (game_detector app) (memory_service app)
     (network_service app) (power_service app) (registry_service app)
     (suspend_explorer_var app) (suspend_browsers_var app)
     (suspend_launchers_var app) (memory_opt_var app) (power_opt_var app)
     (network_opt_var app) (registry_opt_var app) b.

(** What [root.after(0, ...)] hands to the window's thread. *)
Inductive scheduled :=
  | _on_game_mode_activated (results : dict)
  | _on_game_mode_deactivated
  | _on_game_mode_error.

(** What the application does to the outside. *)
Inductive app_call :=
  | kernel (c : os_call)
  | notified (n : GameDetectorService.notification)
  | optimize_memory_call
  | set_high_performance_call
  | optimize_network_call
  | apply_all_optimizations_call
  | restore_power_plan_call
  | restore_network_call
  | game_status_text (text : string)
  | after (cb : scheduled).

Abbreviation App := (M t app_call).

(** A method of the suspend service, run on the application's instance. *)
Definition on_suspend_service {A} (svc : SuspendService.self_t)
    (m : SuspendService.Meth A) : App A :=
  fun app =>
    match m svc with
    | (r, svc', calls) => (r, with_suspend_service svc' app, map kernel calls)
    end.

(** A method of the detector, run on the application's instance. *)
Definition on_game_detector {A} (d : GameDetectorService.t)
    (m : GameDetectorService.Meth A) : App A :=
  fun app =>
    match m d with
    | (r, d', calls) => (r, with_game_detector d' app, map notified calls)
    end.

(** One collaborator call. *)
Definition collaborate (c : app_call) (o : outcome unit) : App unit :=
  do! emit c in lift o.

(** [result.get("total_suspended", 0)] *)
Definition dict_get (d : dict) (k : string) (default : value) : value :=
  match d !! k with
  | Some v => v
  | None => default
  end.

(** The nested [run_activation] of [_activate_game_mode].  The three
    assignments to [should_suspend_explorer], [should_suspend_browsers]
    and [should_suspend_launchers] create attributes that no method of
    the service reads, so they leave the service's record as it is. *)
Definition run_activation (w : OS) (c : Collaborators) : App unit :=
  try_except
    (let results : dict := {["suspended" := VInt 0]} in
     let! app := get in
     let! results :=
       (match suspend_service app with
        | Some svc =>
            let! result :=
              on_suspend_service svc (SuspendService.activate_game_mode w) in
            ret (<["suspended" :=
                     dict_get result "total_suspended" (VInt 0)]> results)
        | None => ret results
        end) in
     let! app := get in
     do! (if memory_opt_var app && memory_service app
          then collaborate optimize_memory_call (optimize_memory c)
          else ret tt) in
     do! (if power_opt_var app && power_service app
          then collaborate set_high_performance_call (set_high_performance c)
          else ret tt) in
     do! (if network_opt_var app && network_service app
          then collaborate optimize_network_call (optimize_network c)
          else ret tt) in
     do! (if registry_opt_var app && registry_service app
          then collaborate apply_all_optimizations_call
                 (apply_all_optimizations c)
          else ret tt) in
     emit (after (_on_game_mode_activated results)))
    (fun _ => emit (after _on_game_mode_error)).

(** The nested [run_deactivation] of [_deactivate_game_mode]. *)
Definition run_deactivation (w : OS) (c : Collaborators) : App unit :=
  try_except
    (let! app := get in
     do! (match suspend_service app with
          | Some svc =>
              do! on_suspend_service svc
                    (SuspendService.deactivate_game_mode w) in
              ret tt
          | None => ret tt
          end) in
     let! app := get in
     do! (if power_service app
          then collaborate restore_power_plan_call (restore_power_plan c)
          else ret tt) in
     do! (if network_opt_var app && network_service app
          then collaborate restore_network_call (restore_network c)
          else ret tt) in
     emit (after _on_game_mode_deactivated))
    (fun _ => emit (after _on_game_mode_error)).

(** [", ".join(games)] *)
Fixpoint join (sep : string) (parts : list string) : string :=
  match parts with
  | [] => ""
  | [part] => part
  | part :: parts' => part +:+ sep +:+ join sep parts'
  end.

(** [_scan_games]: one tick at once, whatever the detector's [enabled]
    says, then the game-mode flag from the stored list.  The labels that
    [_set_game_mode] recolours are left out. *)
Definition _scan_games (w : OS) : App bool :=
  let! app := get in
  match game_detector app with
  | None => ret false
  | Some d =>
      do! on_game_detector d (GameDetectorService._check_games w) in
      let! app := get in
      let games :=
        match game_detector app with
        | Some d' => GameDetectorService.get_running_games d'
        | None => []
        end in
      do! (match games with
           | _ :: _ =>
               do! emit (game_status_text ("Detected: " +:+ join ", " games)) in
               modify (with_game_mode_active true)
           | [] =>
               do! emit (game_status_text "No games detected") in
               modify (with_game_mode_active false)
           end) in
      ret true
  end.

(** Whether a call is a hand-over to the window's thread. *)
Definition is_after (c : app_call) : bool :=
  match c with
  | after _ => true
  | _ => false
  end.

(** No hand-over among the calls. *)
Definition quiet (calls : list app_call) : Prop :=
  Forall (fun c => is_after c = false) calls.

(** A computation that never hands over. *)
Definition stays_quiet {A} (m : App A) : Prop :=
  forall app, quiet (trace_of (m app)).

(** A computation that, when it returns, has handed over exactly once, as
    its last call, a callback among [expected]; and, when it raises, has
    not handed over. *)
Definition hands_over {A} (expected : scheduled -> Prop) (m : App A) : Prop :=
  forall app,
    match result_of (m app) with
    | Ret _ =>
        exists calls cb,
          trace_of (m app) = calls ++ [after cb] /\ quiet calls /\
          expected cb
    | Raise _ => quiet (trace_of (m app))
    end.

(** The callbacks a finished activation may schedule. *)
Definition activation_outcome (cb : scheduled) : Prop :=
  cb = _on_game_mode_error \/
  exists results : dict, cb = _on_game_mode_activated results.

(** The callbacks a finished deactivation may schedule. *)
Definition deactivation_outcome (cb : scheduled) : Prop :=
  cb = _on_game_mode_error \/ cb = _on_game_mode_deactivated.

End OpenGameBoostApp.

(** ** Concrete process tables and sessions *)

(** A machine on which every kernel call succeeds, except that resuming
    the processes of [stuck] reports an error status. *)
Definition machine (own : Z) (procs : list proc) (stuck : list Z) : OS :=
  {| getpid := own;
     process_iter := (procs, None);
     OpenProcess := fun _ => Ret 64;
     NtSuspendProcess := fun _ => Ret 0;
     NtResumeProcess :=
       fun pid => if existsb (Z.eqb pid) stuck then Ret 5 else Ret 0;
     CloseHandle := fun _ => Ret 1 |}.

(** A machine on which no process can be opened. *)
Definition locked_machine (own : Z) (procs : list proc) : OS :=
  {| getpid := own;
     process_iter := (procs, None);
     OpenProcess := fun _ => Ret 0;
     NtSuspendProcess := fun _ => Ret 0;
     NtResumeProcess := fun _ => Ret 0;
     CloseHandle := fun _ => Ret 1 |}.

(** A desktop with a chat client, the shell and a browser running; the
    caller is process 1. *)
Definition desktop : list proc :=
  [ ProcInfo 100 (Some "Discord.exe");
    ProcInfo 4 (Some "explorer.exe");
    ProcInfo 7 (Some "Chrome.exe") ].

(** A fresh service, as [SuspendService()] builds it on Windows. *)
Definition fresh_service : SuspendService.self_t :=
  SuspendService.__init__ true true true.

(** The service with only the background category switched on. *)
Definition background_only : SuspendService.self_t :=
  SuspendService.Attrs.with_toggles true false false false true fresh_service.

(** The service switched off. *)
Definition disabled_service : SuspendService.self_t :=
  SuspendService.Attrs.with_toggles false true true true false fresh_service.

(** A session that tracks the shell (process 4) and a browser (process 7). *)
Definition tracking_shell : SuspendService.self_t :=
  SuspendService.Attrs.with_explorer_pid (Some 4)
    (SuspendService.Attrs.with_suspended_pids (fun _ => {[4; 7]}) fresh_service).

(** A detector on which the caller has registered both callbacks (1 for
    detected, 2 for closed), as the application does at start-up. *)
Definition listening_detector : GameDetectorService.t :=
  GameDetectorService.mk true true 5 [] (Some 1%nat) (Some 2%nat) true true true.

(** The same detector with auto-optimize switched off. *)
Definition manual_detector : GameDetectorService.t :=
  GameDetectorService.mk true false 5 [] (Some 1%nat) (Some 2%nat) true true true.

(** Two catalog games as running processes. *)
Definition cs2_process : proc := ProcInfo 10 (Some "cs2.exe").
Definition valheim_process : proc := ProcInfo 11 (Some "Valheim.exe").

(** A screen with three windows: 501 and 502 belong to process 10, the
    first of them hidden, and 503 belongs to process 7.  [EnumWindows]
    raises when its callback stops it. *)
Definition screen : GameDetectorService.Win32 :=
  {| GameDetectorService.windows := [501; 502; 503];
     GameDetectorService.GetWindowThreadProcessId :=
       fun hwnd => Ret (1, if hwnd =? 503 then 7 else 10);
     GameDetectorService.IsWindowVisible :=
       fun hwnd => Ret (negb (hwnd =? 501));
     GameDetectorService.SetForegroundWindow := fun _ => Ret tt;
     GameDetectorService.enum_stopped := Raise OSError |}.

(** Optimization services whose calls all return. *)
Definition helpful : OpenGameBoostApp.Collaborators :=
  {| OpenGameBoostApp.optimize_memory := Ret tt;
     OpenGameBoostApp.set_high_performance := Ret tt;
     OpenGameBoostApp.optimize_network := Ret tt;
     OpenGameBoostApp.apply_all_optimizations := Ret tt;
     OpenGameBoostApp.restore_power_plan := Ret tt;
     OpenGameBoostApp.restore_network := Ret tt |}.

(** The application as it starts on Windows: every service built, every
    toggle of the window on. *)
Definition windows_app : OpenGameBoostApp.t :=
  OpenGameBoostApp.mk (Some fresh_service) (Some listening_detector)
    true true true true true true true true true true true false.

(** The application off Windows: no service at all. *)
Definition portable_app : OpenGameBoostApp.t :=
  OpenGameBoostApp.mk None None
    false false false false true true true true true true true false.

(** * Properties of the game-mode session *)

(** ** Proof automation *)

(** Unfold the monad down to pairs. *)
Ltac run_monad :=
  unfold bind, ret, raise, get, modify, emit, lift, try_except, try_finally,
    result_of, state_of, trace_of in *; cbn [fst snd] in *.

(** Evaluate, keeping the dictionary lookups and the closed forms folded. *)
Ltac crank :=
  cbn -[getitem SuspendService.suspend_background_apps SuspendService.resolve
        SuspendService.tally SuspendService.activated
        SuspendService.deactivated SuspendService.counts].

Lemma getitem_run {St Ev} (d : dict) k v (s : St) :
  d !! k = Some v -> getitem (Ev := Ev) d k s = (Ret v, s, []).
Proof. unfold getitem. intros ->. reflexivity. Qed.

(** Resolve the dictionary reads one after the other. *)
Ltac lookups :=
  repeat (erewrite getitem_run by reflexivity; crank).

Section SuspendServiceProperties.
Import SuspendService.
#[local] Set Warnings "-clear-no-such-hyp".

(** Executable names are compared in lower case. *)
Example lower_example : lower "NZXT CAM.exe" = "nzxt cam.exe".
Proof. reflexivity. Qed.

(** Resolution on the desktop: one browser, matched whatever its case. *)
Example resolve_browsers_example :
  _get_pids_by_name (machine 1 desktop []) BROWSER_PROCESSES fresh_service
  = (Ret [7], fresh_service, []).
Proof. vm_compute. reflexivity. Qed.

(** With only the background category on, the activation suspends the
    chat client and reports it. *)
Example activate_background_only_example :
  activate_game_mode (machine 1 desktop []) background_only =
    (Ret (activated false 0 0 1),
     Attrs.with_suspended_pids (fun _ => {[100]}) background_only,
     [ OpenProcess_call access_rights 100; NtSuspendProcess_call 100;
       CloseHandle_call 100 ]).
Proof. vm_compute. reflexivity. Qed.

(** The method [suspend_explorer], reached through the class, tracks the
    shell in both the set and the shell slot. *)
Example suspend_explorer_example :
  suspend_explorer (machine 1 desktop []) fresh_service =
    (Ret true,
     Attrs.with_explorer_pid (Some 4)
       (Attrs.with_suspended_pids (fun _ => {[4]}) fresh_service),
     [ OpenProcess_call access_rights 4; NtSuspendProcess_call 4;
       CloseHandle_call 4 ]).
Proof. vm_compute. reflexivity. Qed.


Lemma state_of_bind {A B St Ev} (m : M St Ev A) (k : A -> M St Ev B) s :
  state_of (bind m k s) =
    match result_of (m s) with
    | Ret a => state_of (k a (state_of (m s)))
    | Raise _ => state_of (m s)
    end.
Proof.
  unfold state_of, result_of, bind.
  destruct (m s) as [[[a|e] s1] t1]; cbn; [|reflexivity].
  destruct (k a s1) as [[r s2] t2]. reflexivity.
Qed.

Lemma run_eq {A St Ev} (r r' : outcome A) (s s' : St) (t t' : list Ev) :
  r = r' -> s = s' -> t = t' -> (r, s, t) = (r', s', t').
Proof. intros -> -> ->. reflexivity. Qed.

(** One call of the suspend primitive, in closed form. *)
Lemma suspend_process_run w pid s :
  _suspend_process w pid s =
    if Attrs._ctypes_available s then
      (Ret (freezes w pid && closes w pid),
       if freezes w pid
       then Attrs.with_suspended_pids (fun x => {[pid]} ∪ x) s else s,
       primitive_calls NtSuspendProcess_call w pid)
    else (Ret false, s, []).
Proof.
  unfold _suspend_process, freezes, closes, primitive_calls, open_fails,
    status_success.
  run_monad.
  destruct (Attrs._ctypes_available s); [|reflexivity]. cbn.
  destruct (OpenProcess w pid) as [h|e]; cbn; [|reflexivity].
  destruct (h =? 0); cbn; [reflexivity|].
  destruct (NtSuspendProcess w pid) as [r|e]; cbn.
  - destruct (r =? 0); cbn; destruct (CloseHandle w pid); reflexivity.
  - destruct (CloseHandle w pid); reflexivity.
Qed.

(** One call of the resume primitive, in closed form. *)
Lemma resume_process_run w pid s :
  _resume_process w pid s =
    if Attrs._ctypes_available s then
      (Ret (thaws w pid && closes w pid),
       if thaws w pid
       then Attrs.with_suspended_pids (fun x => x ∖ {[pid]}) s else s,
       primitive_calls NtResumeProcess_call w pid)
    else (Ret false, s, []).
Proof.
  unfold _resume_process, thaws, closes, primitive_calls, open_fails,
    status_success.
  run_monad.
  destruct (Attrs._ctypes_available s); [|reflexivity]. cbn.
  destruct (OpenProcess w pid) as [h|e]; cbn; [|reflexivity].
  destruct (h =? 0); cbn; [reflexivity|].
  destruct (NtResumeProcess w pid) as [r|e]; cbn.
  - destruct (r =? 0); cbn; destruct (CloseHandle w pid); reflexivity.
  - destruct (CloseHandle w pid); reflexivity.
Qed.

(** C8: when no handle to the process can be opened, the suspend
    primitive returns [False] and leaves the session as it was: the
    suspended set and the shell identifier are unchanged, and neither
    [NtSuspendProcess] nor [CloseHandle] is called. *)
Theorem suspend_open_failure_no_effect w pid s :
  open_fails w pid = true ->
  _suspend_process w pid s =
    (Ret false, s,
     if Attrs._ctypes_available s
   then [OpenProcess_call access_rights pid] else []).
Proof.
  intros Hopen. rewrite suspend_process_run.
  unfold freezes, primitive_calls. rewrite Hopen. cbn.
  destruct (Attrs._ctypes_available s); reflexivity.
Qed.

Lemma suspend_open_failure_no_effect_witness :
  open_fails (locked_machine 1 desktop) 7 = true /\
  _suspend_process (locked_machine 1 desktop) 7 fresh_service =
    (Ret false, fresh_service, [OpenProcess_call access_rights 7]).
Proof.
  split; [reflexivity|].
  apply (suspend_open_failure_no_effect (locked_machine 1 desktop) 7
           fresh_service).
  reflexivity.
Defined.

(** A switched-off service does nothing on activation. *)
Lemma activate_disabled_run w s :
  Attrs.enabled s = false ->
  activate_game_mode w s = (Ret {["status" := VStr "disabled"]}, s, []).
Proof.
  intros Hen. unfold activate_game_mode, getattr. run_monad.
  cbn. rewrite Hen. reflexivity.
Qed.

(** C10: with the [enabled] flag off, [activate_game_mode] returns
    [{"status": "disabled"}] at once, makes no kernel call and leaves
    the session (suspended set, shell identifier and all the rest)
    unchanged. *)
Theorem activate_disabled w s :
  Attrs.enabled s = false ->
  result_of (activate_game_mode w s) = Ret {["status" := VStr "disabled"]} /\
  state_of (activate_game_mode w s) = s /\
  trace_of (activate_game_mode w s) = [].
Proof.
  intros Hen. unfold activate_game_mode, getattr. run_monad.
  cbn. rewrite Hen. cbn. auto.
Qed.

Lemma activate_disabled_witness :
  Attrs.enabled disabled_service = false /\
  result_of (activate_game_mode (machine 1 desktop []) disabled_service)
    = Ret {["status" := VStr "disabled"]} /\
  state_of (activate_game_mode (machine 1 desktop []) disabled_service)
    = disabled_service /\
  trace_of (activate_game_mode (machine 1 desktop []) disabled_service) = [].
Proof.
  split; [reflexivity|].
  apply (activate_disabled (machine 1 desktop []) disabled_service).
  reflexivity.
Defined.

(** C9: with nothing tracked (empty suspended set, shell identifier
    unset), [deactivate_game_mode] returns the counts [resumed = 0] and
    [failed = 0], does not raise, makes no kernel call and leaves the
    session unchanged. *)
Theorem deactivate_nothing_tracked w s :
  Attrs._suspended_pids s = ∅ ->
  Attrs._explorer_pid s = None ->
  deactivate_game_mode w s =
    (Ret (<["failed" := VInt 0]>
          (<["resumed" := VInt 0]> {["status" := VStr "deactivated"]})),
     s, []).
Proof.
  intros Hset Hshell. unfold deactivate_game_mode, getattr. run_monad.
  cbn. rewrite Hshell. cbn. rewrite Hset, elements_empty. reflexivity.
Qed.

Lemma deactivate_nothing_tracked_witness :
  Attrs._suspended_pids fresh_service = ∅ /\
  Attrs._explorer_pid fresh_service = None /\
  deactivate_game_mode (machine 1 desktop []) fresh_service =
    (Ret (<["failed" := VInt 0]>
          (<["resumed" := VInt 0]> {["status" := VStr "deactivated"]})),
     fresh_service, []).
Proof.
  split; [reflexivity|]. split; [reflexivity|].
  apply (deactivate_nothing_tracked (machine 1 desktop []) fresh_service);
    reflexivity.
Defined.

(** *** Batches of suspensions *)

Lemma incr_suspended a b (s : self_t) :
  incr_item (Ev := os_call) (counts a b) "suspended" s
  = (Ret (counts (a + 1) b), s, []).
Proof.
  unfold incr_item, getitem, counts. run_monad.
  rewrite lookup_insert_ne by done. rewrite lookup_singleton_eq. cbn.
  rewrite insert_insert_ne by done. rewrite insert_singleton_eq.
  reflexivity.
Qed.

Lemma incr_failed a b (s : self_t) :
  incr_item (Ev := os_call) (counts a b) "failed" s
  = (Ret (counts a (b + 1)), s, []).
Proof.
  unfold incr_item, getitem, counts. run_monad.
  rewrite lookup_insert_eq. cbn. rewrite insert_insert_eq. reflexivity.
Qed.

Lemma counts_eq a a' b b' : a = a' -> b = b' -> counts a b = counts a' b'.
Proof. intros -> ->. reflexivity. Qed.

Lemma with_pids_ext f g s :
  f (Attrs._suspended_pids s) = g (Attrs._suspended_pids s) ->
  Attrs.with_suspended_pids f s = Attrs.with_suspended_pids g s.
Proof. unfold Attrs.with_suspended_pids. intros ->. reflexivity. Qed.

Lemma with_pids_id f s :
  f (Attrs._suspended_pids s) = Attrs._suspended_pids s ->
  Attrs.with_suspended_pids f s = s.
Proof. destruct s. unfold Attrs.with_suspended_pids. cbn. intros ->. reflexivity. Qed.

(** The loop over the resolved identifiers: every one is attempted, the
    successes are counted and added, the failures are counted. *)
Lemma suspend_each_run w pids : forall a b s,
  suspend_each w pids (counts a b) s =
    (Ret (counts (a + tally (suspend_ok w s) pids)
                 (b + tally (fun p => negb (suspend_ok w s p)) pids)),
     Attrs.with_suspended_pids
       (fun x => list_to_set (List.filter (suspend_adds w s) pids) ∪ x) s,
     if Attrs._ctypes_available s
     then flat_map (primitive_calls NtSuspendProcess_call w) pids else []).
Proof.
  induction pids as [|p ps IH]; intros a b s.
  - cbn. unfold ret, tally. cbn. rewrite !Z.add_0_r.
    rewrite with_pids_id by set_solver.
    destruct (Attrs._ctypes_available s); reflexivity.
  - cbn [suspend_each]. unfold bind at 1. rewrite suspend_process_run.
    unfold tally, suspend_ok, suspend_adds in *. cbn [List.filter].
    destruct (Attrs._ctypes_available s) eqn:Hc; cbn [andb negb].
    + destruct (freezes w p) eqn:Hf, (closes w p) eqn:Hcl; cbn [andb negb];
        unfold bind at 1;
        first [rewrite incr_suspended | rewrite incr_failed];
        rewrite IH; cbn [Attrs._ctypes_available Attrs.with_suspended_pids];
        rewrite Hc; cbn [andb negb length flat_map app];
        (apply run_eq;
         [ f_equal; apply counts_eq; lia
         | unfold Attrs.with_suspended_pids; cbn; f_equal; set_solver
         | reflexivity ]).
    + unfold bind at 1. rewrite incr_failed. rewrite IH. rewrite Hc.
      cbn [andb negb length flat_map app].
      apply run_eq; [f_equal; apply counts_eq; lia | | ]; reflexivity.
Qed.

Lemma get_pids_by_name_run w names s :
  _get_pids_by_name w names s = (Ret (resolve w s names), s, []).
Proof.
  unfold _get_pids_by_name, resolve. run_monad.
  destruct (Attrs._psutil_available s); reflexivity.
Qed.

(** A category batch: every resolved identifier is attempted once. *)
Lemma suspend_named_run w names s :
  suspend_named w names s =
    (Ret (counts (tally (suspend_ok w s) (resolve w s names))
                 (tally (fun p => negb (suspend_ok w s p)) (resolve w s names))),
     Attrs.with_suspended_pids
       (fun x => list_to_set
                   (List.filter (suspend_adds w s) (resolve w s names)) ∪ x) s,
     if Attrs._ctypes_available s
     then flat_map (primitive_calls NtSuspendProcess_call w) (resolve w s names)
     else []).
Proof.
  unfold suspend_named. unfold bind. rewrite get_pids_by_name_run.
  fold (counts 0 0). rewrite suspend_each_run. reflexivity.
Qed.

(** *** [activate_game_mode] in closed form *)

(** A toggle that carries the name of a method stops the activation: the
    attribute read for the call is the boolean itself. *)
Lemma activate_shadowed w s :
  Attrs.enabled s = true ->
  Attrs.suspend_explorer s || Attrs.suspend_browsers s
    || Attrs.suspend_launchers s = true ->
  activate_game_mode w s = (Raise TypeError, s, []).
Proof.
  intros Hen Hany. unfold activate_game_mode, getattr. run_monad. cbn.
  rewrite Hen. cbn.
  destruct (Attrs.suspend_explorer s); cbn; [reflexivity|].
  destruct (Attrs.suspend_browsers s); cbn; [reflexivity|].
  destruct (Attrs.suspend_launchers s); cbn; [reflexivity|].
  discriminate.
Qed.

(** With the three shadowed toggles off, only the background category can
    run, and the activation returns. *)
Lemma activate_unshadowed w s :
  Attrs.enabled s = true ->
  Attrs.suspend_explorer s = false ->
  Attrs.suspend_browsers s = false ->
  Attrs.suspend_launchers s = false ->
  activate_game_mode w s =
    if Attrs.suspend_background s then
      let pids := resolve w s BACKGROUND_PROCESSES in
      (Ret (activated false 0 0 (tally (suspend_ok w s) pids)),
       Attrs.with_suspended_pids
         (fun x => list_to_set (List.filter (suspend_adds w s) pids) ∪ x) s,
       if Attrs._ctypes_available s
       then flat_map (primitive_calls NtSuspendProcess_call w) pids else [])
    else (Ret (activated false 0 0 0), s, []).
Proof.
  intros Hen He Hb Hl. unfold activate_game_mode, getattr. run_monad.
  crank. rewrite Hen. crank. rewrite He. crank. rewrite Hb. crank.
  rewrite Hl. crank.
  destruct (Attrs.suspend_background s); crank.
  - unfold suspend_background_apps. run_monad. rewrite suspend_named_run.
    crank. lookups. rewrite ?app_nil_r. reflexivity.
  - lookups. reflexivity.
Qed.

(** Where the activation returns and where it raises. *)
Lemma activate_returns_iff w s :
  returns (result_of (activate_game_mode w s)) =
    negb (Attrs.enabled s &&
          (Attrs.suspend_explorer s || Attrs.suspend_browsers s
           || Attrs.suspend_launchers s)).
Proof.
  destruct (Attrs.enabled s) eqn:Hen.
  - destruct (Attrs.suspend_explorer s || Attrs.suspend_browsers s
              || Attrs.suspend_launchers s) eqn:Hany.
    + rewrite activate_shadowed by assumption. reflexivity.
    + apply orb_false_elim in Hany as [Hany Hl].
      apply orb_false_elim in Hany as [He Hb].
      rewrite activate_unshadowed by assumption.
      destruct (Attrs.suspend_background s); reflexivity.
  - rewrite activate_disabled_run by assumption. reflexivity.
Qed.

(** C1, where the code departs from it: on a freshly constructed service
    (all toggles at their defaults) [activate_game_mode] does not return a
    result dictionary.  It raises [TypeError] to the caller before any
    process is touched, because [self.suspend_explorer] is the boolean
    toggle and not the method. *)
Theorem activate_fresh_service_raises w psutil_ok ctypes_ok setup_ok :
  activate_game_mode w (__init__ psutil_ok ctypes_ok setup_ok) =
    (Raise TypeError, __init__ psutil_ok ctypes_ok setup_ok, []).
Proof. apply activate_shadowed; reflexivity. Qed.

Lemma elem_of_filter_bool (f : Z -> bool) (l : list Z) (x : Z) :
  x ∈ List.filter f l <-> x ∈ l /\ f x = true.
Proof. rewrite !list_elem_of_In. apply filter_In. Qed.

(** The calls of the loop over [pids] name [NtSuspendProcess] on [pid]
    once for each entry of [pid] whose handle opens. *)
Lemma count_suspend_calls w pid pids :
  count_occ os_call_eq_dec
    (flat_map (primitive_calls NtSuspendProcess_call w) pids)
    (NtSuspendProcess_call pid) =
  if open_fails w pid then 0%nat else count_occ Z.eq_dec pids pid.
Proof.
  induction pids as [|p ps IH].
  - cbn. destruct (open_fails w pid); reflexivity.
  - cbn [flat_map]. rewrite count_occ_app, IH. clear IH.
    unfold primitive_calls.
    rewrite count_occ_cons_neq by discriminate.
    destruct (Z.eq_dec p pid) as [->|Hne].
    + rewrite (count_occ_cons_eq Z.eq_dec ps eq_refl).
      destruct (open_fails w pid); [reflexivity|].
      rewrite (count_occ_cons_eq os_call_eq_dec _ eq_refl).
      rewrite count_occ_cons_neq by discriminate. reflexivity.
    + rewrite (count_occ_cons_neq Z.eq_dec ps Hne).
      destruct (open_fails w p); [reflexivity|].
      rewrite count_occ_cons_neq by congruence.
      rewrite count_occ_cons_neq by discriminate. reflexivity.
Qed.



(** *** [deactivate_game_mode] in closed form *)

Lemma incr_resumed a b (s : self_t) :
  incr_item (Ev := os_call) (deactivated a b) "resumed" s
  = (Ret (deactivated (a + 1) b), s, []).
Proof.
  unfold incr_item, getitem, deactivated. run_monad.
  rewrite lookup_insert_ne by done. rewrite lookup_insert_eq. cbn.
  rewrite insert_insert_ne by done. rewrite insert_insert_eq.
  reflexivity.
Qed.

Lemma incr_unresumed a b (s : self_t) :
  incr_item (Ev := os_call) (deactivated a b) "failed" s
  = (Ret (deactivated a (b + 1)), s, []).
Proof.
  unfold incr_item, getitem, deactivated. run_monad.
  rewrite lookup_insert_eq. cbn. rewrite insert_insert_eq. reflexivity.
Qed.

Lemma deactivated_eq a a' b b' :
  a = a' -> b = b' -> deactivated a b = deactivated a' b'.
Proof. intros -> ->. reflexivity. Qed.

(** The loop over the tracked identifiers: every one is attempted; a
    success is counted and discarded, a failure is counted and kept. *)
Lemma resume_each_run w pids : forall a b s,
  resume_each w pids (deactivated a b) s =
    (Ret (deactivated (a + tally (resume_ok w s) pids)
                      (b + tally (fun p => negb (resume_ok w s p)) pids)),
     Attrs.with_suspended_pids
       (fun x => x ∖ list_to_set (List.filter (resume_discards w s) pids)) s,
     if Attrs._ctypes_available s
     then flat_map (primitive_calls NtResumeProcess_call w) pids else []).
Proof.
  induction pids as [|p ps IH]; intros a b s.
  - cbn. unfold ret, tally. cbn. rewrite !Z.add_0_r.
    rewrite with_pids_id by set_solver.
    destruct (Attrs._ctypes_available s); reflexivity.
  - cbn [resume_each]. unfold bind at 1. rewrite resume_process_run.
    unfold tally, resume_ok, resume_discards in *. cbn [List.filter].
    destruct (Attrs._ctypes_available s) eqn:Hc; cbn [andb negb].
    + destruct (thaws w p) eqn:Hf, (closes w p) eqn:Hcl; cbn [andb negb];
        unfold bind at 1;
        first [rewrite incr_resumed | rewrite incr_unresumed];
        rewrite IH; cbn [Attrs._ctypes_available Attrs.with_suspended_pids];
        rewrite Hc; cbn [andb negb length flat_map app];
        (apply run_eq;
         [ f_equal; apply deactivated_eq; lia
         | unfold Attrs.with_suspended_pids; cbn; f_equal; set_solver
         | reflexivity ]).
    + unfold bind at 1. rewrite incr_unresumed. rewrite IH. rewrite Hc.
      cbn [andb negb length flat_map app].
      apply run_eq; [f_equal; apply deactivated_eq; lia | | ]; reflexivity.
Qed.

Lemma resume_explorer_run w s :
  resume_explorer w s =
    match shell_tracked s with
    | pid :: _ =>
        (Ret (resume_ok w s pid),
         Attrs.with_explorer_pid (shell_after w s)
           (Attrs.with_suspended_pids
              (fun x => if resume_discards w s pid then x ∖ {[pid]} else x) s),
         if Attrs._ctypes_available s
         then primitive_calls NtResumeProcess_call w pid else [])
    | [] => (Ret true, s, [])
    end.
Proof.
  unfold resume_explorer, shell_tracked, shell_after. run_monad.
  destruct (Attrs._explorer_pid s) as [pid|] eqn:Hp; [|reflexivity].
  destruct (truthy (VInt pid)) eqn:Ht; [|reflexivity].
  rewrite resume_process_run. unfold resume_ok, resume_discards.
  destruct (Attrs._ctypes_available s) eqn:Hc; cbn [andb].
  - destruct (thaws w pid), (closes w pid); cbn;
      rewrite ?app_nil_r; try reflexivity;
      apply run_eq; try reflexivity;
      destruct s; cbn in *; subst; reflexivity.
  - cbn. apply run_eq; try reflexivity. destruct s; cbn in *; subst; reflexivity.
Qed.

(** [deactivate_game_mode]: the shell first, then whatever the set holds
    after it; the counts tell the calls that returned [True] from those
    that returned [False]. *)
Lemma deactivate_run w s :
  deactivate_game_mode w s =
    (Ret (deactivated
            (tally (resume_ok w s) (resume_attempts w s))
            (tally (fun p => negb (resume_ok w s p)) (resume_attempts w s))),
     Attrs.with_explorer_pid
       (match shell_tracked s with
        | [] => Attrs._explorer_pid s
        | _ => shell_after w s
        end)
       (Attrs.with_suspended_pids
          (fun x => x ∖ list_to_set
                         (List.filter (resume_discards w s)
                            (resume_attempts w s))) s),
     if Attrs._ctypes_available s
     then flat_map (primitive_calls NtResumeProcess_call w)
            (resume_attempts w s)
     else []).
Proof.
  unfold deactivate_game_mode, getattr. fold (deactivated 0 0).
  unfold bind at 1. unfold bind at 1. unfold get at 1.
  cbn [instance_attr String.eqb Ascii.eqb Bool.eqb fst snd].
  unfold ret at 1. cbn [fst snd app].
  unfold bind at 1.
  assert (Hshell : truthy (match Attrs._explorer_pid s with
                           | Some p => VInt p | None => VNone end) = true ->
                   exists pid, Attrs._explorer_pid s = Some pid /\
                               shell_tracked s = [pid]).
  { unfold shell_tracked. destruct (Attrs._explorer_pid s) as [pid|];
      [|discriminate]. intros Ht. exists pid. rewrite Ht. auto. }
  assert (Hnoshell : truthy (match Attrs._explorer_pid s with
                           | Some p => VInt p | None => VNone end) = false ->
                   shell_tracked s = []).
  { unfold shell_tracked. destruct (Attrs._explorer_pid s) as [pid|];
      [|reflexivity]. intros Ht. rewrite Ht. reflexivity. }
  destruct (truthy _) eqn:Ht.
  - destruct (Hshell eq_refl) as (pid & Hpid & Htracked). clear Hshell Hnoshell.
    unfold bind at 1. rewrite resume_explorer_run. rewrite Htracked.
    unfold resume_attempts. rewrite Htracked. cbn [foldr app].
    destruct (resume_ok w s pid) eqn:Hok;
      [rewrite incr_resumed | rewrite incr_unresumed];
      cbn [fst snd]; unfold bind at 1; unfold get at 1; cbn [fst snd];
      rewrite resume_each_run;
      change (resume_ok w (Attrs.with_explorer_pid _ _)) with (resume_ok w s);
      change (resume_discards w (Attrs.with_explorer_pid _ _))
        with (resume_discards w s);
      cbn [Attrs._ctypes_available Attrs._suspended_pids
           Attrs.with_explorer_pid Attrs.with_suspended_pids];
      unfold tally; cbn [List.filter]; rewrite Hok; cbn [negb length].
    all: (apply run_eq;
       [ f_equal; apply deactivated_eq; lia
       | unfold Attrs.with_suspended_pids, Attrs.with_explorer_pid;
         cbn [Attrs.enabled Attrs.suspend_explorer Attrs.suspend_browsers
              Attrs.suspend_launchers Attrs.suspend_background
              Attrs._suspended_pids Attrs._explorer_pid
              Attrs._psutil_available Attrs._ctypes_available];
         f_equal;
         destruct (resume_discards w s pid); cbn [list_to_set]; set_solver
       | destruct (Attrs._ctypes_available s); cbn [flat_map];
         rewrite ?app_nil_r; reflexivity ]).
  - rewrite (Hnoshell eq_refl).
    unfold resume_attempts. rewrite (Hnoshell eq_refl). cbn [foldr app].
    clear Hshell Hnoshell.
    unfold ret at 1. unfold bind at 1. unfold get at 1. cbn [fst snd].
    rewrite resume_each_run. cbn [app].
    apply run_eq; [reflexivity| |reflexivity].
    destruct s; reflexivity.
Qed.

(** Every tracked identifier is among the resume attempts. *)
Lemma tracked_is_attempted w s pid :
  pid ∈ Attrs._suspended_pids s -> pid ∈ resume_attempts w s.
Proof.
  intros Hin. unfold resume_attempts.
  induction (shell_tracked s) as [|p l IH]; cbn [foldr app].
  - apply elem_of_elements. exact Hin.
  - destruct (decide (pid = p)) as [->|Hne]; [left|].
    right. apply elem_of_app in IH as [IH|IH].
    + apply elem_of_app. left. exact IH.
    + apply elem_of_app. right. apply elem_of_elements.
      apply elem_of_elements in IH.
      destruct (resume_discards w s p); set_solver.
Qed.

(** C3, as the code has it: after [deactivate_game_mode] the suspended
    set holds exactly the identifiers on which the resume did not take
    effect.  A resume is attempted for every identifier that was in the
    set; each success discards the identifier; each failure is counted in
    [failed] and the identifier stays tracked. *)
Theorem deactivate_keeps_failed_resumes w s :
  (forall pid,
     pid ∈ Attrs._suspended_pids (state_of (deactivate_game_mode w s)) <->
     pid ∈ Attrs._suspended_pids s /\ resume_discards w s pid = false) /\
  (forall pid,
     pid ∈ Attrs._suspended_pids s -> pid ∈ resume_attempts w s) /\
  result_of (deactivate_game_mode w s) =
    Ret (deactivated
           (tally (resume_ok w s) (resume_attempts w s))
           (tally (fun p => negb (resume_ok w s p)) (resume_attempts w s))) /\
  trace_of (deactivate_game_mode w s) =
    (if Attrs._ctypes_available s
     then flat_map (primitive_calls NtResumeProcess_call w)
            (resume_attempts w s)
     else []).
Proof.
  rewrite deactivate_run. unfold state_of, result_of, trace_of. cbn [fst snd].
  repeat split; try (intros; apply tracked_is_attempted; assumption).
  - cbn [Attrs._suspended_pids Attrs.with_explorer_pid
         Attrs.with_suspended_pids] in H.
    set_solver.
  - cbn [Attrs._suspended_pids Attrs.with_explorer_pid
         Attrs.with_suspended_pids] in H.
    apply elem_of_difference in H as [Hin Hnot].
    destruct (resume_discards w s pid) eqn:Hd; [|reflexivity].
    exfalso. apply Hnot. apply elem_of_list_to_set.
    apply elem_of_filter_bool. split; [|exact Hd].
    apply tracked_is_attempted; exact Hin.
  - intros [Hin Hd].
    cbn [Attrs._suspended_pids Attrs.with_explorer_pid
         Attrs.with_suspended_pids].
    apply elem_of_difference. split; [exact Hin|].
    rewrite elem_of_list_to_set, elem_of_filter_bool. intros [_ Hd'].
    congruence.
Qed.

Lemma deactivate_keeps_failed_resumes_witness :
  (7 ∈ Attrs._suspended_pids
         (state_of (deactivate_game_mode (machine 1 desktop [7]) tracking_shell))
   <-> 7 ∈ Attrs._suspended_pids tracking_shell /\
       resume_discards (machine 1 desktop [7]) tracking_shell 7 = false) /\
  result_of (deactivate_game_mode (machine 1 desktop [7]) tracking_shell) =
    Ret (deactivated
           (tally (resume_ok (machine 1 desktop [7]) tracking_shell)
              (resume_attempts (machine 1 desktop [7]) tracking_shell))
           (tally (fun p => negb (resume_ok (machine 1 desktop [7])
                                    tracking_shell p))
              (resume_attempts (machine 1 desktop [7]) tracking_shell))).
Proof.
  pose proof (deactivate_keeps_failed_resumes (machine 1 desktop [7])
                tracking_shell) as (Hset & _ & Hres & _).
  split; [exact (Hset 7)|exact Hres].
Defined.

(** C3 fails as stated: with the shell (4) and a browser (7) tracked and
    the browser refusing to resume, [deactivate_game_mode] counts one
    resumed and one failed, and the browser is still in the suspended
    set afterwards. *)
Lemma failed_resume_stays_tracked :
  let r := deactivate_game_mode (machine 1 desktop [7]) tracking_shell in
  result_of r = Ret (deactivated 1 1) /\
  Attrs._suspended_pids (state_of r) <> ∅.
Proof.
  cbn zeta. split.
  - vm_compute. reflexivity.
  - intros Hempty.
    assert (Hin : 7 ∈ Attrs._suspended_pids
              (state_of (deactivate_game_mode (machine 1 desktop [7])
                           tracking_shell))) by (vm_compute; reflexivity).
    rewrite Hempty in Hin. set_solver.
Qed.

(** C4, as the code has it: a tracked shell identifier is resumed before
    anything else, and it is cleared exactly when that resume returned
    [True]; after a failed resume the shell identifier stays tracked. *)
Theorem deactivate_shell_slot w s pid :
  Attrs._explorer_pid s = Some pid ->
  pid <> 0 ->
  Attrs._explorer_pid (state_of (deactivate_game_mode w s)) =
    (if resume_ok w s pid then None else Some pid) /\
  exists rest,
    trace_of (deactivate_game_mode w s) =
      (if Attrs._ctypes_available s
       then primitive_calls NtResumeProcess_call w pid else []) ++ rest.
Proof.
  intros Hpid Hnz. rewrite deactivate_run.
  unfold state_of, trace_of. cbn [fst snd].
  assert (Ht : truthy (VInt pid) = true).
  { cbn. apply negb_true_iff. apply Z.eqb_neq. exact Hnz. }
  assert (Htracked : shell_tracked s = [pid]).
  { unfold shell_tracked. rewrite Hpid, Ht. reflexivity. }
  split.
  - cbn [Attrs._explorer_pid Attrs.with_explorer_pid]. rewrite Htracked.
    unfold shell_after. rewrite Hpid, Ht. reflexivity.
  - unfold resume_attempts. rewrite Htracked. cbn [app flat_map].
    destruct (Attrs._ctypes_available s); eexists; [reflexivity|].
    instantiate (1 := []). reflexivity.
Qed.

Lemma deactivate_shell_slot_witness :
  Attrs._explorer_pid tracking_shell = Some 4 /\
  4 <> 0 /\
  Attrs._explorer_pid
    (state_of (deactivate_game_mode (machine 1 desktop [4]) tracking_shell)) =
    (if resume_ok (machine 1 desktop [4]) tracking_shell 4
     then None else Some 4) /\
  exists rest,
    trace_of (deactivate_game_mode (machine 1 desktop [4]) tracking_shell) =
      (if Attrs._ctypes_available tracking_shell
       then primitive_calls NtResumeProcess_call (machine 1 desktop [4]) 4
       else []) ++ rest.
Proof.
  split; [reflexivity|]. split; [discriminate|].
  apply (deactivate_shell_slot (machine 1 desktop [4]) tracking_shell 4);
    [reflexivity|discriminate].
Defined.

(** C4 fails as stated: when the shell (4) refuses to resume,
    [deactivate_game_mode] leaves the shell identifier set. *)
Lemma failed_shell_resume_keeps_slot :
  Attrs._explorer_pid
    (state_of (deactivate_game_mode (machine 1 desktop [4]) tracking_shell))
  <> None.
Proof. vm_compute. discriminate. Qed.

(** *** The caller's own identifier *)

(** Resolution returns identifiers of listed processes whose lower-cased
    name is in the list, and nothing else. *)
Lemma get_pids_loop_elem names_lower ps : forall pids pid,
  pid ∈ get_pids_loop names_lower ps pids ->
  pid ∈ pids \/
  exists n, ProcInfo pid (Some n) ∈ ps /\ str_in (lower n) names_lower = true.
Proof.
  induction ps as [|p ps IH]; intros pids pid Hin; cbn in Hin.
  - left. exact Hin.
  - destruct p as [q [n|]|e].
    + destruct (name_truthy (Some n) && str_in (lower n) names_lower) eqn:Hm.
      * apply IH in Hin as [Hin|(m & Hm1 & Hm2)].
        -- apply elem_of_app in Hin as [Hin|Hin]; [left; exact Hin|].
           apply list_elem_of_singleton in Hin as ->.
           right. exists n. split; [left|].
           apply andb_true_iff in Hm as [_ Hm]. exact Hm.
        -- right. exists m. split; [right; exact Hm1|exact Hm2].
      * apply IH in Hin as [Hin|(m & Hm1 & Hm2)]; [left; exact Hin|].
        right. exists m. split; [right; exact Hm1|exact Hm2].
    + apply IH in Hin as [Hin|(m & Hm1 & Hm2)]; [left; exact Hin|].
      right. exists m. split; [right; exact Hm1|exact Hm2].
    + destruct (skipped e); [|left; exact Hin].
      apply IH in Hin as [Hin|(m & Hm1 & Hm2)]; [left; exact Hin|].
      right. exists m. split; [right; exact Hm1|exact Hm2].
Qed.

Lemma str_in_incl x (l l' : list string) :
  incl l l' -> str_in x l = true -> str_in x l' = true.
Proof.
  unfold str_in. intros Hincl Hin.
  apply existsb_exists in Hin as (y & Hy & Heq).
  apply existsb_exists. exists y. split; [apply Hincl; exact Hy|exact Heq].
Qed.

Lemma caller_unmatched_entry w n :
  caller_unmatched w = true ->
  ProcInfo (getpid w) (Some n) ∈ (process_iter w).1 ->
  str_in (lower n) category_names = false.
Proof.
  unfold caller_unmatched. intros Hall Hin.
  rewrite forallb_forall in Hall. apply list_elem_of_In in Hin.
  specialize (Hall _ Hin). cbn in Hall. rewrite Z.eqb_refl in Hall.
  cbn in Hall. apply negb_true_iff in Hall. exact Hall.
Qed.

(** Resolution leaves the caller out when the caller's name is in no
    category. *)
Lemma resolve_excludes_unmatched_caller w s names :
  caller_unmatched w = true ->
  incl (map lower names) category_names ->
  getpid w ∉ resolve w s names.
Proof.
  intros Hun Hincl Hin. unfold resolve in Hin.
  destruct (Attrs._psutil_available s); [|inversion Hin].
  apply get_pids_loop_elem in Hin as [Hin|(n & Hn & Hm)]; [inversion Hin|].
  apply (str_in_incl _ _ _ Hincl) in Hm.
  rewrite (caller_unmatched_entry w n Hun Hn) in Hm. discriminate.
Qed.

Lemma browsers_in_categories : incl (map lower BROWSER_PROCESSES) category_names.
Proof.
  unfold category_names. rewrite !map_app.
  apply incl_tl. apply incl_appl. apply incl_refl.
Qed.

Lemma launchers_in_categories : incl (map lower LAUNCHER_PROCESSES) category_names.
Proof.
  unfold category_names. rewrite !map_app.
  apply incl_tl. apply incl_appr. apply incl_appl. apply incl_refl.
Qed.

Lemma background_in_categories :
  incl (map lower BACKGROUND_PROCESSES) category_names.
Proof.
  unfold category_names. rewrite !map_app.
  apply incl_tl. apply incl_appr. apply incl_appr. apply incl_refl.
Qed.

Lemma suspend_named_keeps_caller_out w s names :
  caller_unmatched w = true ->
  incl (map lower names) category_names ->
  getpid w ∉ Attrs._suspended_pids s ->
  getpid w ∉ Attrs._suspended_pids (state_of (suspend_named w names s)).
Proof.
  intros Hun Hincl Hout. rewrite suspend_named_run.
  unfold state_of. cbn [fst snd Attrs._suspended_pids Attrs.with_suspended_pids].
  intros Hin. apply elem_of_union in Hin as [Hin|Hin]; [|exact (Hout Hin)].
  apply elem_of_list_to_set, elem_of_filter_bool in Hin as [Hin _].
  exact (resolve_excludes_unmatched_caller w s names Hun Hincl Hin).
Qed.

Lemma suspend_explorer_loop_keeps_caller_out w ps : forall s,
  (forall n, ProcInfo (getpid w) (Some n) ∈ ps ->
             String.eqb (lower n) "explorer.exe" = false) ->
  getpid w ∉ Attrs._suspended_pids s ->
  getpid w ∉ Attrs._suspended_pids (state_of (suspend_explorer_loop w ps s)).
Proof.
  induction ps as [|p ps IH]; intros s Hps Hout; [exact Hout|].
  assert (Hps' : forall n, ProcInfo (getpid w) (Some n) ∈ ps ->
                           String.eqb (lower n) "explorer.exe" = false).
  { intros n Hn. apply Hps. right. exact Hn. }
  cbn [suspend_explorer_loop]. destruct p as [q [n|]|e].
  - destruct (name_truthy (Some n) && String.eqb (lower n) "explorer.exe")
      eqn:Hm; [|apply IH; assumption].
    apply andb_true_iff in Hm as [_ Hm].
    assert (Hq : q <> getpid w).
    { intros ->. rewrite Hps in Hm by left. discriminate. }
    rewrite state_of_bind, suspend_process_run.
    destruct (Attrs._ctypes_available s) eqn:Hc.
    + destruct (freezes w q), (closes w q);
        unfold result_of at 1; cbn [andb fst snd];
        unfold state_of at 2; cbn [fst snd].
      * unfold state_of, bind, modify, ret. cbn. set_solver.
      * apply IH; [exact Hps'|]. cbn. set_solver.
      * apply IH; assumption.
      * apply IH; assumption.
    + unfold result_of at 1; cbn [andb fst snd].
      unfold state_of at 2; cbn [fst snd]. apply IH; assumption.
  - apply IH; assumption.
  - destruct (skipped e); [apply IH; assumption|exact Hout].
Qed.

Lemma run_operation_keeps_caller_out w op s :
  caller_unmatched w = true ->
  getpid w ∉ Attrs._suspended_pids s ->
  getpid w ∉ Attrs._suspended_pids (run_operation w op s).
Proof.
  intros Hun Hout. destruct op; cbn [run_operation].
  - exact Hout.
  - (* activate_game_mode *)
    destruct (Attrs.enabled s) eqn:Hen;
      [|rewrite activate_disabled_run by assumption; exact Hout].
    destruct (Attrs.suspend_explorer s || Attrs.suspend_browsers s
              || Attrs.suspend_launchers s) eqn:Hany;
      [rewrite activate_shadowed by assumption; exact Hout|].
    apply orb_false_elim in Hany as [Hany Hl].
    apply orb_false_elim in Hany as [He Hb].
    rewrite activate_unshadowed by assumption.
    destruct (Attrs.suspend_background s); [|exact Hout].
    pose proof (suspend_named_keeps_caller_out w s BACKGROUND_PROCESSES
                  Hun background_in_categories Hout) as Hbg.
    rewrite suspend_named_run in Hbg. exact Hbg.
  - (* deactivate_game_mode *)
    rewrite deactivate_run. unfold state_of. cbn. set_solver.
  - (* suspend_explorer *)
    unfold suspend_explorer. unfold bind, get.
    destruct (Attrs._psutil_available s); cbn [negb]; [|exact Hout].
    pose proof (suspend_explorer_loop_keeps_caller_out w (process_iter w).1 s)
      as Hloop.
    unfold state_of in *.
    destruct (suspend_explorer_loop w (process_iter w).1 s) as [[r s2] t2].
    cbn [fst snd] in *. apply Hloop; [|exact Hout].
    intros n Hn. pose proof (caller_unmatched_entry w n Hun Hn) as Hno.
    unfold category_names, str_in in Hno. cbn [existsb] in Hno.
    apply orb_false_elim in Hno as [Hno _]. exact Hno.
  - (* resume_explorer *)
    rewrite resume_explorer_run.
    destruct (shell_tracked s) as [|pid l]; [exact Hout|].
    unfold state_of. cbn. destruct (resume_discards w s pid); set_solver.
  - apply suspend_named_keeps_caller_out;
      [exact Hun|exact browsers_in_categories|exact Hout].
  - apply suspend_named_keeps_caller_out;
      [exact Hun|exact launchers_in_categories|exact Hout].
  - apply suspend_named_keeps_caller_out;
      [exact Hun|exact background_in_categories|exact Hout].
Qed.



End SuspendServiceProperties.

(** * Properties of the game detector *)

Section GameDetectorProperties.
Import GameDetectorService.
#[local] Set Warnings "-clear-no-such-hyp".

(** The first catalog entry that lists the name wins, whatever the case. *)
Example match_game_example :
  match_game SUPPORTED_GAMES "JAVAW.EXE" = Some "Minecraft" /\
  match_game SUPPORTED_GAMES "notepad.exe" = None.
Proof. split; reflexivity. Qed.

(** Four iterations of the polling loop over the scripted process tables. *)
Example detection_loop_example :
  trace_of
    (_detection_loop
       [ machine 1 [cs2_process] [];
         machine 1 [cs2_process; valheim_process] [];
         machine 1 [valheim_process] [];
         machine 1 [] [] ]
       listening_detector)
  = [ Notify 1%nat "Counter-Strike 2"; Notify 1%nat "Valheim";
      Notify 2%nat "Counter-Strike 2"; Notify 2%nat "Valheim" ].
Proof. vm_compute. reflexivity. Qed.

Lemma notify_detected_run games s :
  notify_detected games s =
    (Ret tt, s,
     if auto_optimize s then
       match on_game_detected s with
       | Some cb => map (Notify cb) games
       | None => []
       end
     else []).
Proof.
  revert s. induction games as [|g games IH]; intros s; cbn [notify_detected].
  - unfold ret. destruct (auto_optimize s), (on_game_detected s); reflexivity.
  - unfold bind, get. cbn [fst snd].
    destruct (auto_optimize s) eqn:Ha, (on_game_detected s) eqn:Hd;
      unfold emit, ret; cbn [fst snd]; rewrite IH, ?Ha, ?Hd; reflexivity.
Qed.

Lemma notify_closed_run games s :
  notify_closed games s =
    (Ret tt, s,
     match on_game_closed s with
     | Some cb => map (Notify cb) games
     | None => []
     end).
Proof.
  revert s. induction games as [|g games IH]; intros s; cbn [notify_closed].
  - unfold ret. destruct (on_game_closed s); reflexivity.
  - unfold bind, get. cbn [fst snd].
    destruct (on_game_closed s) eqn:Hc;
      unfold emit, ret; cbn [fst snd]; rewrite IH, ?Hc; reflexivity.
Qed.

(** One poll tick in closed form, given the games the scan found. *)
Lemma check_games_run w s current_games :
  _psutil_available s = true ->
  scan_processes w = Ret current_games ->
  _check_games w s =
    (Ret tt,
     with_detected_games (elements current_games) s,
     (if auto_optimize s then
        match on_game_detected s with
        | Some cb =>
            map (Notify cb)
              (elements (current_games ∖ list_to_set (detected_games s)))
        | None => []
        end
      else []) ++
     match on_game_closed s with
     | Some cb =>
         map (Notify cb)
           (elements (list_to_set (detected_games s) ∖ current_games))
     | None => []
     end).
Proof.
  intros Hps Hscan. unfold _check_games.
  unfold bind at 1. unfold get at 1. rewrite Hps, Hscan. cbn [negb].
  unfold bind at 1. unfold get at 1.
  unfold bind at 1. rewrite notify_detected_run.
  unfold bind at 1. rewrite notify_closed_run.
  unfold modify. cbn [app]. rewrite app_nil_r. reflexivity.
Qed.

(** C6, as the code has it: on a poll tick, the games newly present
    relative to the stored set are notified to the registered
    detected-callback only when [auto_optimize] is set; with
    [auto_optimize] off no detected notification is emitted.  The closed
    notifications do not depend on the setting. *)
Theorem detected_notifications_gated w s current_games cb :
  _psutil_available s = true ->
  scan_processes w = Ret current_games ->
  on_game_detected s = Some cb ->
  trace_of (_check_games w s) =
    (if auto_optimize s
     then map (Notify cb)
            (elements (current_games ∖ list_to_set (detected_games s)))
     else []) ++
    match on_game_closed s with
    | Some cc =>
        map (Notify cc)
          (elements (list_to_set (detected_games s) ∖ current_games))
    | None => []
    end.
Proof.
  intros Hps Hscan Hcb. rewrite (check_games_run w s current_games Hps Hscan).
  unfold trace_of. cbn [snd]. rewrite Hcb. reflexivity.
Qed.

Lemma detected_notifications_gated_witness :
  _psutil_available listening_detector = true /\
  scan_processes (machine 1 [cs2_process] []) = Ret {["Counter-Strike 2"]} /\
  on_game_detected listening_detector = Some 1%nat /\
  trace_of (_check_games (machine 1 [cs2_process] []) listening_detector) =
    (if auto_optimize listening_detector
     then map (Notify 1%nat)
            (elements (({["Counter-Strike 2"]} : gset string)
                       ∖ list_to_set (detected_games listening_detector)))
     else []) ++
    match on_game_closed listening_detector with
    | Some cc =>
        map (Notify cc)
          (elements (list_to_set (detected_games listening_detector)
                     ∖ ({["Counter-Strike 2"]} : gset string)))
    | None => []
    end.
Proof.
  assert (Hscan : scan_processes (machine 1 [cs2_process] [])
                  = Ret {["Counter-Strike 2"]}).
  { vm_compute. reflexivity. }
  split; [reflexivity|]. split; [exact Hscan|]. split; [reflexivity|].
  exact (detected_notifications_gated (machine 1 [cs2_process] [])
           listening_detector {["Counter-Strike 2"]} 1%nat
           eq_refl Hscan eq_refl).
Defined.

(** C6 fails as stated: with auto-optimize off and a detected-callback
    registered, a tick on which Counter-Strike 2 is newly present emits
    no notification at all; the game only enters the stored set. *)
Lemma no_detected_notification_without_auto_optimize :
  let r := _check_games (machine 1 [cs2_process] []) manual_detector in
  detected_games manual_detector = [] /\
  detected_games (state_of r) = ["Counter-Strike 2"] /\
  on_game_detected manual_detector = Some 1%nat /\
  trace_of r = [].
Proof. cbn zeta. repeat split; vm_compute; reflexivity. Qed.

Lemma scan_game pid n g ps current_games :
  match_game SUPPORTED_GAMES n = Some g ->
  scan (ProcInfo pid (Some n) :: ps) current_games =
    scan ps ({[g]} ∪ current_games).
Proof.
  intros Hg. cbn [scan].
  destruct n as [|c n']; [vm_compute in Hg; discriminate|].
  cbn [name_truthy String.eqb negb]. rewrite Hg. reflexivity.
Qed.

(** C5, as the code has it: from an empty stored set, the snapshots
    [{A}], [{A,B}], [{B}], [{}] of two catalog games produce at most one
    notification per tick: detected(A) and detected(B) on the first two
    ticks, each only when [auto_optimize] is set and a detected-callback
    is registered, then closed(A) and closed(B) whenever a closed-callback
    is registered.  After each tick the stored set is that tick's game
    set, whatever the settings. *)
Theorem scripted_snapshots_gated_events
    w1 w2 w3 w4 pa pb a b ga gb en au ci ocd occ rn w32 :
  match_game SUPPORTED_GAMES a = Some ga ->
  match_game SUPPORTED_GAMES b = Some gb ->
  ga <> gb ->
  process_iter w1 = ([ProcInfo pa (Some a)], None) ->
  process_iter w2 = ([ProcInfo pa (Some a); ProcInfo pb (Some b)], None) ->
  process_iter w3 = ([ProcInfo pb (Some b)], None) ->
  process_iter w4 = ([], None) ->
  let d := mk en au ci [] ocd occ rn true w32 in
  let r1 := _check_games w1 d in
  let r2 := _check_games w2 (state_of r1) in
  let r3 := _check_games w3 (state_of r2) in
  let r4 := _check_games w4 (state_of r3) in
  let detected g :=
    if au then match ocd with Some cd => [Notify cd g] | None => [] end
    else [] in
  let closed g :=
    match occ with Some cc => [Notify cc g] | None => [] end in
  (trace_of r1 = detected ga /\
   trace_of r2 = detected gb /\
   trace_of r3 = closed ga /\
   trace_of r4 = closed gb) /\
  (list_to_set (detected_games (state_of r1)) =@{gset string} {[ga]} /\
   list_to_set (detected_games (state_of r2)) =@{gset string} {[ga; gb]} /\
   list_to_set (detected_games (state_of r3)) =@{gset string} {[gb]} /\
   list_to_set (detected_games (state_of r4)) =@{gset string} ∅).
Proof.
  intros Hga Hgb Hne Hw1 Hw2 Hw3 Hw4 d r1 r2 r3 r4 detected closed.
  assert (Hs1 : scan_processes w1 = Ret {[ga]}).
  { unfold scan_processes. rewrite Hw1. cbn [fst snd].
    rewrite (scan_game _ _ ga) by assumption. cbn [scan].
    f_equal. set_solver. }
  assert (Hs2 : scan_processes w2 = Ret {[ga; gb]}).
  { unfold scan_processes. rewrite Hw2. cbn [fst snd].
    rewrite (scan_game _ _ ga) by assumption.
    rewrite (scan_game _ _ gb) by assumption. cbn [scan].
    f_equal. set_solver. }
  assert (Hs3 : scan_processes w3 = Ret {[gb]}).
  { unfold scan_processes. rewrite Hw3. cbn [fst snd].
    rewrite (scan_game _ _ gb) by assumption. cbn [scan].
    f_equal. set_solver. }
  assert (Hs4 : scan_processes w4 = Ret ∅).
  { unfold scan_processes. rewrite Hw4. reflexivity. }
  assert (Hnew1 : ({[ga]} : gset string) ∖ list_to_set [] = {[ga]})
    by set_solver.
  assert (Hgone1 : (list_to_set [] : gset string) ∖ {[ga]} = ∅)
    by set_solver.
  assert (Hnew2 : ({[ga; gb]} : gset string) ∖ list_to_set [ga] = {[gb]})
    by set_solver.
  assert (Hgone2 : (list_to_set [ga] : gset string) ∖ {[ga; gb]} = ∅)
    by set_solver.
  assert (Hnew3 : ({[gb]} : gset string)
                    ∖ list_to_set (elements ({[ga; gb]} : gset string)) = ∅).
  { rewrite list_to_set_elements_L. set_solver. }
  assert (Hgone3 : (list_to_set (elements ({[ga; gb]} : gset string))
                      : gset string) ∖ {[gb]} = {[ga]}).
  { rewrite list_to_set_elements_L. set_solver. }
  assert (Hnew4 : (∅ : gset string) ∖ list_to_set [gb] = ∅) by set_solver.
  assert (Hgone4 : (list_to_set [gb] : gset string) ∖ ∅ = {[gb]})
    by set_solver.
  assert (H1 : r1 = (Ret tt, with_detected_games [ga] d, detected ga)).
  { unfold r1. rewrite (check_games_run w1 d {[ga]} eq_refl Hs1).
    cbn [detected_games auto_optimize on_game_detected on_game_closed d].
    rewrite Hnew1, Hgone1, elements_singleton, elements_empty.
    unfold detected. destruct au, ocd, occ; reflexivity. }
  assert (H2 : r2 = (Ret tt,
                     with_detected_games (elements ({[ga; gb]} : gset string))
                       (with_detected_games [ga] d),
                     detected gb)).
  { unfold r2. rewrite H1. unfold state_of. cbn [fst snd].
    rewrite (check_games_run w2 (with_detected_games [ga] d) {[ga; gb]}
               eq_refl Hs2).
    cbn [detected_games auto_optimize on_game_detected on_game_closed d
         with_detected_games].
    rewrite Hnew2, Hgone2, elements_singleton, elements_empty.
    unfold detected. destruct au, ocd, occ; reflexivity. }
  assert (H3 : r3 = (Ret tt,
                     with_detected_games [gb]
                       (with_detected_games
                          (elements ({[ga; gb]} : gset string))
                          (with_detected_games [ga] d)),
                     closed ga)).
  { unfold r3. rewrite H2. unfold state_of. cbn [fst snd].
    rewrite (check_games_run w3
               (with_detected_games (elements ({[ga; gb]} : gset string))
                  (with_detected_games [ga] d))
               {[gb]} eq_refl Hs3).
    cbn [detected_games auto_optimize on_game_detected on_game_closed d
         with_detected_games].
    rewrite Hnew3, Hgone3, !elements_singleton, elements_empty.
    unfold closed. destruct au, ocd, occ; reflexivity. }
  assert (H4 : r4 = (Ret tt,
                     with_detected_games []
                       (with_detected_games [gb]
                          (with_detected_games
                             (elements ({[ga; gb]} : gset string))
                             (with_detected_games [ga] d))),
                     closed gb)).
  { unfold r4. rewrite H3. unfold state_of. cbn [fst snd].
    rewrite (check_games_run w4
               (with_detected_games [gb]
                  (with_detected_games (elements ({[ga; gb]} : gset string))
                     (with_detected_games [ga] d)))
               ∅ eq_refl Hs4).
    cbn [detected_games auto_optimize on_game_detected on_game_closed d
         with_detected_games].
    rewrite Hnew4, Hgone4, elements_singleton, elements_empty.
    unfold closed. destruct au, ocd, occ; reflexivity. }
  rewrite H1, H2, H3, H4. unfold trace_of, state_of. cbn [fst snd].
  cbn [detected_games with_detected_games].
  rewrite list_to_set_elements_L. repeat split; set_solver.
Qed.

Lemma scripted_snapshots_gated_events_witness :
  let w1 := machine 1 [cs2_process] [] in
  let w2 := machine 1 [cs2_process; valheim_process] [] in
  let w3 := machine 1 [valheim_process] [] in
  let w4 := machine 1 [] [] in
  let r1 := _check_games w1 listening_detector in
  let r2 := _check_games w2 (state_of r1) in
  let r3 := _check_games w3 (state_of r2) in
  let r4 := _check_games w4 (state_of r3) in
  (match_game SUPPORTED_GAMES "cs2.exe" = Some "Counter-Strike 2" /\
   match_game SUPPORTED_GAMES "Valheim.exe" = Some "Valheim" /\
   "Counter-Strike 2" <> "Valheim") /\
  (trace_of r1 = [Notify 1%nat "Counter-Strike 2"] /\
   trace_of r2 = [Notify 1%nat "Valheim"] /\
   trace_of r3 = [Notify 2%nat "Counter-Strike 2"] /\
   trace_of r4 = [Notify 2%nat "Valheim"]) /\
  (list_to_set (detected_games (state_of r1))
     =@{gset string} {["Counter-Strike 2"]} /\
   list_to_set (detected_games (state_of r2))
     =@{gset string} {["Counter-Strike 2"; "Valheim"]} /\
   list_to_set (detected_games (state_of r3)) =@{gset string} {["Valheim"]} /\
   list_to_set (detected_games (state_of r4)) =@{gset string} ∅).
Proof.
  cbn zeta.
  assert (Hne : "Counter-Strike 2" <> "Valheim") by discriminate.
  split; [split; [reflexivity|split; [reflexivity|exact Hne]]|].
  exact (scripted_snapshots_gated_events
           (machine 1 [cs2_process] [])
           (machine 1 [cs2_process; valheim_process] [])
           (machine 1 [valheim_process] [])
           (machine 1 [] [])
           10 11 "cs2.exe" "Valheim.exe" "Counter-Strike 2" "Valheim"
           true true 5 (Some 1%nat) (Some 2%nat) true true
           eq_refl eq_refl Hne eq_refl eq_refl eq_refl eq_refl).
Defined.

(** C5 fails as stated: with auto-optimize off and both callbacks
    registered, the same four snapshots emit nothing on the first two
    ticks, neither detected(A) nor detected(B); only the two closed
    notifications follow, while the stored games are each tick's games. *)
Lemma scripted_snapshots_without_auto_optimize :
  let r1 := _check_games (machine 1 [cs2_process] []) manual_detector in
  let r2 :=
    _check_games (machine 1 [cs2_process; valheim_process] [])
      (state_of r1) in
  let r3 := _check_games (machine 1 [valheim_process] []) (state_of r2) in
  let r4 := _check_games (machine 1 [] []) (state_of r3) in
  detected_games manual_detector = [] /\
  on_game_detected manual_detector = Some 1%nat /\
  trace_of r1 = [] /\
  trace_of r2 = [] /\
  trace_of r3 = [Notify 2%nat "Counter-Strike 2"] /\
  trace_of r4 = [Notify 2%nat "Valheim"] /\
  detected_games (state_of r1) = ["Counter-Strike 2"] /\
  detected_games (state_of r3) = ["Valheim"].
Proof. cbn zeta. repeat split; vm_compute; reflexivity. Qed.
End GameDetectorProperties.

(** * Further properties of the game-mode session *)

Section SuspendServiceFurther.
Import SuspendService.
#[local] Set Warnings "-clear-no-such-hyp".

(** X1: neither primitive ever raises, whatever the kernel calls do, and
    each closes the handle it opened: [CloseHandle] is called exactly when
    [OpenProcess] gave a handle, and it is the last call. *)
Theorem primitives_absorb_failures w pid s :
  let opened :=
    Attrs._ctypes_available s && negb (open_fails w pid) in
  (returns (result_of (_suspend_process w pid s)) = true /\
   count_occ os_call_eq_dec (trace_of (_suspend_process w pid s))
     (CloseHandle_call pid) = (if opened then 1 else 0)%nat /\
   (opened = true ->
    last (trace_of (_suspend_process w pid s)) = Some (CloseHandle_call pid))) /\
  (returns (result_of (_resume_process w pid s)) = true /\
   count_occ os_call_eq_dec (trace_of (_resume_process w pid s))
     (CloseHandle_call pid) = (if opened then 1 else 0)%nat /\
   (opened = true ->
    last (trace_of (_resume_process w pid s)) = Some (CloseHandle_call pid))).
Proof.
  cbn zeta. rewrite suspend_process_run, resume_process_run.
  unfold primitive_calls, result_of, trace_of.
  destruct (Attrs._ctypes_available s); cbn [andb fst snd];
    [|repeat split; try reflexivity; discriminate].
  destruct (open_fails w pid); cbn [negb];
    repeat split; try reflexivity; try discriminate;
    cbn [count_occ];
    repeat match goal with
           | |- context [os_call_eq_dec ?a ?b] =>
               destruct (os_call_eq_dec a b); try congruence
           end.
Qed.

(** X2: the suspend primitive changes nothing but the suspended set, and
    that only by adding its own identifier; whenever it returns [True]
    the identifier is in the set afterwards. *)
Theorem suspend_process_only_adds_pid w pid s :
  (state_of (_suspend_process w pid s) = s \/
   state_of (_suspend_process w pid s) =
     Attrs.with_suspended_pids (fun x => {[pid]} ∪ x) s) /\
  (result_of (_suspend_process w pid s) = Ret true ->
   pid ∈ Attrs._suspended_pids (state_of (_suspend_process w pid s))).
Proof.
  rewrite suspend_process_run. unfold state_of, result_of.
  destruct (Attrs._ctypes_available s); cbn [fst snd];
    [|split; [left; reflexivity|discriminate]].
  destruct (freezes w pid); cbn [andb fst snd].
  - split; [right; reflexivity|]. intros _. cbn. set_solver.
  - split; [left; reflexivity|discriminate].
Qed.

(** X3: resuming an identifier that is not tracked never raises and
    leaves the session as it was, whatever the kernel answers. *)
Theorem resume_untracked_no_effect w pid s :
  pid ∉ Attrs._suspended_pids s ->
  returns (result_of (_resume_process w pid s)) = true /\
  state_of (_resume_process w pid s) = s.
Proof.
  intros Hout. rewrite resume_process_run. unfold state_of, result_of.
  destruct (Attrs._ctypes_available s); cbn [fst snd]; [|auto].
  split; [reflexivity|].
  destruct (thaws w pid); [|reflexivity].
  apply with_pids_id. set_solver.
Qed.

Lemma resume_untracked_no_effect_witness :
  (9 ∉ Attrs._suspended_pids tracking_shell) /\
  returns (result_of (_resume_process (machine 1 desktop []) 9 tracking_shell))
    = true /\
  state_of (_resume_process (machine 1 desktop []) 9 tracking_shell)
    = tracking_shell.
Proof.
  assert (Hout : 9 ∉ Attrs._suspended_pids tracking_shell).
  { vm_compute. discriminate. }
  split; [exact Hout|].
  exact (resume_untracked_no_effect (machine 1 desktop []) 9 tracking_shell
           Hout).
Defined.

(** X4: suspend then resume is a round trip: when an untracked identifier
    is suspended with success and then resumed with success, the session
    is back in the state it started from. *)
Theorem suspend_resume_round_trip w w' pid s :
  pid ∉ Attrs._suspended_pids s ->
  result_of (_suspend_process w pid s) = Ret true ->
  result_of (_resume_process w' pid (state_of (_suspend_process w pid s)))
    = Ret true ->
  state_of (_resume_process w' pid (state_of (_suspend_process w pid s))) = s.
Proof.
  intros Hout. rewrite suspend_process_run. unfold state_of, result_of.
  destruct (Attrs._ctypes_available s) eqn:Hc; cbn [fst snd]; [|discriminate].
  destruct (freezes w pid); cbn [andb fst snd]; [|discriminate].
  intros _. rewrite resume_process_run.
  cbn [Attrs._ctypes_available Attrs.with_suspended_pids]. rewrite Hc.
  cbn [fst snd]. destruct (thaws w' pid); cbn [andb]; [|discriminate].
  intros _. destruct s. unfold Attrs.with_suspended_pids. cbn in *.
  f_equal. set_solver.
Qed.

Lemma suspend_resume_round_trip_witness :
  (9 ∉ Attrs._suspended_pids tracking_shell) /\
  result_of (_suspend_process (machine 1 desktop []) 9 tracking_shell)
    = Ret true /\
  result_of (_resume_process (machine 1 desktop [7]) 9
               (state_of (_suspend_process (machine 1 desktop []) 9
                            tracking_shell)))
    = Ret true /\
  state_of (_resume_process (machine 1 desktop [7]) 9
              (state_of (_suspend_process (machine 1 desktop []) 9
                           tracking_shell)))
    = tracking_shell.
Proof.
  assert (Hout : 9 ∉ Attrs._suspended_pids tracking_shell).
  { vm_compute. discriminate. }
  split; [exact Hout|]. split; [reflexivity|]. split; [reflexivity|].
  exact (suspend_resume_round_trip (machine 1 desktop [])
           (machine 1 desktop [7]) 9 tracking_shell Hout eq_refl eq_refl).
Defined.

(** *** Resolution and batches *)

Lemma str_in_spec x (l : list string) : str_in x l = true <-> x ∈ l.
Proof.
  unfold str_in. rewrite list_elem_of_In. split.
  - intros H. apply existsb_exists in H as (y & Hy & Heq).
    apply String.eqb_eq in Heq as ->. exact Hy.
  - intros H. apply existsb_exists. exists x. split; [exact H|].
    apply String.eqb_refl.
Qed.

Lemma name_truthy_spec n : name_truthy (Some n) = true <-> n <> "".
Proof.
  cbn. rewrite negb_true_iff. split.
  - intros H ->. discriminate.
  - intros H. apply String.eqb_neq. exact H.
Qed.

Lemma get_pids_loop_spec names_lower ps : forall pids pid,
  pid ∈ get_pids_loop names_lower ps pids <->
  pid ∈ pids \/
  exists n, (pid, Some n) ∈ readable ps /\ n <> "" /\
            str_in (lower n) names_lower = true.
Proof.
  induction ps as [|p ps IH]; intros pids pid; cbn [get_pids_loop readable].
  - split; [auto|]. intros [H|(n & H & _)]; [exact H|inversion H].
  - destruct p as [q [n|]|e].
    + destruct (name_truthy (Some n) && str_in (lower n) names_lower) eqn:Hm;
        rewrite IH; clear IH.
      * apply andb_true_iff in Hm as [Ht Hm].
        apply name_truthy_spec in Ht. split.
        -- intros [H|(m & H1 & H2 & H3)].
           ++ apply elem_of_app in H as [H|H]; [left; exact H|].
              apply list_elem_of_singleton in H as ->.
              right. exists n. split; [left|auto].
           ++ right. exists m. split; [right; exact H1|auto].
        -- intros [H|(m & H1 & H2 & H3)].
           ++ left. apply elem_of_app. left. exact H.
           ++ apply elem_of_cons in H1 as [H1|H1].
              ** inversion H1; subst. left. apply elem_of_app. right. left.
              ** right. exists m. auto.
      * split.
        -- intros [H|(m & H1 & H2 & H3)]; [left; exact H|].
           right. exists m. split; [right; exact H1|auto].
        -- intros [H|(m & H1 & H2 & H3)]; [left; exact H|].
           apply elem_of_cons in H1 as [H1|H1].
           ++ inversion H1; subst. apply name_truthy_spec in H2.
              rewrite H2, H3 in Hm. discriminate.
           ++ right. exists m. auto.
    + rewrite IH. split.
      * intros [H|(m & H1 & H2 & H3)]; [left; exact H|].
        right. exists m. split; [right; exact H1|auto].
      * intros [H|(m & H1 & H2 & H3)]; [left; exact H|].
        apply elem_of_cons in H1 as [H1|H1]; [inversion H1|].
        right. exists m. auto.
    + destruct (skipped e); [apply IH|].
      split; [auto|]. intros [H|(n & H & _)]; [exact H|inversion H].
Qed.

(** X5: [_get_pids_by_name] returns exactly the identifiers of the
    processes it could look at whose name is not empty and equals, in
    lower case, one of the given names; processes after an exception that
    is not skipped are left out. *)
Theorem resolution_matches_case_insensitively w s names pid :
  Attrs._psutil_available s = true ->
  (pid ∈ resolve w s names <->
   exists n m,
     (pid, Some n) ∈ readable (process_iter w).1 /\ n <> "" /\
     m ∈ names /\ lower n = lower m) /\
  _get_pids_by_name w names s = (Ret (resolve w s names), s, []).
Proof.
  intros Hps. split; [|apply get_pids_by_name_run].
  unfold resolve. rewrite Hps. rewrite get_pids_loop_spec. split.
  - intros [H|(n & H1 & H2 & H3)]; [inversion H|].
    apply str_in_spec, list_elem_of_fmap in H3 as (m & Hm & Hin).
    exists n, m. auto.
  - intros (n & m & H1 & H2 & H3 & H4). right. exists n.
    split; [exact H1|]. split; [exact H2|].
    apply str_in_spec, list_elem_of_fmap. exists m. auto.
Qed.

Lemma resolution_matches_case_insensitively_witness :
  Attrs._psutil_available fresh_service = true /\
  (7 ∈ resolve (machine 1 desktop []) fresh_service BROWSER_PROCESSES <->
   exists n m,
     (7, Some n) ∈ readable (process_iter (machine 1 desktop [])).1 /\
     n <> "" /\ m ∈ BROWSER_PROCESSES /\ lower n = lower m) /\
  _get_pids_by_name (machine 1 desktop []) BROWSER_PROCESSES fresh_service =
    (Ret (resolve (machine 1 desktop []) fresh_service BROWSER_PROCESSES),
     fresh_service, []).
Proof.
  split; [reflexivity|].
  exact (resolution_matches_case_insensitively (machine 1 desktop [])
           fresh_service BROWSER_PROCESSES 7 eq_refl).
Defined.

Lemma tally_split (f : Z -> bool) pids :
  tally f pids + tally (fun p => negb (f p)) pids = Z.of_nat (length pids).
Proof.
  unfold tally. induction pids as [|p pids IH]; [reflexivity|].
  cbn [List.filter length]. destruct (f p); cbn [negb length]; lia.
Qed.

(** X6: a category batch ([suspend_browsers], [suspend_launchers],
    [suspend_background_apps]) never raises and attempts every resolved
    identifier once: [suspended + failed] is the number of resolved
    identifiers, a failure does not stop the batch, and afterwards the
    set holds what it held before plus the resolved identifiers whose
    suspension took effect; the shell identifier is untouched. *)
Theorem batch_is_best_effort w names s :
  exists suspended failed,
    result_of (suspend_named w names s) = Ret (counts suspended failed) /\
    0 <= suspended /\ 0 <= failed /\
    suspended + failed = Z.of_nat (length (resolve w s names)) /\
    (forall pid,
       pid ∈ Attrs._suspended_pids (state_of (suspend_named w names s)) <->
       pid ∈ Attrs._suspended_pids s \/
       (pid ∈ resolve w s names /\ suspend_adds w s pid = true)) /\
    Attrs._explorer_pid (state_of (suspend_named w names s)) =
      Attrs._explorer_pid s.
Proof.
  rewrite suspend_named_run. unfold result_of, state_of. cbn [fst snd].
  eexists _, _. split; [reflexivity|].
  split; [unfold tally; lia|]. split; [unfold tally; lia|].
  split; [apply tally_split|]. split; [|reflexivity].
  intros pid.
  cbn [Attrs._suspended_pids Attrs.with_suspended_pids].
  rewrite elem_of_union, elem_of_list_to_set, elem_of_filter_bool. tauto.
Qed.

(** *** The shell *)

Lemma bind_run {A B St Ev} (m : M St Ev A) (k : A -> M St Ev B) s :
  bind m k s =
    match m s with
    | (Ret a, s1, t1) =>
        (result_of (k a s1), state_of (k a s1), t1 ++ trace_of (k a s1))
    | (Raise e, s1, t1) => (Raise e, s1, t1)
    end.
Proof.
  unfold bind, result_of, state_of, trace_of.
  destruct (m s) as [[[a|e] s1] t1]; [|reflexivity].
  destruct (k a s1) as [[r s2] t2]. reflexivity.
Qed.

Lemma suspend_explorer_loop_spec w ps : forall s,
  exists b,
    result_of (suspend_explorer_loop w ps s) = Ret b /\
    Attrs._suspended_pids s ⊆
      Attrs._suspended_pids (state_of (suspend_explorer_loop w ps s)) /\
    (b = true ->
     exists pid n,
       (pid, Some n) ∈ readable ps /\ is_explorer n = true /\
       Attrs._explorer_pid (state_of (suspend_explorer_loop w ps s)) = Some pid /\
       pid ∈ Attrs._suspended_pids (state_of (suspend_explorer_loop w ps s))) /\
    (b = false ->
     Attrs._explorer_pid (state_of (suspend_explorer_loop w ps s)) =
       Attrs._explorer_pid s).
Proof.
  induction ps as [|p ps IH]; intros s; cbn [suspend_explorer_loop readable].
  - exists false. repeat split; try reflexivity; discriminate.
  - assert (Hskip : forall q name,
      (exists b,
        result_of (suspend_explorer_loop w ps s) = Ret b /\
        Attrs._suspended_pids s ⊆
          Attrs._suspended_pids (state_of (suspend_explorer_loop w ps s)) /\
        (b = true ->
         exists pid n,
           (pid, Some n) ∈ (q, name) :: readable ps /\ is_explorer n = true /\
           Attrs._explorer_pid (state_of (suspend_explorer_loop w ps s))
             = Some pid /\
           pid ∈ Attrs._suspended_pids
                   (state_of (suspend_explorer_loop w ps s))) /\
        (b = false ->
         Attrs._explorer_pid (state_of (suspend_explorer_loop w ps s)) =
           Attrs._explorer_pid s))).
    { intros q name. destruct (IH s) as (b & Hr & Hsub & Ht & Hf).
      exists b. repeat split; try assumption.
      intros Hb. destruct (Ht Hb) as (pid & n & H1 & H2 & H3 & H4).
      exists pid, n. repeat split; try assumption. right. exact H1. }
    destruct p as [q [n|]|e].
    + destruct (name_truthy (Some n) && String.eqb (lower n) "explorer.exe")
        eqn:Hm; [|apply Hskip].
      apply andb_true_iff in Hm as [_ Hm].
      rewrite bind_run, suspend_process_run.
      destruct (Attrs._ctypes_available s) eqn:Hc; [|apply Hskip].
      destruct (freezes w q) eqn:Hfr; cbn [andb]; [|apply Hskip].
      destruct (closes w q) eqn:Hcl.
      * exists true. unfold result_of, state_of, bind, modify, ret.
        cbn [fst snd]. repeat split; try discriminate.
        -- cbn. set_solver.
        -- intros _. exists q, n. repeat split.
           ++ left.
           ++ exact Hm.
           ++ cbn. set_solver.
      * destruct (IH (Attrs.with_suspended_pids (fun x => {[q]} ∪ x) s))
          as (b & Hr & Hsub & Ht & Hf).
        exists b. unfold result_of, state_of in *. cbn [fst snd] in *.
        repeat split.
        -- exact Hr.
        -- cbn in Hsub. set_solver.
        -- intros Hb. destruct (Ht Hb) as (pid & m & H1 & H2 & H3 & H4).
           exists pid, m. repeat split; try assumption. right. exact H1.
        -- exact Hf.
    + apply Hskip.
    + destruct (skipped e); [apply IH|].
      exists false. repeat split; try reflexivity; discriminate.
Qed.

Lemma suspend_explorer_run w s :
  suspend_explorer w s =
    if Attrs._psutil_available s
    then suspend_explorer_loop w (process_iter w).1 s
    else (Ret false, s, []).
Proof.
  unfold suspend_explorer, bind, get.
  destruct (Attrs._psutil_available s); cbn [negb]; [|reflexivity].
  destruct (suspend_explorer_loop w (process_iter w).1 s) as [[r s2] t2].
  reflexivity.
Qed.

(** X7: the method [suspend_explorer] never raises and never drops a
    tracked identifier.  When it returns [True], the shell identifier is
    the identifier of a process named explorer.exe (in any case) that it
    could look at, and that identifier is in the suspended set; when it
    returns [False], the shell identifier is what it was. *)
Theorem suspend_explorer_tracks_the_shell w s :
  exists b,
    result_of (suspend_explorer w s) = Ret b /\
    Attrs._suspended_pids s ⊆
      Attrs._suspended_pids (state_of (suspend_explorer w s)) /\
    (b = true ->
     exists pid n,
       (pid, Some n) ∈ readable (process_iter w).1 /\
       lower n = "explorer.exe" /\
       Attrs._explorer_pid (state_of (suspend_explorer w s)) = Some pid /\
       pid ∈ Attrs._suspended_pids (state_of (suspend_explorer w s))) /\
    (b = false ->
     Attrs._explorer_pid (state_of (suspend_explorer w s)) =
       Attrs._explorer_pid s).
Proof.
  rewrite suspend_explorer_run.
  destruct (Attrs._psutil_available s).
  - destruct (suspend_explorer_loop_spec w (process_iter w).1 s)
      as (b & Hr & Hsub & Ht & Hf).
    exists b. unfold result_of, state_of in *. cbn [fst snd] in *.
    split; [exact Hr|]. split; [exact Hsub|]. split; [|exact Hf].
    intros Hb. destruct (Ht Hb) as (pid & n & H1 & H2 & H3 & H4).
    exists pid, n. split; [exact H1|]. split; [|split; assumption].
    apply String.eqb_eq. exact H2.
  - exists false. repeat split; try reflexivity; discriminate.
Qed.

(** X8: suspending and resuming the shell is a round trip on the shell
    slot: after [suspend_explorer] returned [True] and [resume_explorer]
    then returned [True], the shell identifier is unset and the shell is
    no longer in the suspended set (for a shell identifier other than 0,
    which [resume_explorer] takes for unset). *)
Theorem shell_round_trip w w' s pid :
  result_of (suspend_explorer w s) = Ret true ->
  Attrs._explorer_pid (state_of (suspend_explorer w s)) = Some pid ->
  pid <> 0 ->
  result_of (resume_explorer w' (state_of (suspend_explorer w s))) = Ret true ->
  Attrs._explorer_pid
    (state_of (resume_explorer w' (state_of (suspend_explorer w s)))) = None /\
  pid ∉ Attrs._suspended_pids
          (state_of (resume_explorer w' (state_of (suspend_explorer w s)))).
Proof.
  intros _ Hslot Hnz. set (s1 := state_of (suspend_explorer w s)) in *.
  rewrite resume_explorer_run.
  assert (Ht : truthy (VInt pid) = true).
  { cbn. apply negb_true_iff, Z.eqb_neq. exact Hnz. }
  unfold shell_tracked, shell_after. rewrite Hslot, Ht.
  unfold result_of, state_of. cbn [fst snd]. intros Hok.
  injection Hok as Hok. rewrite Hok. cbn [andb].
  assert (Hd : resume_discards w' s1 pid = true).
  { unfold resume_ok in Hok. unfold resume_discards.
    apply andb_true_iff in Hok as [Hok _]. exact Hok. }
  rewrite Hd. cbn. split; [reflexivity|set_solver].
Qed.

Lemma shell_round_trip_witness :
  result_of (suspend_explorer (machine 1 desktop []) fresh_service) = Ret true /\
  Attrs._explorer_pid
    (state_of (suspend_explorer (machine 1 desktop []) fresh_service)) = Some 4 /\
  4 <> 0 /\
  result_of (resume_explorer (machine 1 desktop [7])
               (state_of (suspend_explorer (machine 1 desktop [])
                            fresh_service))) = Ret true /\
  Attrs._explorer_pid
    (state_of (resume_explorer (machine 1 desktop [7])
                 (state_of (suspend_explorer (machine 1 desktop [])
                              fresh_service)))) = None /\
  (4 ∉ Attrs._suspended_pids
         (state_of (resume_explorer (machine 1 desktop [7])
                      (state_of (suspend_explorer (machine 1 desktop [])
                                   fresh_service))))).
Proof.
  assert (Hnz : 4 <> 0) by discriminate.
  split; [reflexivity|]. split; [reflexivity|]. split; [exact Hnz|].
  split; [reflexivity|].
  exact (shell_round_trip (machine 1 desktop []) (machine 1 desktop [7])
           fresh_service 4 eq_refl eq_refl Hnz eq_refl).
Defined.

(** *** Deactivation and status *)

Lemma get_status_fields s :
  get_status s !! "game_mode_active" =
    Some (VBool ((0 <? Z.of_nat (size (Attrs._suspended_pids s)))
                 || match Attrs._explorer_pid s with
                    | Some _ => true
                    | None => false
                    end)) /\
  get_status s !! "suspended_count" =
    Some (VInt (Z.of_nat (size (Attrs._suspended_pids s)) +
                (if truthy (match Attrs._explorer_pid s with
                            | Some p => VInt p
                            | None => VNone
                            end) then 1 else 0))) /\
  get_status s !! "explorer_suspended" =
    Some (VBool match Attrs._explorer_pid s with
                | Some _ => true
                | None => false
                end).
Proof. repeat split; reflexivity. Qed.

Lemma tally_all (f : Z -> bool) pids :
  (forall pid, pid ∈ pids -> f pid = true) ->
  tally f pids = Z.of_nat (length pids) /\
  tally (fun p => negb (f p)) pids = 0.
Proof.
  unfold tally. induction pids as [|p pids IH]; intros Hall; [auto|].
  cbn [List.filter]. rewrite (Hall p) by left. cbn [negb length].
  destruct IH as [IH1 IH2]; [intros q Hq; apply Hall; right; exact Hq|].
  split; [lia|exact IH2].
Qed.

Lemma tally_none (f : Z -> bool) pids :
  (forall pid, pid ∈ pids -> f pid = false) ->
  tally f pids = 0 /\
  tally (fun p => negb (f p)) pids = Z.of_nat (length pids).
Proof.
  unfold tally. induction pids as [|p pids IH]; intros Hall; [auto|].
  cbn [List.filter]. rewrite (Hall p) by left. cbn [negb length].
  destruct IH as [IH1 IH2]; [intros q Hq; apply Hall; right; exact Hq|].
  split; [exact IH1|lia].
Qed.

(** X9: when every resume of a deactivation succeeds, the session is
    idle afterwards: [deactivate_game_mode] reports all attempts as
    resumed and none as failed, the suspended set is empty and the shell
    identifier unset, and [get_status] reports the game mode as not
    active with a count of 0.  (A shell identifier of 0 counts as unset
    and would stay.) *)
Theorem deactivate_all_resumed_is_idle w s :
  (forall pid, pid ∈ resume_attempts w s -> resume_ok w s pid = true) ->
  Attrs._explorer_pid s <> Some 0 ->
  result_of (deactivate_game_mode w s) =
    Ret (deactivated (Z.of_nat (length (resume_attempts w s))) 0) /\
  Attrs._suspended_pids (state_of (deactivate_game_mode w s)) = ∅ /\
  Attrs._explorer_pid (state_of (deactivate_game_mode w s)) = None /\
  get_status (state_of (deactivate_game_mode w s)) !! "game_mode_active" =
    Some (VBool false) /\
  get_status (state_of (deactivate_game_mode w s)) !! "suspended_count" =
    Some (VInt 0).
Proof.
  intros Hall Hnz.
  assert (Hset : Attrs._suspended_pids (state_of (deactivate_game_mode w s)) = ∅).
  { rewrite deactivate_run. unfold state_of. cbn [fst snd].
    cbn [Attrs._suspended_pids Attrs.with_explorer_pid
         Attrs.with_suspended_pids].
    apply elem_of_equiv_empty_L. intros pid Hin.
    apply elem_of_difference in Hin as [Hin Hnot]. apply Hnot.
    apply elem_of_list_to_set, elem_of_filter_bool.
    pose proof (tracked_is_attempted w s pid Hin) as Hatt.
    split; [exact Hatt|]. specialize (Hall pid Hatt).
    unfold resume_ok in Hall. unfold resume_discards.
    apply andb_true_iff in Hall as [Hall _]. exact Hall. }
  assert (Hslot : Attrs._explorer_pid (state_of (deactivate_game_mode w s))
                  = None).
  { rewrite deactivate_run. unfold state_of. cbn [fst snd].
    cbn [Attrs._explorer_pid Attrs.with_explorer_pid].
    unfold shell_after.
    assert (Hhead : forall pid, shell_tracked s = [pid] ->
                                resume_ok w s pid = true).
    { intros pid Hp. apply Hall. unfold resume_attempts. rewrite Hp. left. }
    unfold shell_tracked in *.
    destruct (Attrs._explorer_pid s) as [pid|]; [|reflexivity].
    destruct (truthy (VInt pid)) eqn:Ht.
    - rewrite (Hhead pid eq_refl). reflexivity.
    - exfalso. apply Hnz. f_equal. cbn in Ht.
      apply negb_false_iff, Z.eqb_eq in Ht. exact Ht. }
  split.
  - rewrite deactivate_run. unfold result_of. cbn [fst snd].
    destruct (tally_all (resume_ok w s) (resume_attempts w s) Hall)
      as [-> ->]. reflexivity.
  - split; [exact Hset|]. split; [exact Hslot|].
    destruct (get_status_fields (state_of (deactivate_game_mode w s)))
      as (Ha & Hc & _).
    rewrite Ha, Hc, Hset, Hslot. split; reflexivity.
Qed.

Lemma deactivate_all_resumed_is_idle_witness :
  (forall pid,
     pid ∈ resume_attempts (machine 1 desktop []) tracking_shell ->
     resume_ok (machine 1 desktop []) tracking_shell pid = true) /\
  Attrs._explorer_pid tracking_shell <> Some 0 /\
  result_of (deactivate_game_mode (machine 1 desktop []) tracking_shell) =
    Ret (deactivated
           (Z.of_nat (length (resume_attempts (machine 1 desktop [])
                                tracking_shell))) 0) /\
  Attrs._suspended_pids
    (state_of (deactivate_game_mode (machine 1 desktop []) tracking_shell))
    = ∅ /\
  Attrs._explorer_pid
    (state_of (deactivate_game_mode (machine 1 desktop []) tracking_shell))
    = None /\
  get_status
    (state_of (deactivate_game_mode (machine 1 desktop []) tracking_shell))
    !! "game_mode_active" = Some (VBool false) /\
  get_status
    (state_of (deactivate_game_mode (machine 1 desktop []) tracking_shell))
    !! "suspended_count" = Some (VInt 0).
Proof.
  assert (Hall : forall pid,
            pid ∈ resume_attempts (machine 1 desktop []) tracking_shell ->
            resume_ok (machine 1 desktop []) tracking_shell pid = true).
  { intros pid _. reflexivity. }
  assert (Hnz : Attrs._explorer_pid tracking_shell <> Some 0)
    by discriminate.
  split; [exact Hall|]. split; [exact Hnz|].
  exact (deactivate_all_resumed_is_idle (machine 1 desktop []) tracking_shell
           Hall Hnz).
Defined.

(** X10: [get_status] counts the shell twice.  After [suspend_explorer]
    returned [True], the shell's identifier is in the suspended set and
    also in the shell slot, and [suspended_count] is the size of the set
    plus one. *)
Theorem status_counts_shell_twice w s pid :
  result_of (suspend_explorer w s) = Ret true ->
  Attrs._explorer_pid (state_of (suspend_explorer w s)) = Some pid ->
  pid <> 0 ->
  pid ∈ Attrs._suspended_pids (state_of (suspend_explorer w s)) /\
  get_status (state_of (suspend_explorer w s)) !! "suspended_count" =
    Some (VInt (Z.of_nat (size (Attrs._suspended_pids
                                  (state_of (suspend_explorer w s)))) + 1)) /\
  get_status (state_of (suspend_explorer w s)) !! "game_mode_active" =
    Some (VBool true).
Proof.
  intros Hres Hslot Hnz. split.
  - revert Hres Hslot. rewrite suspend_explorer_run.
    destruct (Attrs._psutil_available s); [|discriminate].
    destruct (suspend_explorer_loop_spec w (process_iter w).1 s)
      as (b & Hr & _ & Ht & _).
    intros Hres Hslot. rewrite Hr in Hres. injection Hres as ->.
    destruct (Ht eq_refl) as (q & n & _ & _ & Hq & Hin).
    rewrite Hq in Hslot. injection Hslot as ->. exact Hin.
  - destruct (get_status_fields (state_of (suspend_explorer w s)))
      as (Ha & Hc & _).
    rewrite Ha, Hc, Hslot. cbn [truthy].
    apply Z.eqb_neq in Hnz. rewrite Hnz. cbn [negb].
    rewrite orb_true_r. split; reflexivity.
Qed.

Lemma status_counts_shell_twice_witness :
  result_of (suspend_explorer (machine 1 desktop []) fresh_service) = Ret true /\
  Attrs._explorer_pid
    (state_of (suspend_explorer (machine 1 desktop []) fresh_service)) = Some 4 /\
  4 <> 0 /\
  (4 ∈ Attrs._suspended_pids
         (state_of (suspend_explorer (machine 1 desktop []) fresh_service))) /\
  get_status (state_of (suspend_explorer (machine 1 desktop []) fresh_service))
    !! "suspended_count" =
    Some (VInt (Z.of_nat
                  (size (Attrs._suspended_pids
                           (state_of (suspend_explorer (machine 1 desktop [])
                                        fresh_service)))) + 1)) /\
  get_status (state_of (suspend_explorer (machine 1 desktop []) fresh_service))
    !! "game_mode_active" = Some (VBool true).
Proof.
  assert (Hnz : 4 <> 0) by discriminate.
  split; [reflexivity|]. split; [reflexivity|]. split; [exact Hnz|].
  exact (status_counts_shell_twice (machine 1 desktop []) fresh_service 4
           eq_refl eq_refl Hnz).
Defined.

Lemma count_occ_NoDup (l : list Z) x :
  NoDup l -> x ∈ l -> count_occ Z.eq_dec l x = 1%nat.
Proof.
  induction 1 as [|y l Hy Hl IH]; intros Hin; [inversion Hin|].
  cbn [count_occ]. destruct (Z.eq_dec y x) as [->|Hne].
  - f_equal. apply count_occ_not_In. rewrite <- list_elem_of_In. exact Hy.
  - apply IH. apply elem_of_cons in Hin as [->|Hin]; [congruence|exact Hin].
Qed.

Lemma count_occ_le_tally (f : Z -> bool) l x :
  f x = true -> Z.of_nat (count_occ Z.eq_dec l x) <= tally f l.
Proof.
  intros Hf. unfold tally. induction l as [|y l IH]; [reflexivity|].
  cbn [count_occ List.filter]. destruct (Z.eq_dec y x) as [->|Hne].
  - rewrite Hf. cbn [length]. lia.
  - destruct (f y); cbn [length]; lia.
Qed.

(** X11: a shell whose resume does not take effect is attempted twice by
    one deactivation, once through the shell slot and once through the
    suspended set, where [suspend_explorer] has put it too; the failure
    is counted twice. *)
Theorem failed_shell_is_attempted_twice w s pid :
  Attrs._explorer_pid s = Some pid ->
  pid <> 0 ->
  pid ∈ Attrs._suspended_pids s ->
  resume_discards w s pid = false ->
  count_occ Z.eq_dec (resume_attempts w s) pid = 2%nat /\
  exists resumed failed,
    result_of (deactivate_game_mode w s) = Ret (deactivated resumed failed) /\
    2 <= failed.
Proof.
  intros Hslot Hnz Hin Hd.
  assert (Ht : truthy (VInt pid) = true).
  { cbn. apply negb_true_iff, Z.eqb_neq. exact Hnz. }
  assert (Hatt : resume_attempts w s
                 = pid :: elements (Attrs._suspended_pids s)).
  { unfold resume_attempts, shell_tracked. rewrite Hslot, Ht.
    cbn [foldr app]. rewrite Hd. reflexivity. }
  assert (Hcount : count_occ Z.eq_dec (resume_attempts w s) pid = 2%nat).
  { rewrite Hatt. cbn [count_occ].
    destruct (Z.eq_dec pid pid) as [_|Hne]; [|congruence].
    f_equal. apply count_occ_NoDup; [apply NoDup_elements|].
    apply elem_of_elements. exact Hin. }
  split; [exact Hcount|].
  rewrite deactivate_run. unfold result_of. cbn [fst snd].
  eexists _, _. split; [reflexivity|].
  pose proof (count_occ_le_tally (fun p => negb (resume_ok w s p))
                (resume_attempts w s) pid) as Hle.
  rewrite Hcount in Hle. apply Hle.
  unfold resume_ok. unfold resume_discards in Hd. rewrite Hd. reflexivity.
Qed.

Lemma failed_shell_is_attempted_twice_witness :
  Attrs._explorer_pid tracking_shell = Some 4 /\
  4 <> 0 /\
  (4 ∈ Attrs._suspended_pids tracking_shell) /\
  resume_discards (machine 1 desktop [4]) tracking_shell 4 = false /\
  count_occ Z.eq_dec (resume_attempts (machine 1 desktop [4]) tracking_shell) 4
    = 2%nat /\
  exists resumed failed,
    result_of (deactivate_game_mode (machine 1 desktop [4]) tracking_shell)
      = Ret (deactivated resumed failed) /\
    2 <= failed.
Proof.
  assert (Hnz : 4 <> 0) by discriminate.
  assert (Hin : 4 ∈ Attrs._suspended_pids tracking_shell).
  { vm_compute. reflexivity. }
  split; [reflexivity|]. split; [exact Hnz|]. split; [exact Hin|].
  split; [reflexivity|].
  exact (failed_shell_is_attempted_twice (machine 1 desktop [4])
           tracking_shell 4 eq_refl Hnz Hin eq_refl).
Defined.

Lemma kept_after_deactivate w s pid :
  pid ∈ Attrs._suspended_pids (state_of (deactivate_game_mode w s)) ->
  resume_discards w s pid = false.
Proof.
  rewrite deactivate_run. unfold state_of. cbn [fst snd].
  cbn [Attrs._suspended_pids Attrs.with_explorer_pid
       Attrs.with_suspended_pids].
  intros Hin. apply elem_of_difference in Hin as [Hin Hnot].
  destruct (resume_discards w s pid) eqn:Hd; [|reflexivity].
  exfalso. apply Hnot. apply elem_of_list_to_set, elem_of_filter_bool.
  split; [apply tracked_is_attempted; exact Hin|exact Hd].
Qed.

Lemma shell_kept_after_deactivate w s pid :
  pid ∈ shell_tracked (state_of (deactivate_game_mode w s)) ->
  resume_ok w s pid = false.
Proof.
  rewrite deactivate_run. unfold state_of. cbn [fst snd].
  unfold shell_tracked at 1.
  cbn [Attrs._explorer_pid Attrs.with_explorer_pid].
  unfold shell_after, shell_tracked.
  destruct (Attrs._explorer_pid s) as [q|]; [|intros H; inversion H].
  destruct (truthy (VInt q)) eqn:Ht; cbn [andb].
  - destruct (resume_ok w s q) eqn:Hok; [intros H; inversion H|].
    rewrite Ht. intros H. apply list_elem_of_singleton in H as ->. exact Hok.
  - rewrite Ht. intros H. inversion H.
Qed.

Lemma foldr_discard_subseteq (f : Z -> bool) (X : gset Z) l :
  foldr (fun pid s => if f pid then s ∖ {[pid]} else s) X l ⊆ X.
Proof.
  induction l as [|p l IH]; cbn [foldr]; [set_solver|].
  destruct (f p); set_solver.
Qed.

(** X12: deactivating again against the same machine changes nothing:
    the second [deactivate_game_mode] resumes nothing (every identifier
    left over is one the first call could not resume), counts them all as
    failed and leaves the session as the first call left it. *)
Theorem deactivate_again_changes_nothing w s :
  state_of (deactivate_game_mode w (state_of (deactivate_game_mode w s))) =
    state_of (deactivate_game_mode w s) /\
  exists failed,
    result_of (deactivate_game_mode w (state_of (deactivate_game_mode w s))) =
      Ret (deactivated 0 failed).
Proof.
  set (s1 := state_of (deactivate_game_mode w s)).
  assert (Hc : Attrs._ctypes_available s1 = Attrs._ctypes_available s).
  { subst s1. rewrite deactivate_run. reflexivity. }
  assert (Hok : forall pid, resume_ok w s1 pid = resume_ok w s pid).
  { intros pid. unfold resume_ok. rewrite Hc. reflexivity. }
  assert (Hdis : forall pid, resume_discards w s1 pid = resume_discards w s pid).
  { intros pid. unfold resume_discards. rewrite Hc. reflexivity. }
  assert (Hset : forall pid, pid ∈ Attrs._suspended_pids s1 ->
                             resume_discards w s1 pid = false).
  { intros pid Hin. rewrite Hdis. apply (kept_after_deactivate w s pid Hin). }
  assert (Hshell : forall pid, pid ∈ shell_tracked s1 ->
                               resume_ok w s1 pid = false).
  { intros pid Hin. rewrite Hok. apply (shell_kept_after_deactivate w s pid Hin). }
  assert (Hnone : forall pid, pid ∈ resume_attempts w s1 ->
                              resume_ok w s1 pid = false).
  { intros pid Hin. unfold resume_attempts in Hin.
    apply elem_of_app in Hin as [Hin|Hin]; [apply Hshell; exact Hin|].
    apply elem_of_elements in Hin.
    apply foldr_discard_subseteq in Hin. apply Hset in Hin.
    unfold resume_ok. unfold resume_discards in Hin. rewrite Hin.
    reflexivity. }
  split.
  - rewrite (deactivate_run w s1). unfold state_of at 1. cbn [fst snd].
    assert (Hsame : Attrs._suspended_pids s1
                    ∖ list_to_set (List.filter (resume_discards w s1)
                                     (resume_attempts w s1))
                    = Attrs._suspended_pids s1).
    { apply set_eq. intros pid. rewrite elem_of_difference.
      split; [intros [H _]; exact H|]. intros Hin. split; [exact Hin|].
      rewrite elem_of_list_to_set, elem_of_filter_bool. intros [_ Hd].
      rewrite (Hset pid Hin) in Hd. discriminate. }
    assert (Hslot : match shell_tracked s1 with
                    | [] => Attrs._explorer_pid s1
                    | _ :: _ => shell_after w s1
                    end = Attrs._explorer_pid s1).
    { pose proof Hshell as Hshell'. unfold shell_tracked in Hshell' |- *.
      unfold shell_after.
      destruct (Attrs._explorer_pid s1) as [q|]; [|reflexivity].
      destruct (truthy (VInt q)); [|reflexivity].
      rewrite (Hshell' q) by left. reflexivity. }
    rewrite Hslot. destruct s1. unfold Attrs.with_explorer_pid,
      Attrs.with_suspended_pids. cbn in *. rewrite Hsame. reflexivity.
  - rewrite (deactivate_run w s1). unfold result_of. cbn [fst snd].
    destruct (tally_none (resume_ok w s1) (resume_attempts w s1) Hnone)
      as [-> ->]. eexists. reflexivity.
Qed.

(** X13: [activate_game_mode] only ever adds to the suspended set: it
    keeps every tracked identifier, leaves the shell identifier and the
    toggles as they were, and makes no resume call. *)
Theorem activate_only_adds w s :
  Attrs._suspended_pids s ⊆
    Attrs._suspended_pids (state_of (activate_game_mode w s)) /\
  state_of (activate_game_mode w s) =
    Attrs.with_suspended_pids
      (fun _ => Attrs._suspended_pids (state_of (activate_game_mode w s))) s /\
  (forall pid,
     NtResumeProcess_call pid ∉ trace_of (activate_game_mode w s)).
Proof.
  assert (Hself : s = Attrs.with_suspended_pids
                        (fun _ => Attrs._suspended_pids s) s)
    by (destruct s; reflexivity).
  destruct (Attrs.enabled s) eqn:Hen.
  - destruct (Attrs.suspend_explorer s || Attrs.suspend_browsers s
              || Attrs.suspend_launchers s) eqn:Hany.
    + rewrite activate_shadowed by assumption.
      unfold state_of, trace_of. cbn [fst snd].
      split; [set_solver|]. split; [exact Hself|]. intros pid H. inversion H.
    + apply orb_false_elim in Hany as [Hany Hl].
      apply orb_false_elim in Hany as [He Hb].
      rewrite activate_unshadowed by assumption.
      destruct (Attrs.suspend_background s).
      * unfold state_of, trace_of. cbn [fst snd].
        split; [cbn; set_solver|]. split; [reflexivity|].
        intros pid Hin. destruct (Attrs._ctypes_available s);
          [|inversion Hin].
        apply list_elem_of_In, in_flat_map in Hin as (q & _ & Hin).
        unfold primitive_calls in Hin.
        destruct (open_fails w q); cbn in Hin;
          repeat (destruct Hin as [Hin|Hin]; [discriminate|]); exact Hin.
      * unfold state_of, trace_of. cbn [fst snd].
        split; [set_solver|]. split; [exact Hself|]. intros pid H. inversion H.
  - rewrite activate_disabled_run by assumption.
    unfold state_of, trace_of. cbn [fst snd].
    split; [set_solver|]. split; [exact Hself|]. intros pid H. inversion H.
Qed.

(** *** The listing of suspendable processes *)

Lemma note_name_spec key n (result : listing) names :
  result !! key = Some names ->
  exists names',
    note_name key n result = Ret (<[key := names']> result) /\
    (forall x, x ∈ names' <-> x ∈ names \/ x = n) /\
    (NoDup names -> NoDup names').
Proof.
  intros Hkey. unfold note_name. rewrite Hkey.
  destruct (str_in n names) eqn:Hin.
  - exists names. rewrite insert_id by exact Hkey.
    split; [reflexivity|]. split; [|auto].
    intros x. split; [auto|]. intros [H| ->]; [exact H|].
    apply str_in_spec. exact Hin.
  - exists (names ++ [n]). split; [reflexivity|]. split.
    + intros x. rewrite elem_of_app, list_elem_of_singleton. tauto.
    + intros Hnd. apply NoDup_app. split; [exact Hnd|].
      split; [|apply NoDup_singleton].
      intros x Hx Hx'. apply list_elem_of_singleton in Hx' as ->.
      apply str_in_spec in Hx. congruence.
Qed.

Lemma listed_insert key k names (result : listing) :
  listed k (<[key := names]> result) =
    if decide (key = k) then names else listed k result.
Proof.
  unfold listed. rewrite lookup_insert. destruct (decide (key = k)); reflexivity.
Qed.

Lemma category_of_key n key :
  category_of n = Some key -> key ∈ ["browsers"; "launchers"; "background"].
Proof.
  unfold category_of.
  destruct (str_in _ (map lower BROWSER_PROCESSES));
    [intros [= <-]; set_solver|].
  destruct (str_in _ (map lower LAUNCHER_PROCESSES));
    [intros [= <-]; set_solver|].
  destruct (str_in _ (map lower BACKGROUND_PROCESSES));
    [intros [= <-]; set_solver|discriminate].
Qed.

Lemma suspendable_loop_step q n ps (result : listing) :
  n <> "" ->
  suspendable_loop (ProcInfo q (Some n) :: ps) result =
    match category_of n with
    | Some key =>
        match note_name key n result with
        | Ret result' => suspendable_loop ps result'
        | Raise _ => result
        end
    | None => suspendable_loop ps result
    end.
Proof.
  intros Hn. apply name_truthy_spec in Hn.
  cbn [suspendable_loop]. rewrite Hn. cbn [negb]. unfold category_of.
  destruct (str_in _ (map lower BROWSER_PROCESSES)); [reflexivity|].
  destruct (str_in _ (map lower LAUNCHER_PROCESSES)); [reflexivity|].
  destruct (str_in _ (map lower BACKGROUND_PROCESSES)); reflexivity.
Qed.

Lemma suspendable_loop_spec ps : forall result : listing,
  (forall k, k ∈ ["browsers"; "launchers"; "background"] ->
             is_Some (result !! k)) ->
  forall key n,
    (n ∈ listed key (suspendable_loop ps result) <->
     n ∈ listed key result \/
     (n <> "" /\ (exists pid, (pid, Some n) ∈ readable ps) /\
      category_of n = Some key)) /\
    (NoDup (listed key result) ->
     NoDup (listed key (suspendable_loop ps result))).
Proof.
  induction ps as [|p ps IH]; intros result Hkeys key n.
  - cbn [suspendable_loop readable]. split; [|auto]. split; [auto|].
    intros [H|(_ & (pid & H) & _)]; [exact H|inversion H].
  - destruct p as [q [n0|]|e]; cbn [readable].
    + destruct (decide (n0 = "")) as [->|Hn0].
      * cbn [suspendable_loop name_truthy String.eqb negb].
        destruct (IH result Hkeys key n) as [IH1 IH2]. split; [|exact IH2].
        rewrite IH1. split.
        -- intros [H|(H1 & (pid & H2) & H3)]; [left; exact H|].
           right. split; [exact H1|]. split; [|exact H3].
           exists pid. right. exact H2.
        -- intros [H|(H1 & (pid & H2) & H3)]; [left; exact H|].
           apply elem_of_cons in H2 as [H2|H2]; [congruence|].
           right. split; [exact H1|]. split; [|exact H3].
           exists pid. exact H2.
      * rewrite suspendable_loop_step by exact Hn0.
        destruct (category_of n0) as [k0|] eqn:Hcat.
        -- destruct (Hkeys k0 (category_of_key _ _ Hcat)) as [names Hnames].
           destruct (note_name_spec k0 n0 result names Hnames)
             as (names' & -> & Hmem & Hnd).
           assert (Hkeys' : forall k,
                     k ∈ ["browsers"; "launchers"; "background"] ->
                     is_Some (<[k0 := names']> result !! k)).
           { intros k Hk. rewrite lookup_insert.
             destruct (decide (k0 = k)); [eauto|apply Hkeys; exact Hk]. }
           destruct (IH _ Hkeys' key n) as [IH1 IH2].
           rewrite listed_insert in IH1, IH2.
           assert (Hlisted : listed k0 result = names)
             by (unfold listed; rewrite Hnames; reflexivity).
           split.
           ++ rewrite IH1. destruct (decide (k0 = key)) as [->|Hne].
              ** rewrite Hmem, Hlisted. split.
                 --- intros [[H| ->]|(H1 & (pid & H2) & H3)].
                     +++ left. exact H.
                     +++ right. split; [exact Hn0|]. split; [|exact Hcat].
                         exists q. left.
                     +++ right. split; [exact H1|]. split; [|exact H3].
                         exists pid. right. exact H2.
                 --- intros [H|(H1 & (pid & H2) & H3)]; [left; left; exact H|].
                     apply elem_of_cons in H2 as [H2|H2].
                     +++ left. right. congruence.
                     +++ right. split; [exact H1|]. split; [|exact H3].
                         exists pid. exact H2.
              ** split.
                 --- intros [H|(H1 & (pid & H2) & H3)]; [left; exact H|].
                     right. split; [exact H1|]. split; [|exact H3].
                     exists pid. right. exact H2.
                 --- intros [H|(H1 & (pid & H2) & H3)]; [left; exact H|].
                     apply elem_of_cons in H2 as [H2|H2].
                     +++ exfalso. apply Hne. congruence.
                     +++ right. split; [exact H1|]. split; [|exact H3].
                         exists pid. exact H2.
           ++ intros Hnd0. apply IH2.
              destruct (decide (k0 = key)) as [->|Hne]; [|exact Hnd0].
              apply Hnd. rewrite <- Hlisted. exact Hnd0.
        -- destruct (IH result Hkeys key n) as [IH1 IH2]. split; [|exact IH2].
           rewrite IH1. split.
           ++ intros [H|(H1 & (pid & H2) & H3)]; [left; exact H|].
              right. split; [exact H1|]. split; [|exact H3].
              exists pid. right. exact H2.
           ++ intros [H|(H1 & (pid & H2) & H3)]; [left; exact H|].
              apply elem_of_cons in H2 as [H2|H2]; [congruence|].
              right. split; [exact H1|]. split; [|exact H3].
              exists pid. exact H2.
    + cbn [suspendable_loop].
      destruct (IH result Hkeys key n) as [IH1 IH2]. split; [|exact IH2].
      rewrite IH1. split.
      * intros [H|(H1 & (pid & H2) & H3)]; [left; exact H|].
        right. split; [exact H1|]. split; [|exact H3].
        exists pid. right. exact H2.
      * intros [H|(H1 & (pid & H2) & H3)]; [left; exact H|].
        apply elem_of_cons in H2 as [H2|H2]; [congruence|].
        right. split; [exact H1|]. split; [|exact H3].
        exists pid. exact H2.
    + cbn [suspendable_loop]. destruct (skipped e); [apply IH; exact Hkeys|].
      split; [|auto]. split; [auto|].
      intros [H|(_ & (pid & H) & _)]; [exact H|inversion H].
Qed.

(** X14: [get_suspendable_processes] lists, under each of its three
    keys, exactly the non-empty names of the processes it could look at
    that fall into that category, where a name belongs to the first of
    browsers, launchers, background that lists it in lower case; no name
    is listed twice, and so none under two keys. *)
Theorem suspendable_listing w s key n :
  Attrs._psutil_available s = true ->
  (n ∈ listed key (get_suspendable_processes w s) <->
   n <> "" /\ running_name w n /\ category_of n = Some key) /\
  NoDup (listed key (get_suspendable_processes w s)).
Proof.
  intros Hps. unfold get_suspendable_processes, running_name. rewrite Hps.
  cbn [negb].
  set (empty := <["background" := []]>
                  (<["launchers" := []]> ({["browsers" := []]} : listing))).
  assert (Hkeys : forall k, k ∈ ["browsers"; "launchers"; "background"] ->
                            is_Some (empty !! k)).
  { intros k Hk. subst empty.
    repeat (apply elem_of_cons in Hk as [->|Hk]; [eexists; reflexivity|]).
    inversion Hk. }
  assert (Hnone : listed key empty = []).
  { unfold listed, empty. rewrite !lookup_insert.
    repeat (destruct (decide _); [reflexivity|]).
    rewrite lookup_singleton. destruct (decide _); reflexivity. }
  destruct (suspendable_loop_spec (process_iter w).1 empty Hkeys key n)
    as [H1 H2].
  split.
  - rewrite H1, Hnone. split; [|auto].
    intros [H|H]; [inversion H|exact H].
  - apply H2. rewrite Hnone. apply NoDup_nil_2.
Qed.

Lemma suspendable_listing_witness :
  Attrs._psutil_available fresh_service = true /\
  ("Chrome.exe" ∈ listed "browsers"
                    (get_suspendable_processes (machine 1 desktop [])
                       fresh_service) <->
   "Chrome.exe" <> "" /\ running_name (machine 1 desktop []) "Chrome.exe" /\
   category_of "Chrome.exe" = Some "browsers") /\
  NoDup (listed "browsers"
           (get_suspendable_processes (machine 1 desktop []) fresh_service)).
Proof.
  split; [reflexivity|].
  exact (suspendable_listing (machine 1 desktop []) fresh_service
           "browsers" "Chrome.exe" eq_refl).
Defined.

(** X15: without psutil the service resolves nothing: a category batch
    reports no identifier at all and makes no kernel call, the method
    [suspend_explorer] returns [False], the listing of suspendable
    processes is empty, and the session is unchanged throughout. *)
Theorem without_psutil_nothing_is_resolved w s names :
  Attrs._psutil_available s = false ->
  suspend_named w names s = (Ret (counts 0 0), s, []) /\
  suspend_explorer w s = (Ret false, s, []) /\
  get_suspendable_processes w s = ∅.
Proof.
  intros Hps. split.
  - rewrite suspend_named_run. unfold resolve. rewrite Hps.
    cbn [List.filter flat_map list_to_set]. unfold tally. cbn [List.filter length].
    apply run_eq; [reflexivity| |destruct (Attrs._ctypes_available s); reflexivity].
    apply with_pids_id. set_solver.
  - split.
    + rewrite suspend_explorer_run, Hps. reflexivity.
    + unfold get_suspendable_processes. rewrite Hps. reflexivity.
Qed.

Lemma without_psutil_nothing_is_resolved_witness :
  Attrs._psutil_available (__init__ false true true) = false /\
  suspend_named (machine 1 desktop []) BROWSER_PROCESSES
    (__init__ false true true) =
    (Ret (counts 0 0), __init__ false true true, []) /\
  suspend_explorer (machine 1 desktop []) (__init__ false true true) =
    (Ret false, __init__ false true true, []) /\
  get_suspendable_processes (machine 1 desktop []) (__init__ false true true)
    = ∅.
Proof.
  split; [reflexivity|].
  exact (without_psutil_nothing_is_resolved (machine 1 desktop [])
           (__init__ false true true) BROWSER_PROCESSES eq_refl).
Defined.

(** X16: without the Windows APIs nothing is suspended or resumed: both
    primitives return [False] at once, and a category batch counts every
    resolved identifier as failed, makes no kernel call and leaves the
    session unchanged. *)
Theorem without_ctypes_nothing_is_suspended w s names pid :
  Attrs._ctypes_available s = false ->
  _suspend_process w pid s = (Ret false, s, []) /\
  _resume_process w pid s = (Ret false, s, []) /\
  suspend_named w names s =
    (Ret (counts 0 (Z.of_nat (length (resolve w s names)))), s, []).
Proof.
  intros Hc. split; [rewrite suspend_process_run, Hc; reflexivity|].
  split; [rewrite resume_process_run, Hc; reflexivity|].
  rewrite suspend_named_run, Hc.
  assert (Hf : List.filter (suspend_adds w s) (resolve w s names) = []).
  { induction (resolve w s names) as [|p l IH]; [reflexivity|].
    cbn [List.filter]. unfold suspend_adds at 1. rewrite Hc. exact IH. }
  assert (Hnone : forall p, p ∈ resolve w s names -> suspend_ok w s p = false).
  { intros p _. unfold suspend_ok. rewrite Hc. reflexivity. }
  destruct (tally_none _ _ Hnone) as [-> ->].
  apply run_eq; [reflexivity| |reflexivity].
  apply with_pids_id. rewrite Hf. set_solver.
Qed.

Lemma without_ctypes_nothing_is_suspended_witness :
  Attrs._ctypes_available (__init__ true false true) = false /\
  _suspend_process (machine 1 desktop []) 7 (__init__ true false true) =
    (Ret false, __init__ true false true, []) /\
  _resume_process (machine 1 desktop []) 7 (__init__ true false true) =
    (Ret false, __init__ true false true, []) /\
  suspend_named (machine 1 desktop []) BROWSER_PROCESSES
    (__init__ true false true) =
    (Ret (counts 0 (Z.of_nat
                      (length (resolve (machine 1 desktop [])
                                 (__init__ true false true)
                                 BROWSER_PROCESSES)))),
     __init__ true false true, []).
Proof.
  split; [reflexivity|].
  exact (without_ctypes_nothing_is_suspended (machine 1 desktop [])
           (__init__ true false true) BROWSER_PROCESSES 7 eq_refl).
Defined.
End SuspendServiceFurther.

(** * Further properties of the game detector *)

Section GameDetectorFurther.
Import GameDetectorService.
#[local] Set Warnings "-clear-no-such-hyp".

Lemma failed_scan_keeps_state_aux w s :
  _psutil_available s = false \/ returns (scan_processes w) = false ->
  _check_games w s = (Ret tt, s, []).
Proof.
  intros Hfail. unfold _check_games, bind, get, ret.
  destruct (_psutil_available s); cbn [negb]; [|reflexivity].
  destruct Hfail as [Hfail|Hfail]; [discriminate|].
  destruct (scan_processes w); [discriminate|reflexivity].
Qed.

(** X17: a tick that cannot scan, because psutil is missing or because
    the process iteration raises an exception that is not skipped, emits
    no notification and keeps the stored games. *)
Theorem failed_scan_keeps_state w s :
  _psutil_available s = false \/ returns (scan_processes w) = false ->
  _check_games w s = (Ret tt, s, []).
Proof.
  intros Hfail. unfold _check_games, bind, get, ret.
  destruct (_psutil_available s); cbn [negb]; [|reflexivity].
  destruct Hfail as [Hfail|Hfail]; [discriminate|].
  destruct (scan_processes w); [discriminate|reflexivity].
Qed.

Lemma failed_scan_keeps_state_witness :
  (_psutil_available listening_detector = false \/
   returns (scan_processes
              (machine 1 [cs2_process; ProcRaises OSError] [])) = false) /\
  _check_games (machine 1 [cs2_process; ProcRaises OSError] [])
    listening_detector = (Ret tt, listening_detector, []).
Proof.
  assert (Hfail :
    _psutil_available listening_detector = false \/
    returns (scan_processes
               (machine 1 [cs2_process; ProcRaises OSError] [])) = false).
  { right. reflexivity. }
  split; [exact Hfail|].
  exact (failed_scan_keeps_state
           (machine 1 [cs2_process; ProcRaises OSError] [])
           listening_detector Hfail).
Defined.

Lemma check_games_cases w s :
  _check_games w s = (Ret tt, s, []) \/
  exists current_games,
    _psutil_available s = true /\
    scan_processes w = Ret current_games.
Proof.
  destruct (_psutil_available s) eqn:Hps;
    [|left; apply failed_scan_keeps_state_aux; left; exact Hps].
  destruct (scan_processes w) as [cur|e] eqn:Hscan.
  - right. exists cur. auto.
  - left. apply failed_scan_keeps_state_aux. right. rewrite Hscan. reflexivity.
Qed.

(** X18: a tick is idempotent: polling the same process table a second
    time emits no notification and leaves the stored games as the first
    tick left them. *)
Theorem second_tick_is_silent w s :
  _check_games w (state_of (_check_games w s)) =
    (Ret tt, state_of (_check_games w s), []).
Proof.
  destruct (check_games_cases w s) as [Hsame|(cur & Hps & Hscan)].
  - rewrite Hsame. unfold state_of. cbn [fst snd]. exact Hsame.
  - rewrite (check_games_run w s cur Hps Hscan). unfold state_of.
    cbn [fst snd].
    rewrite (check_games_run w (with_detected_games (elements cur) s) cur
               Hps Hscan).
    cbn [detected_games with_detected_games auto_optimize on_game_detected
         on_game_closed].
    rewrite list_to_set_elements_L.
    replace (cur ∖ cur) with (∅ : gset string) by set_solver.
    rewrite elements_empty.
    apply run_eq; [reflexivity|reflexivity|].
    destruct (auto_optimize s), (on_game_detected s), (on_game_closed s);
      reflexivity.
Qed.

Lemma str_in_elem x (l : list string) : str_in x l = true <-> x ∈ l.
Proof.
  unfold str_in. rewrite list_elem_of_In. split.
  - intros H. apply existsb_exists in H as (y & Hy & Heq).
    apply String.eqb_eq in Heq as ->. exact Hy.
  - intros H. apply existsb_exists. exists x. split; [exact H|].
    apply String.eqb_refl.
Qed.

Lemma match_game_key catalog n g :
  match_game catalog n = Some g -> g ∈ map fst catalog.
Proof.
  induction catalog as [|[g0 names] catalog IH]; cbn [match_game map fst];
    [discriminate|].
  destruct (str_in (lower n) (map lower names)).
  - intros [= <-]. left.
  - intros H. right. apply IH. exact H.
Qed.

Lemma scan_spec ps : forall current_games found g,
  scan ps current_games = Ret found ->
  (g ∈ found <->
   g ∈ current_games \/
   exists pid n, (pid, Some n) ∈ readable ps /\ n <> "" /\
                 match_game SUPPORTED_GAMES n = Some g).
Proof.
  induction ps as [|p ps IH]; intros cur found g; cbn [scan readable].
  - intros [= <-]. split; [auto|].
    intros [H|(pid & n & H & _)]; [exact H|inversion H].
  - destruct p as [q [n0|]|e].
    + destruct (name_truthy (Some n0)) eqn:Ht.
      * destruct (match_game SUPPORTED_GAMES n0) as [g0|] eqn:Hm;
          intros Hscan; rewrite (IH _ _ g Hscan); clear IH Hscan.
        -- rewrite elem_of_union, elem_of_singleton. split.
           ++ intros [[->|H]|(pid & n & H1 & H2 & H3)].
              ** right. exists q, n0. split; [left|]. split; [|exact Hm].
                 intros ->. discriminate.
              ** left. exact H.
              ** right. exists pid, n. split; [right; exact H1|auto].
           ++ intros [H|(pid & n & H1 & H2 & H3)]; [left; right; exact H|].
              apply elem_of_cons in H1 as [H1|H1].
              ** left. left. congruence.
              ** right. exists pid, n. auto.
        -- split.
           ++ intros [H|(pid & n & H1 & H2 & H3)]; [left; exact H|].
              right. exists pid, n. split; [right; exact H1|auto].
           ++ intros [H|(pid & n & H1 & H2 & H3)]; [left; exact H|].
              apply elem_of_cons in H1 as [H1|H1]; [congruence|].
              right. exists pid, n. auto.
      * intros Hscan; rewrite (IH _ _ g Hscan); clear IH Hscan. split.
        -- intros [H|(pid & n & H1 & H2 & H3)]; [left; exact H|].
           right. exists pid, n. split; [right; exact H1|auto].
        -- intros [H|(pid & n & H1 & H2 & H3)]; [left; exact H|].
           apply elem_of_cons in H1 as [H1|H1].
           ++ exfalso. injection H1 as -> ->. cbn in Ht.
              apply negb_false_iff, String.eqb_eq in Ht. exact (H2 Ht).
           ++ right. exists pid, n. auto.
    + intros Hscan; rewrite (IH _ _ g Hscan); clear IH Hscan. split.
      * intros [H|(pid & n & H1 & H2 & H3)]; [left; exact H|].
        right. exists pid, n. split; [right; exact H1|auto].
      * intros [H|(pid & n & H1 & H2 & H3)]; [left; exact H|].
        apply elem_of_cons in H1 as [H1|H1]; [congruence|].
        right. exists pid, n. auto.
    + destruct (skipped e); [apply IH|discriminate].
Qed.

Lemma scan_processes_spec w found g :
  scan_processes w = Ret found ->
  (g ∈ found <->
   exists pid n, (pid, Some n) ∈ readable (process_iter w).1 /\ n <> "" /\
                 match_game SUPPORTED_GAMES n = Some g).
Proof.
  unfold scan_processes.
  destruct (scan (process_iter w).1 ∅) as [cur|e] eqn:Hscan; [|discriminate].
  destruct (process_iter w).2; [discriminate|]. intros [= <-].
  rewrite (scan_spec _ _ _ g Hscan). split.
  - intros [H|H]; [set_solver|exact H].
  - auto.
Qed.

(** X19: after a tick that completes, [is_game_running] answers [True]
    for exactly the games some running process matches: the process has
    a non-empty name that the catalog maps to the game.  The stored list
    has no duplicates. *)
Theorem running_games_after_tick w s found g :
  _psutil_available s = true ->
  scan_processes w = Ret found ->
  (is_game_running (state_of (_check_games w s)) g = true <->
   exists pid n, (pid, Some n) ∈ readable (process_iter w).1 /\ n <> "" /\
                 match_game SUPPORTED_GAMES n = Some g) /\
  NoDup (get_running_games (state_of (_check_games w s))).
Proof.
  intros Hps Hscan. rewrite (check_games_run w s found Hps Hscan).
  unfold state_of, is_game_running, get_running_games. cbn [fst snd].
  cbn [detected_games with_detected_games]. split.
  - rewrite str_in_elem, elem_of_elements.
    apply scan_processes_spec. exact Hscan.
  - apply NoDup_elements.
Qed.

Lemma running_games_after_tick_witness :
  _psutil_available listening_detector = true /\
  scan_processes (machine 1 [cs2_process] []) = Ret {["Counter-Strike 2"]} /\
  (is_game_running
     (state_of (_check_games (machine 1 [cs2_process] []) listening_detector))
     "Counter-Strike 2" = true <->
   exists pid n,
     (pid, Some n) ∈ readable (process_iter (machine 1 [cs2_process] [])).1 /\
     n <> "" /\ match_game SUPPORTED_GAMES n = Some "Counter-Strike 2") /\
  NoDup (get_running_games
           (state_of (_check_games (machine 1 [cs2_process] [])
                        listening_detector))).
Proof.
  assert (Hscan : scan_processes (machine 1 [cs2_process] [])
                  = Ret {["Counter-Strike 2"]}).
  { vm_compute. reflexivity. }
  split; [reflexivity|]. split; [exact Hscan|].
  exact (running_games_after_tick (machine 1 [cs2_process] [])
           listening_detector {["Counter-Strike 2"]} "Counter-Strike 2"
           eq_refl Hscan).
Defined.

Lemma check_games_returns w s : result_of (_check_games w s) = Ret tt.
Proof.
  destruct (check_games_cases w s) as [->|(cur & Hps & Hscan)];
    [reflexivity|].
  rewrite (check_games_run w s cur Hps Hscan). reflexivity.
Qed.

Lemma detection_loop_cons w ws s :
  state_of (_detection_loop (w :: ws) s) =
    state_of (_detection_loop ws
                (if enabled s then state_of (_check_games w s) else s)).
Proof.
  cbn [_detection_loop]. rewrite state_of_bind. unfold get at 1.
  unfold result_of at 1, state_of at 2. cbn [fst snd].
  rewrite state_of_bind. destruct (enabled s).
  - rewrite check_games_returns. reflexivity.
  - reflexivity.
Qed.

Lemma check_games_keeps_catalog_names w s :
  (forall g, g ∈ detected_games s -> g ∈ get_supported_games) ->
  forall g, g ∈ detected_games (state_of (_check_games w s)) ->
            g ∈ get_supported_games.
Proof.
  intros Hinv g.
  destruct (check_games_cases w s) as [->|(cur & Hps & Hscan)];
    [apply Hinv|].
  rewrite (check_games_run w s cur Hps Hscan). unfold state_of.
  cbn [fst snd detected_games with_detected_games].
  rewrite elem_of_elements. intros Hin.
  apply (scan_processes_spec w cur g Hscan) in Hin as (pid & n & _ & _ & Hm).
  apply match_game_key in Hm. exact Hm.
Qed.

(** X20: the stored games are always catalog games: through any number
    of polling iterations, whatever the process tables show, every name
    for which [is_game_running] answers [True] is one of
    [get_supported_games], provided that held at the start (as it does
    for the empty list of a new detector). *)
Theorem running_games_are_supported ws : forall s g,
  (forall g', g' ∈ detected_games s -> g' ∈ get_supported_games) ->
  is_game_running (state_of (_detection_loop ws s)) g = true ->
  g ∈ get_supported_games.
Proof.
  induction ws as [|w ws IH]; intros s g Hinv.
  - unfold is_game_running. rewrite str_in_elem. apply Hinv.
  - rewrite detection_loop_cons. apply IH.
    destruct (enabled s); [|exact Hinv].
    apply check_games_keeps_catalog_names. exact Hinv.
Qed.

Lemma running_games_are_supported_witness :
  (forall g', g' ∈ detected_games listening_detector ->
              g' ∈ get_supported_games) /\
  (is_game_running
     (state_of (_detection_loop
                  [machine 1 [cs2_process] []; machine 1 [valheim_process] []]
                  listening_detector)) "Valheim" = true ->
   "Valheim" ∈ get_supported_games).
Proof.
  assert (Hinv : forall g', g' ∈ detected_games listening_detector ->
                            g' ∈ get_supported_games).
  { intros g' H. inversion H. }
  split; [exact Hinv|].
  exact (running_games_are_supported
           [machine 1 [cs2_process] []; machine 1 [valheim_process] []]
           listening_detector "Valheim" Hinv).
Defined.

Lemma disjoint_entry_first catalog : forall g names n,
  entries_disjoint catalog = true ->
  (g, names) ∈ catalog ->
  str_in (lower n) (map lower names) = true ->
  match_game catalog n = Some g.
Proof.
  induction catalog as [|[g0 names0] catalog IH]; intros g names n Hdis Hin Hn;
    [inversion Hin|].
  cbn [entries_disjoint] in Hdis. apply andb_true_iff in Hdis as [Hhead Hdis].
  cbn [match_game].
  apply elem_of_cons in Hin as [Hin|Hin].
  - injection Hin as <- <-. rewrite Hn. reflexivity.
  - destruct (str_in (lower n) (map lower names0)) eqn:Hn0;
      [|apply (IH g names n Hdis Hin Hn)].
    exfalso.
    apply str_in_elem, list_elem_of_fmap in Hn as (p & Hp & Hpin).
    rewrite forallb_forall in Hhead.
    apply list_elem_of_In in Hin. specialize (Hhead _ Hin). cbn [snd] in Hhead.
    rewrite forallb_forall in Hhead.
    apply list_elem_of_In in Hpin. specialize (Hhead _ Hpin).
    rewrite <- Hp, Hn0 in Hhead. discriminate.
Qed.

(** X21: the catalog is unambiguous: a process whose name equals, in
    lower case, an executable listed for a game is detected as that game.
    No executable of one entry is hidden by an earlier entry. *)
Theorem listed_executable_detects_its_game g names n p :
  (g, names) ∈ SUPPORTED_GAMES ->
  p ∈ names ->
  lower n = lower p ->
  match_game SUPPORTED_GAMES n = Some g.
Proof.
  intros Hentry Hp Hn.
  apply (disjoint_entry_first SUPPORTED_GAMES g names n);
    [vm_compute; reflexivity|exact Hentry|].
  apply str_in_elem, list_elem_of_fmap. exists p. auto.
Qed.

Lemma listed_executable_detects_its_game_witness :
  ("Minecraft", ["javaw.exe"; "Minecraft.Windows.exe"]) ∈ SUPPORTED_GAMES /\
  "Minecraft.Windows.exe" ∈ ["javaw.exe"; "Minecraft.Windows.exe"] /\
  lower "MINECRAFT.windows.EXE" = lower "Minecraft.Windows.exe" /\
  match_game SUPPORTED_GAMES "MINECRAFT.windows.EXE" = Some "Minecraft".
Proof.
  assert (Hentry : ("Minecraft", ["javaw.exe"; "Minecraft.Windows.exe"])
                   ∈ SUPPORTED_GAMES).
  { do 12 apply list_elem_of_further. apply list_elem_of_here. }
  assert (Hp : "Minecraft.Windows.exe"
               ∈ ["javaw.exe"; "Minecraft.Windows.exe"]).
  { apply list_elem_of_further. apply list_elem_of_here. }
  split; [exact Hentry|]. split; [exact Hp|]. split; [reflexivity|].
  exact (listed_executable_detects_its_game "Minecraft"
           ["javaw.exe"; "Minecraft.Windows.exe"] "MINECRAFT.windows.EXE"
           "Minecraft.Windows.exe" Hentry Hp eq_refl).
Defined.

(** X22: a detector that is switched off does nothing: through any
    number of polling iterations it emits no notification and keeps its
    state, whatever the process tables show. *)
Theorem disabled_detector_is_silent ws : forall s,
  enabled s = false ->
  _detection_loop ws s = (Ret tt, s, []).
Proof.
  induction ws as [|w ws IH]; intros s Hen; [reflexivity|].
  cbn [_detection_loop]. unfold bind, get. cbn [fst snd]. rewrite Hen.
  unfold ret at 1. rewrite (IH s Hen). reflexivity.
Qed.

Lemma disabled_detector_is_silent_witness :
  enabled (mk false true 5 [] (Some 1%nat) (Some 2%nat) true true true)
    = false /\
  _detection_loop
    [machine 1 [cs2_process] []; machine 1 [] []]
    (mk false true 5 [] (Some 1%nat) (Some 2%nat) true true true) =
    (Ret tt, mk false true 5 [] (Some 1%nat) (Some 2%nat) true true true, []).
Proof.
  split; [reflexivity|].
  exact (disabled_detector_is_silent
           [machine 1 [cs2_process] []; machine 1 [] []]
           (mk false true 5 [] (Some 1%nat) (Some 2%nat) true true true)
           eq_refl).
Defined.

(** *** Bringing a game to the front *)

Lemma focus_callback_calls g pid hwnd :
  Forall (fun c =>
            exists tid,
              c = SetForegroundWindow_call hwnd /\
              GetWindowThreadProcessId g hwnd = Ret (tid, pid) /\
              IsWindowVisible g hwnd = Ret true)
         (trace_of (focus_callback g pid hwnd tt)).
Proof.
  unfold focus_callback, bind, lift, emit, ret, trace_of.
  destruct (GetWindowThreadProcessId g hwnd) as [[tid found]|e] eqn:Hg;
    cbn [fst snd]; [|constructor].
  destruct (found =? pid) eqn:Hf; cbn [fst snd app]; [|constructor].
  apply Z.eqb_eq in Hf as ->.
  destruct (IsWindowVisible g hwnd) as [[|]|e] eqn:Hv; cbn [fst snd app];
    [|constructor|constructor].
  destruct (SetForegroundWindow g hwnd); cbn [fst snd app];
    (constructor; [exists tid; auto|constructor]).
Qed.

Lemma EnumWindows_calls g pid hwnds :
  Forall (fun c =>
            exists hwnd tid,
              c = SetForegroundWindow_call hwnd /\ hwnd ∈ hwnds /\
              GetWindowThreadProcessId g hwnd = Ret (tid, pid) /\
              IsWindowVisible g hwnd = Ret true)
         (trace_of (EnumWindows g pid hwnds tt)).
Proof.
  induction hwnds as [|hwnd hwnds IH]; cbn [EnumWindows]; [constructor|].
  rewrite bind_run. pose proof (focus_callback_calls g pid hwnd) as Hcb.
  destruct (focus_callback g pid hwnd tt) as [[[go|e] []] t1].
  - unfold trace_of in *. cbn [fst snd] in *. apply Forall_app. split.
    + eapply Forall_impl; [exact Hcb|]. intros c (tid & -> & H1 & H2).
      exists hwnd, tid. split; [reflexivity|]. split; [left|auto].
    + destruct go.
      * eapply Forall_impl; [exact IH|].
        intros c (h & tid & -> & H0 & H1 & H2).
        exists h, tid. split; [reflexivity|]. split; [right; exact H0|auto].
      * unfold lift. cbn [snd]. constructor.
  - unfold trace_of in *. cbn [fst snd] in *.
    eapply Forall_impl; [exact Hcb|]. intros c (tid & -> & H1 & H2).
    exists hwnd, tid. split; [reflexivity|]. split; [left|auto].
Qed.

Lemma focus_step_match g names_lower q n ps :
  str_in (lower n) names_lower = true ->
  focus_loop g names_lower (ProcInfo q (Some n) :: ps) tt =
    match EnumWindows g q (windows g) tt with
    | (Ret _, _, t) => (Ret true, tt, t)
    | (Raise e, _, t) =>
        if skipped e
        then (result_of (focus_loop g names_lower ps tt), tt,
              t ++ trace_of (focus_loop g names_lower ps tt))
        else (Raise e, tt, t)
    end.
Proof.
  intros Hm. cbn [focus_loop]. rewrite Hm.
  unfold bind, try_except, ret, raise, result_of, trace_of.
  destruct (EnumWindows g q (windows g) tt) as [[[[]|e] []] t]; cbn [fst snd].
  - rewrite !app_nil_r. reflexivity.
  - destruct (skipped e); cbn [fst snd]; rewrite ?app_nil_r; [|reflexivity].
    destruct (focus_loop g names_lower ps tt) as [[r []] t2]. reflexivity.
Qed.

Lemma focus_step_other g names_lower q n ps :
  str_in (lower n) names_lower = false ->
  focus_loop g names_lower (ProcInfo q (Some n) :: ps) tt =
    focus_loop g names_lower ps tt.
Proof.
  intros Hm. cbn [focus_loop]. rewrite Hm.
  unfold bind, try_except, ret. cbn [fst snd].
  destruct (focus_loop g names_lower ps tt) as [[r []] t2]. reflexivity.
Qed.

Lemma focus_step_nameless g names_lower q ps :
  focus_loop g names_lower (ProcInfo q None :: ps) tt =
    (Raise AttributeError, tt, []).
Proof. reflexivity. Qed.

Lemma focus_loop_calls g names_lower ps :
  Forall (fun c =>
            exists hwnd tid pid n,
              c = SetForegroundWindow_call hwnd /\ hwnd ∈ windows g /\
              GetWindowThreadProcessId g hwnd = Ret (tid, pid) /\
              IsWindowVisible g hwnd = Ret true /\
              ProcInfo pid (Some n) ∈ ps /\
              str_in (lower n) names_lower = true)
         (trace_of (focus_loop g names_lower ps tt)) /\
  (result_of (focus_loop g names_lower ps tt) = Ret true ->
   exists pid n, ProcInfo pid (Some n) ∈ ps /\
                 str_in (lower n) names_lower = true).
Proof.
  induction ps as [|p ps [IH1 IH2]].
  - split; [constructor|discriminate].
  - assert (Htail :
      Forall (fun c =>
                exists hwnd tid pid n,
                  c = SetForegroundWindow_call hwnd /\ hwnd ∈ windows g /\
                  GetWindowThreadProcessId g hwnd = Ret (tid, pid) /\
                  IsWindowVisible g hwnd = Ret true /\
                  ProcInfo pid (Some n) ∈ p :: ps /\
                  str_in (lower n) names_lower = true)
             (trace_of (focus_loop g names_lower ps tt)) /\
      (result_of (focus_loop g names_lower ps tt) = Ret true ->
       exists pid n, ProcInfo pid (Some n) ∈ p :: ps /\
                     str_in (lower n) names_lower = true)).
    { split.
      - eapply Forall_impl; [exact IH1|].
        intros c (h & tid & pid & n & -> & H0 & H1 & H2 & H3 & H4).
        exists h, tid, pid, n. repeat split; try assumption. right. exact H3.
      - intros Hr. destruct (IH2 Hr) as (pid & n & H3 & H4).
        exists pid, n. split; [right; exact H3|exact H4]. }
    destruct p as [q [n|]|e].
    + destruct (str_in (lower n) names_lower) eqn:Hm;
        [|rewrite focus_step_other by exact Hm; exact Htail].
      rewrite focus_step_match by exact Hm.
      pose proof (EnumWindows_calls g q (windows g)) as Hen.
      assert (Hen' :
        Forall (fun c =>
           exists hwnd tid pid n0,
             c = SetForegroundWindow_call hwnd /\ hwnd ∈ windows g /\
             GetWindowThreadProcessId g hwnd = Ret (tid, pid) /\
             IsWindowVisible g hwnd = Ret true /\
             ProcInfo pid (Some n0) ∈ ProcInfo q (Some n) :: ps /\
             str_in (lower n0) names_lower = true)
          (trace_of (EnumWindows g q (windows g) tt))).
      { eapply Forall_impl; [exact Hen|].
        intros c (h & tid & -> & H0 & H1 & H2).
        exists h, tid, q, n. repeat split; try assumption. left. }
      assert (Hhere : exists pid n0,
                ProcInfo pid (Some n0) ∈ ProcInfo q (Some n) :: ps /\
                str_in (lower n0) names_lower = true).
      { exists q, n. split; [left|exact Hm]. }
      destruct (EnumWindows g q (windows g) tt) as [[[[]|e] []] t1];
        unfold trace_of, result_of in *; cbn [fst snd] in *.
      * split; [exact Hen'|]. intros _. exact Hhere.
      * destruct (skipped e); cbn [fst snd].
        -- split; [|intros _; exact Hhere].
           apply Forall_app. split; [exact Hen'|apply Htail].
        -- split; [exact Hen'|discriminate].
    + rewrite focus_step_nameless. split; [constructor|discriminate].
    + cbn [focus_loop]. destruct (skipped e); [exact Htail|].
      split; [constructor|discriminate].
Qed.

(** X23: [focus_game] raises only windows of the game: every
    [SetForegroundWindow] call is made on a top-level window that is
    visible and belongs to a running process whose name is, in lower
    case, one of the executables the catalog lists for the game; and it
    returns [True] only if such a process is running. *)
Theorem focus_game_raises_only_game_windows w g s game_name :
  let names := map lower (catalog_get SUPPORTED_GAMES game_name) in
  Forall (fun c =>
            exists hwnd tid pid n,
              c = SetForegroundWindow_call hwnd /\ hwnd ∈ windows g /\
              GetWindowThreadProcessId g hwnd = Ret (tid, pid) /\
              IsWindowVisible g hwnd = Ret true /\
              ProcInfo pid (Some n) ∈ (process_iter w).1 /\
              str_in (lower n) names = true)
         (focus_game w g s game_name).2 /\
  ((focus_game w g s game_name).1 = true ->
   exists pid n, ProcInfo pid (Some n) ∈ (process_iter w).1 /\
                 str_in (lower n) names = true).
Proof.
  cbn zeta. unfold focus_game.
  destruct (negb (_win32_available s) || negb (_psutil_available s));
    [split; [constructor|discriminate]|].
  destruct (catalog_get SUPPORTED_GAMES game_name) as [|p0 names] eqn:Hcat;
    [split; [constructor|discriminate]|].
  destruct (focus_loop_calls g (map lower (p0 :: names)) (process_iter w).1)
    as [H1 H2].
  unfold try_except.
  destruct (focus_loop g (map lower (p0 :: names)) (process_iter w).1 tt)
    as [[[b|e] []] t]; unfold trace_of, result_of in *; cbn [fst snd] in *.
  - split; [exact H1|]. intros ->. apply H2. reflexivity.
  - unfold ret. cbn [fst snd]. rewrite app_nil_r.
    split; [exact H1|discriminate].
Qed.

(** X24: a process without a name stops the search: when the process
    table shows such a process before any process of the game,
    [focus_game] returns [False] and touches no window, even if the game
    is running further down the table. *)
Theorem focus_game_gives_up_on_nameless_process w g s game_name
    before pid after_it :
  (process_iter w).1 = before ++ ProcInfo pid None :: after_it ->
  Forall (fun p =>
            match p with
            | ProcInfo _ (Some n) =>
                str_in (lower n)
                  (map lower (catalog_get SUPPORTED_GAMES game_name)) = false
            | ProcInfo _ None => False
            | ProcRaises e => skipped e = true
            end) before ->
  focus_game w g s game_name = (false, []).
Proof.
  intros Htable Hbefore. unfold focus_game.
  destruct (negb (_win32_available s) || negb (_psutil_available s));
    [reflexivity|].
  destruct (catalog_get SUPPORTED_GAMES game_name) as [|p0 names];
    [reflexivity|].
  rewrite Htable. clear Htable.
  assert (Hloop : focus_loop g (map lower (p0 :: names))
                    (before ++ ProcInfo pid None :: after_it) tt
                  = (Raise AttributeError, tt, [])).
  { induction Hbefore as [|p before Hp _ IH]; cbn [app].
    - apply focus_step_nameless.
    - destruct p as [q [n|]|e]; [|contradiction|].
      + rewrite focus_step_other by exact Hp. exact IH.
      + cbn [focus_loop]. rewrite Hp. exact IH. }
  unfold try_except. rewrite Hloop. reflexivity.
Qed.

Lemma focus_game_gives_up_on_nameless_process_witness :
  (process_iter (machine 1 [ProcInfo 7 (Some "x.exe"); ProcInfo 8 None;
                            cs2_process] [])).1
    = [ProcInfo 7 (Some "x.exe")] ++ ProcInfo 8 None :: [cs2_process] /\
  Forall (fun p =>
            match p with
            | ProcInfo _ (Some n) =>
                str_in (lower n)
                  (map lower (catalog_get SUPPORTED_GAMES "Counter-Strike 2"))
                = false
            | ProcInfo _ None => False
            | ProcRaises e => skipped e = true
            end) [ProcInfo 7 (Some "x.exe")] /\
  focus_game (machine 1 [ProcInfo 7 (Some "x.exe"); ProcInfo 8 None;
                         cs2_process] [])
    screen listening_detector "Counter-Strike 2" = (false, []).
Proof.
  assert (Hbefore :
    Forall (fun p =>
              match p with
              | ProcInfo _ (Some n) =>
                  str_in (lower n)
                    (map lower (catalog_get SUPPORTED_GAMES "Counter-Strike 2"))
                  = false
              | ProcInfo _ None => False
              | ProcRaises e => skipped e = true
              end) [ProcInfo 7 (Some "x.exe")]).
  { constructor; [reflexivity|constructor]. }
  split; [reflexivity|]. split; [exact Hbefore|].
  exact (focus_game_gives_up_on_nameless_process
           (machine 1 [ProcInfo 7 (Some "x.exe"); ProcInfo 8 None;
                       cs2_process] [])
           screen listening_detector "Counter-Strike 2"
           [ProcInfo 7 (Some "x.exe")] 8 [cs2_process] eq_refl Hbefore).
Defined.
End GameDetectorFurther.

(** * Properties of the callers in the application *)

Section ApplicationProperties.
Import OpenGameBoostApp.
#[local] Set Warnings "-clear-no-such-hyp".

Lemma with_suspend_service_same app svc :
  suspend_service app = Some svc -> with_suspend_service svc app = app.
Proof. destruct app. cbn. intros ->. reflexivity. Qed.

(** X25: the Activate button cannot succeed with a service whose toggles
    carry the names of its methods, which includes the service as the
    application builds it: [run_activation] then reaches none of the
    memory, power, network and registry optimizations, makes no kernel
    call, and hands [_on_game_mode_error] to the window.  The toggles of
    the window do not change this, as they are stored under other names. *)
Theorem run_activation_always_errors w c app svc :
  suspend_service app = Some svc ->
  SuspendService.Attrs.enabled svc = true ->
  SuspendService.Attrs.suspend_explorer svc
    || SuspendService.Attrs.suspend_browsers svc
    || SuspendService.Attrs.suspend_launchers svc = true ->
  run_activation w c app = (Ret tt, app, [after _on_game_mode_error]).
Proof.
  intros Hsvc Hen Hany. unfold run_activation, try_except.
  unfold bind at 1. unfold get at 1. rewrite Hsvc.
  unfold bind at 1. unfold bind at 1. unfold on_suspend_service.
  rewrite (activate_shadowed w svc Hen Hany). cbn [map].
  rewrite (with_suspend_service_same app svc Hsvc). reflexivity.
Qed.

Lemma run_activation_always_errors_witness :
  suspend_service windows_app = Some fresh_service /\
  SuspendService.Attrs.enabled fresh_service = true /\
  SuspendService.Attrs.suspend_explorer fresh_service
    || SuspendService.Attrs.suspend_browsers fresh_service
    || SuspendService.Attrs.suspend_launchers fresh_service = true /\
  run_activation (machine 1 desktop []) helpful windows_app =
    (Ret tt, windows_app, [after _on_game_mode_error]).
Proof.
  split; [reflexivity|]. split; [reflexivity|]. split; [reflexivity|].
  exact (run_activation_always_errors (machine 1 desktop []) helpful
           windows_app fresh_service eq_refl eq_refl eq_refl).
Defined.

Lemma quiet_app a b : quiet a -> quiet b -> quiet (a ++ b).
Proof. apply Forall_app_2. Qed.

Lemma stays_quiet_ret {A} (a : A) : stays_quiet (ret a).
Proof. intros app. constructor. Qed.

Lemma stays_quiet_get : stays_quiet get.
Proof. intros app. constructor. Qed.

Lemma stays_quiet_bind {A B} (m : App A) (k : A -> App B) :
  stays_quiet m -> (forall a, stays_quiet (k a)) -> stays_quiet (bind m k).
Proof.
  intros Hm Hk app. specialize (Hm app). unfold bind, trace_of in *.
  destruct (m app) as [[[a|e] s1] t1]; cbn [fst snd] in *; [|exact Hm].
  specialize (Hk a s1). unfold trace_of in Hk.
  destruct (k a s1) as [[r s2] t2]. cbn [fst snd] in *.
  apply quiet_app; assumption.
Qed.

Lemma stays_quiet_collaborate c o :
  is_after c = false -> stays_quiet (collaborate c o).
Proof.
  intros Hc app0. unfold collaborate, bind, emit, lift, trace_of.
  cbn [fst snd]. destruct o; cbn [fst snd];
    (constructor; [exact Hc|constructor]).
Qed.

Lemma stays_quiet_optional (b : bool) c o :
  is_after c = false ->
  stays_quiet (if b then collaborate c o else ret tt).
Proof.
  intros Hc. destruct b; [apply stays_quiet_collaborate; exact Hc|].
  apply stays_quiet_ret.
Qed.

Lemma stays_quiet_on_suspend_service {A} svc (m : SuspendService.Meth A) :
  stays_quiet (on_suspend_service svc m).
Proof.
  intros app. unfold on_suspend_service, trace_of.
  destruct (m svc) as [[r svc'] calls]. cbn [fst snd].
  induction calls as [|x calls IH]; constructor; [reflexivity|exact IH].
Qed.

Lemma hands_over_bind {A B} expected (m : App A) (k : A -> App B) :
  stays_quiet m -> (forall a, hands_over expected (k a)) ->
  hands_over expected (bind m k).
Proof.
  intros Hm Hk app. specialize (Hm app).
  unfold bind, trace_of, result_of in *.
  destruct (m app) as [[[a|e] s1] t1]; cbn [fst snd] in *; [|exact Hm].
  specialize (Hk a s1). unfold trace_of, result_of in Hk.
  destruct (k a s1) as [[[b|e] s2] t2]; cbn [fst snd] in *.
  - destruct Hk as (calls & cb & -> & Hq & Hcb).
    exists (t1 ++ calls), cb.
    split; [apply app_assoc|]. split; [apply quiet_app; assumption|exact Hcb].
  - apply quiet_app; assumption.
Qed.

Lemma hands_over_emit (expected : scheduled -> Prop) cb :
  expected cb -> hands_over expected (emit (after cb)).
Proof.
  intros Hcb app. cbn. exists [], cb.
  split; [reflexivity|]. split; [constructor|exact Hcb].
Qed.

Lemma hands_over_guarded (expected : scheduled -> Prop) (body : App unit)
    app :
  hands_over expected body ->
  expected _on_game_mode_error ->
  result_of
    (try_except body (fun _ => emit (after _on_game_mode_error)) app)
    = Ret tt /\
  exists calls cb,
    trace_of
      (try_except body (fun _ => emit (after _on_game_mode_error)) app)
      = calls ++ [after cb] /\
    quiet calls /\ expected cb.
Proof.
  intros Hbody Herr. specialize (Hbody app).
  unfold try_except, emit, trace_of, result_of in *.
  destruct (body app) as [[[[]|e] s1] t1]; cbn [fst snd] in *.
  - split; [reflexivity|exact Hbody].
  - split; [reflexivity|]. exists t1, _on_game_mode_error. auto.
Qed.

(** X26: the two background jobs behind the Activate and Deactivate
    buttons let no exception escape, whatever the kernel and the other
    services answer, and hand over to the window's thread exactly once,
    as their last call: the error callback or the callback of the
    finished job. *)
Theorem background_jobs_hand_over_once w c app :
  (result_of (run_activation w c app) = Ret tt /\
   exists calls cb,
     trace_of (run_activation w c app) = calls ++ [after cb] /\
     Forall (fun x => is_after x = false) calls /\
     (cb = _on_game_mode_error \/
      exists results, cb = _on_game_mode_activated results)) /\
  (result_of (run_deactivation w c app) = Ret tt /\
   exists calls cb,
     trace_of (run_deactivation w c app) = calls ++ [after cb] /\
     Forall (fun x => is_after x = false) calls /\
     (cb = _on_game_mode_error \/ cb = _on_game_mode_deactivated)).
Proof.
  split.
  - apply (hands_over_guarded activation_outcome); [|left; reflexivity].
    apply hands_over_bind; [apply stays_quiet_get|]. intros app0.
    apply hands_over_bind.
    { destruct (suspend_service app0) as [svc|]; [|apply stays_quiet_ret].
      apply stays_quiet_bind; [apply stays_quiet_on_suspend_service|].
      intros result. apply stays_quiet_ret. }
    intros results.
    apply hands_over_bind; [apply stays_quiet_get|]. intros app1.
    repeat (apply hands_over_bind;
            [apply stays_quiet_optional; reflexivity|intros _]).
    apply hands_over_emit. right. exists results. reflexivity.
  - apply (hands_over_guarded deactivation_outcome); [|left; reflexivity].
    apply hands_over_bind; [apply stays_quiet_get|]. intros app0.
    apply hands_over_bind.
    { destruct (suspend_service app0) as [svc|]; [|apply stays_quiet_ret].
      apply stays_quiet_bind; [apply stays_quiet_on_suspend_service|].
      intros result. apply stays_quiet_ret. }
    intros _.
    apply hands_over_bind; [apply stays_quiet_get|]. intros app1.
    repeat (apply hands_over_bind;
            [apply stays_quiet_optional; reflexivity|intros _]).
    apply hands_over_emit. right. reflexivity.
Qed.

(** X27: the Scan button polls at once, whether or not the detector is
    enabled, and with a detector that can list processes it answers
    [True] and leaves the game-mode flag set exactly when some running
    process has a non-empty name that the catalog maps to a game. *)
Theorem scan_games_sets_game_mode w app d found :
  game_detector app = Some d ->
  GameDetectorService._psutil_available d = true ->
  GameDetectorService.scan_processes w = Ret found ->
  result_of (_scan_games w app) = Ret true /\
  (game_mode_active (state_of (_scan_games w app)) = true <->
   exists pid n g,
     (pid, Some n) ∈ readable (process_iter w).1 /\ n <> "" /\
     GameDetectorService.match_game SUPPORTED_GAMES n = Some g).
Proof.
  intros Hd Hps Hscan.
  assert (Hrun : exists calls,
    _scan_games w app =
      (Ret true,
       with_game_mode_active
         (match elements found with [] => false | _ :: _ => true end)
         (with_game_detector
            (GameDetectorService.with_detected_games (elements found) d)
            app),
       calls)).
  { unfold _scan_games. unfold bind at 1. unfold get at 1. rewrite Hd.
    unfold bind at 1. unfold on_game_detector.
    rewrite (check_games_run w d found Hps Hscan).
    unfold bind at 1. unfold get at 1.
    cbn [with_game_detector game_detector
         GameDetectorService.get_running_games
         GameDetectorService.with_detected_games
         GameDetectorService.detected_games].
    destruct (elements found); cbn; eexists; reflexivity. }
  destruct Hrun as (calls & Hrun).
  assert (Hany : (exists g, g ∈ found) <->
    exists pid n g,
      (pid, Some n) ∈ readable (process_iter w).1 /\ n <> "" /\
      GameDetectorService.match_game SUPPORTED_GAMES n = Some g).
  { split.
    - intros (g & Hg).
      apply (scan_processes_spec w found g Hscan) in Hg
        as (pid & n & H1 & H2 & H3).
      exists pid, n, g. auto.
    - intros (pid & n & g & H). exists g.
      apply (scan_processes_spec w found g Hscan). exists pid, n. exact H. }
  rewrite <- Hany. rewrite Hrun. clear Hrun Hany.
  split; [reflexivity|]. unfold state_of. cbn.
  destruct (elements found) as [|g gs] eqn:He.
  - split; [discriminate|].
    intros (g & Hg). apply elem_of_elements in Hg. rewrite He in Hg.
    inversion Hg.
  - split; [|reflexivity].
    intros _. exists g. apply elem_of_elements. rewrite He. left.
Qed.

Lemma scan_games_sets_game_mode_witness :
  game_detector windows_app = Some listening_detector /\
  GameDetectorService._psutil_available listening_detector = true /\
  GameDetectorService.scan_processes (machine 1 [cs2_process] []) =
    Ret {["Counter-Strike 2"]} /\
  result_of (_scan_games (machine 1 [cs2_process] []) windows_app)
    = Ret true /\
  (game_mode_active
     (state_of (_scan_games (machine 1 [cs2_process] []) windows_app))
     = true <->
   exists pid n g,
     (pid, Some n) ∈ readable (process_iter (machine 1 [cs2_process] [])).1 /\
     n <> "" /\
     GameDetectorService.match_game SUPPORTED_GAMES n = Some g).
Proof.
  split; [reflexivity|]. split; [reflexivity|]. split; [reflexivity|].
  exact (scan_games_sets_game_mode (machine 1 [cs2_process] []) windows_app
           listening_detector {["Counter-Strike 2"]}
           eq_refl eq_refl eq_refl).
Defined.
End ApplicationProperties.
